(** * peres: the resource analyser of pev, embedded from [src/peres.c]

    The development follows the C file function by function.  Data read
    through pointers into the mapped image and every libpe service the file
    calls are part of the context record [pe_ctx_t]; buffer sizes coming from
    headers that are not part of the file are section variables. *)

From Stdlib Require Import ZArith NArith String Ascii List Bool Lia.
From Stdlib Require DecimalString HexadecimalString DecimalN DecimalZ HexadecimalN.
Import ListNotations.

Set Warnings "-register-all".

Local Open Scope string_scope.
Local Open Scope Z_scope.

(** ** Machine integers *)

Definition UINT32_MAX : Z := 0xffffffff.
Definition INT_MAX : Z := 0x7fffffff.

Definition is_uint32 (x : Z) : Prop := 0 <= x <= UINT32_MAX.

(** Conversions to the fixed-width unsigned types: reduction modulo 2^w. *)
Definition to_uint32 (x : Z) : Z := x mod 2 ^ 32.
Definition to_uint64 (x : Z) : Z := x mod 2 ^ 64.

(** An unsigned 32-bit value handed to a [%d] conversion is read back as a
    two's complement [int]. *)
Definition to_int32 (x : Z) : Z :=
  let u := to_uint32 x in if u <=? INT_MAX then u else u - 2 ^ 32.

(** ** printf conversions *)

Definition fmt_u (x : Z) : string :=
  DecimalString.NilZero.string_of_uint (N.to_uint (Z.to_N x)).

Definition fmt_d (x : Z) : string :=
  DecimalString.NilZero.string_of_int (Z.to_int x).

Definition fmt_x (x : Z) : string :=
  HexadecimalString.NilZero.string_of_uint (N.to_hex_uint (Z.to_N x)).

Fixpoint zeros (n : nat) : string :=
  match n with
  | O => ""
  | S k => String "0" (zeros k)
  end.

(** [%04x]: hexadecimal, padded with zeros on the left up to four digits. *)
Definition fmt_04x (x : Z) : string :=
  let s := fmt_x x in zeros (4 - String.length s) ++ s.

(** What a buffer of [size] bytes holds after [snprintf (buf, size, ...)]
    produced the text [s]: at most [size - 1] characters and the terminator. *)
Definition snprintf (size : nat) (s : string) : string :=
  substring 0 (size - 1) s.

(** [strncat (dest, src, n)]: at most [n] characters of [src] are appended. *)
Definition strncat (dest src : string) (n : nat) : string :=
  dest ++ substring 0 n src.

(** What a buffer holds for a reader of C strings: the characters before
    the first zero. *)
Fixpoint c_str (s : string) : string :=
  match s with
  | EmptyString => EmptyString
  | String a rest =>
      if Ascii.eqb a Ascii.zero then EmptyString else String a (c_str rest)
  end.

Definition newline : ascii := ascii_of_nat 10.

(** ** The resource node model

    The declarations of this part are libpe's; [peres.c] only uses them. *)

(** Modelled from the spec: the variant tag of a node, one of resource
    directory, directory entry, data string and data entry. *)
Inductive pe_resource_node_type_e : Set :=
| LIBPE_RDT_RESOURCE_DIRECTORY
| LIBPE_RDT_DIRECTORY_ENTRY
| LIBPE_RDT_DATA_STRING
| LIBPE_RDT_DATA_ENTRY.

(** Modelled from the spec: the three levels of the tree, 1 for the
    resource type, 2 for the name or id, 3 for the language. *)
Definition LIBPE_RDT_LEVEL1 : Z := 1.
Definition LIBPE_RDT_LEVEL2 : Z := 2.
Definition LIBPE_RDT_LEVEL3 : Z := 3.

(** Modelled from the spec: the payload of a resource directory, with the
    fields the dump prints. *)
Record IMAGE_RESOURCE_DIRECTORY : Set := {
  Characteristics : Z;        (* uint32_t *)
  TimeDateStamp : Z;          (* uint32_t *)
  MajorVersion : Z;           (* uint16_t *)
  MinorVersion : Z;           (* uint16_t *)
  NumberOfNamedEntries : Z;   (* uint16_t *)
  NumberOfIdEntries : Z       (* uint16_t *)
}.

(** Modelled from the spec: a directory entry is two 32-bit words, each
    seen through a union as the whole word or as a 31-bit field with a flag
    in the top bit; the string flag and the name offset or id are views of
    the same word. *)
Record IMAGE_RESOURCE_DIRECTORY_ENTRY : Set := {
  u0_Name : Z;                (* u0.Name, uint32_t *)
  u1_OffsetToData : Z         (* u1.OffsetToData, uint32_t *)
}.

Definition NameOffset (e : IMAGE_RESOURCE_DIRECTORY_ENTRY) : Z :=
  Z.land (u0_Name e) 0x7fffffff.
Definition NameIsString (e : IMAGE_RESOURCE_DIRECTORY_ENTRY) : Z :=
  Z.land (Z.shiftr (u0_Name e) 31) 1.
Definition OffsetToDirectory (e : IMAGE_RESOURCE_DIRECTORY_ENTRY) : Z :=
  Z.land (u1_OffsetToData e) 0x7fffffff.
Definition DataIsDirectory (e : IMAGE_RESOURCE_DIRECTORY_ENTRY) : Z :=
  Z.land (Z.shiftr (u1_OffsetToData e) 31) 1.

(** Modelled from the spec: a length-prefixed wide-character string. *)
Record IMAGE_RESOURCE_DATA_STRING_U : Set := {
  Length : Z;                 (* uint16_t *)
  String_ : list Z            (* the UTF-16 code units that follow *)
}.

(** Modelled from the spec: the payload of a data entry. *)
Record IMAGE_RESOURCE_DATA_ENTRY : Set := {
  OffsetToData : Z;           (* uint32_t, a relative virtual address *)
  Size : Z;                   (* uint32_t *)
  CodePage : Z;               (* uint32_t *)
  Reserved : Z                (* uint32_t *)
}.

(** Modelled from the spec: the fixed version record, as the two pairs of
    32-bit fields the decoder reads from it. *)
Record VS_FIXEDFILEINFO : Set := {
  dwFileVersionMS : Z;
  dwFileVersionLS : Z;
  dwProductVersionMS : Z;
  dwProductVersionLS : Z
}.

(** Modelled from the spec: the variant-specific payload of a node, that
    is [node->type] together with the member of [node->raw] it selects. *)
Inductive pe_resource_raw : Set :=
| resourceDirectory (d : IMAGE_RESOURCE_DIRECTORY)
| directoryEntry (e : IMAGE_RESOURCE_DIRECTORY_ENTRY)
| dataString (s : IMAGE_RESOURCE_DATA_STRING_U)
| dataEntry (e : IMAGE_RESOURCE_DATA_ENTRY).

(** Modelled from the spec: the fields of a node that are read through the
    node itself or through a chain of [parentNode] links. *)
Inductive pe_resource_node_t : Set :=
  mk_node {
    raw : pe_resource_raw;
    dirLevel : Z;             (* uint32_t *)
    parentNode : option pe_resource_node_t
  }.

Definition type (n : pe_resource_node_t) : pe_resource_node_type_e :=
  match raw n with
  | resourceDirectory _ => LIBPE_RDT_RESOURCE_DIRECTORY
  | directoryEntry _ => LIBPE_RDT_DIRECTORY_ENTRY
  | dataString _ => LIBPE_RDT_DATA_STRING
  | dataEntry _ => LIBPE_RDT_DATA_ENTRY
  end.

Definition type_eqb (a b : pe_resource_node_type_e) : bool :=
  match a, b with
  | LIBPE_RDT_RESOURCE_DIRECTORY, LIBPE_RDT_RESOURCE_DIRECTORY
  | LIBPE_RDT_DIRECTORY_ENTRY, LIBPE_RDT_DIRECTORY_ENTRY
  | LIBPE_RDT_DATA_STRING, LIBPE_RDT_DATA_STRING
  | LIBPE_RDT_DATA_ENTRY, LIBPE_RDT_DATA_ENTRY => true
  | _, _ => false
  end.

(** Modelled from the spec: a [const pe_resource_node_t *], the null
    pointer or a node with its first child [childNode] and its next sibling
    [nextNode]. *)
Inductive node_ptr : Set :=
| NULL
| Node (n : pe_resource_node_t) (childNode nextNode : node_ptr).

(** The links of a tree agree when every node reached through [childNode]
    names the node it hangs under as its [parentNode], and the nodes of one
    [nextNode] chain share their parent. *)
Fixpoint well_linked (parent : option pe_resource_node_t) (p : node_ptr) : Prop :=
  match p with
  | NULL => True
  | Node n c s =>
      parentNode n = parent /\ well_linked (Some n) c /\ well_linked parent s
  end.

Fixpoint node_count (p : node_ptr) : nat :=
  match p with
  | NULL => O
  | Node _ c s => S (node_count c + node_count s)
  end.

(** ** The well-known resource types *)

(** Modelled from the spec: an entry of libpe's table of well-known types,
    with the fields [peres.c] reads. *)
Record pe_resource_entry_info_t : Set := {
  entry_name : string;        (* name *)
  entry_type : Z;             (* type, uint32_t *)
  extension : string;
  dir_name : string
}.

(** ** The loaded image *)

(** Modelled from the spec: what [peres.c] obtains from a [pe_ctx_t *],
    namely libpe's address translation and bounds check, the resources it
    caches, and the structured views of the mapped bytes that the file
    reads through casts.  Pointers into the mapped file are kept as byte
    offsets from [map_addr]. *)
Record pe_ctx_t : Type := {
  pe_rva2ofs : Z -> Z;
  pe_can_read : Z -> Z -> bool;
  resource_base_ptr : Z;
  root_node : node_ptr;
  data_string_at : Z -> IMAGE_RESOURCE_DATA_STRING_U;
  fixedfileinfo_at : Z -> VS_FIXEDFILEINFO;
  bytes_at : Z -> Z -> list Z;
  map_end : Z
}.

Definition LIBPE_PTR_ADD (p o : Z) : Z := p + o.
Definition map_addr : Z := 0.

(** Modelled from the spec: [sizeof (IMAGE_RESOURCE_DATA_STRING_U)], a
    16-bit length and one 16-bit code unit. *)
Definition sizeof_IMAGE_RESOURCE_DATA_STRING_U : Z := 4.

(** Modelled from the spec: the bytes of a length-prefixed wide string that
    are read when [count] of its code units are: the 16-bit length and the
    units, and no fewer than the structure has. *)
Definition sizeof_data_string_read (count : nat) : Z :=
  Z.max sizeof_IMAGE_RESOURCE_DATA_STRING_U (2 + 2 * Z.of_nat count).

(** Modelled from the spec: the place of the two pairs of 32-bit fields in
    the fixed version record, behind its signature and structure version,
    and the size of a pair. *)
Definition offsetof_dwFileVersionMS : Z := 8.
Definition offsetof_dwProductVersionMS : Z := 16.
Definition sizeof_version_pair : Z := 8.

(** ** The process environment *)

Inductive fs_entry : Set :=
| Dir
| File (content : list Z).

(** Paths known to the file system, latest binding first. *)
Definition filesystem : Set := list (string * fs_entry).

Fixpoint fs_lookup (fs : filesystem) (path : string) : option fs_entry :=
  match fs with
  | [] => None
  | (p, e) :: rest => if String.eqb p path then Some e else fs_lookup rest path
  end.

(** What the program does that can be seen from outside, in program order. *)
Inductive event : Set :=
| Output (label value : string)        (* output (label, value) *)
| Warning (msg : string)               (* LIBPE_WARNING (msg) *)
| Stderr (msg : string)                (* fprintf (stderr, ...) *)
| Stdout (msg : string)                (* printf (...) *)
| SysStat (path : string)
| SysMkdir (path : string)
| SysFopen (path : string)
| SysFwrite (path : string) (data : list Z)
| SysFclose (path : string).

(** The state a call can change: the context behind the [pe_ctx_t *] every
    function receives, the file system, and the number of search result
    items that are allocated and not yet released. *)
Record state : Type := {
  st_ctx : pe_ctx_t;
  st_fs : filesystem;
  st_search_items : nat
}.

Inductive fault : Set :=
| NullDereference
| AssertionFailure
| OutOfBoundsWrite
| OutOfBoundsRead
| SignedOverflow
| WrongUnionMember.

(** ** Statements

    A statement of a function whose return type is [R] either completes and
    yields an [A], executes [return], or stops the process. *)
Inductive outcome (R A : Type) : Type :=
| Normal (a : A) (s : state)
| Returned (r : R) (s : state)
| Crashed (f : fault) (s : state).

Arguments Normal {R A} a s.
Arguments Returned {R A} r s.
Arguments Crashed {R A} f s.

Definition M (R A : Type) : Type := state -> list event * outcome R A.

Definition pure {R A} (a : A) : M R A := fun s => ([], Normal a s).

Definition bind {R A B} (m : M R A) (k : A -> M R B) : M R B :=
  fun s =>
    match m s with
    | (l1, Normal a s1) => let (l2, o) := k a s1 in ((l1 ++ l2)%list, o)
    | (l1, Returned r s1) => (l1, Returned r s1)
    | (l1, Crashed f s1) => (l1, Crashed f s1)
    end.

Definition return_ {R A} (r : R) : M R A := fun s => ([], Returned r s).
Definition crash {R A} (f : fault) : M R A := fun s => ([], Crashed f s).
Definition emit {R} (e : event) : M R unit := fun s => ([e], Normal tt s).
Definition get {R} : M R state := fun s => ([], Normal s s).
Definition put {R} (s' : state) : M R unit := fun _ => ([], Normal tt s').

(** Calling a function: its [return] ends the callee, not the caller. *)
Definition call {R R'} (body : M R R) : M R' R :=
  fun s =>
    match body s with
    | (l, Normal a s1) => (l, Normal a s1)
    | (l, Returned r s1) => (l, Normal r s1)
    | (l, Crashed f s1) => (l, Crashed f s1)
    end.

Declare Scope stmt_scope.
Delimit Scope stmt_scope with stmt.
Notation "x <- m ;; k" := (bind m (fun x => k))
  (at level 61, m at next level, right associativity) : stmt_scope.
Notation "m ;; k" := (bind m (fun _ => k))
  (at level 61, right associativity) : stmt_scope.
Local Open Scope stmt_scope.

Definition when {R} (c : bool) (m : M R unit) : M R unit :=
  if c then m else pure tt.

Definition assert {R} (c : bool) : M R unit :=
  if c then pure tt else crash AssertionFailure.

Definition output {R} (label value : string) : M R unit := emit (Output label value).
Definition LIBPE_WARNING {R} (msg : string) : M R unit := emit (Warning msg).

Definition ctx {R} : M R pe_ctx_t := s <- get ;; pure (st_ctx s).

Definition events_of {R A} (r : list event * outcome R A) : list event := fst r.

Definition state_of {R A} (r : list event * outcome R A) : state :=
  match snd r with
  | Normal _ s | Returned _ s | Crashed _ s => s
  end.

(** [node->raw.directoryEntry] and [node->raw.dataEntry]: reading a member
    of the union that the node's type does not select is a fault. *)
Definition raw_directoryEntry {R} (n : pe_resource_node_t)
  : M R IMAGE_RESOURCE_DIRECTORY_ENTRY :=
  match raw n with
  | directoryEntry e => pure e
  | _ => crash WrongUnionMember
  end.

Definition raw_dataEntry {R} (n : pe_resource_node_t)
  : M R IMAGE_RESOURCE_DATA_ENTRY :=
  match raw n with
  | dataEntry e => pure e
  | _ => crash WrongUnionMember
  end.

(** Modelled from the spec: libpe's ancestor lookup, which is not part of
    [peres.c].  It locates the ancestor of the given type at the given level
    by walking up the parent links; no such ancestor gives the null
    pointer. *)
Fixpoint pe_resource_find_parent_node_by_type_and_level
    (node : pe_resource_node_t) (t : pe_resource_node_type_e) (level : Z)
  : option pe_resource_node_t :=
  match parentNode node with
  | None => None
  | Some parent =>
      if type_eqb (type parent) t && (dirLevel parent =? level)
      then Some parent
      else pe_resource_find_parent_node_by_type_and_level parent t level
  end.

(** Modelled from the spec: libpe's generic predicate search, which is not
    part of [peres.c].  The nodes of the subtree under [node] that satisfy
    the predicate, in the pre-order of the traversals (first [childNode],
    then [nextNode]). *)
Fixpoint search_forest (predicate : pe_resource_node_t -> bool) (node : node_ptr)
  : list node_ptr :=
  match node with
  | NULL => []
  | Node n c s =>
      ((if predicate n then [node] else [])
         ++ search_forest predicate c ++ search_forest predicate s)%list
  end.

Definition search_subtree (predicate : pe_resource_node_t -> bool) (node : node_ptr)
  : list node_ptr :=
  match node with
  | NULL => []
  | Node n c _ =>
      ((if predicate n then [node] else []) ++ search_forest predicate c)%list
  end.

(** Modelled from the spec: the search allocates the result list, one item
    per match, and the caller owns it. *)
Definition pe_resource_search_nodes {R} (node : node_ptr)
    (predicate : pe_resource_node_t -> bool) : M R (list node_ptr) :=
  let items := search_subtree predicate node in
  s <- get ;;
  put {| st_ctx := st_ctx s; st_fs := st_fs s;
         st_search_items := (st_search_items s + List.length items)%nat |} ;;
  pure items.

(** Modelled from the spec: the release of a result list by its owner. *)
Definition pe_resources_dealloc_node_search_result {R} (result : list node_ptr)
  : M R unit :=
  s <- get ;;
  put {| st_ctx := st_ctx s; st_fs := st_fs s;
         st_search_items := (st_search_items s - List.length result)%nat |}.

Definition g_resourceDir : string := "resources".

(** ** A small image for the examples

    A file system in the manner of POSIX, a table with a few of the
    well-known types, and a resource tree with a version resource and an
    icon. *)

Module Sample.

Definition MAX_MSG : nat := 81.
Definition MAX_PATH : nat := 256.
Definition RT_ICON : Z := 3.
Definition RT_VERSION : Z := 16.

Definition table : list pe_resource_entry_info_t :=
  [ {| entry_name := "RT_CURSOR"; entry_type := 1; extension := ".cur"; dir_name := "cursors" |};
    {| entry_name := "RT_BITMAP"; entry_type := 2; extension := ".bmp"; dir_name := "bitmaps" |};
    {| entry_name := "RT_ICON"; entry_type := RT_ICON; extension := ".ico"; dir_name := "icons" |};
    {| entry_name := "RT_VERSION"; entry_type := RT_VERSION; extension := ".rc"; dir_name := "versions" |} ].

(** Code units below 256 are kept, the others become question marks. *)
Definition widechar2ascii (w : list Z) (size : nat) : string :=
  string_of_list_ascii
    (List.map (fun u => if u <? 256 then ascii_of_nat (Z.to_nat u) else "?"%char)
              (List.firstn size w)).

(** The text before the last slash of a path. *)
Fixpoint dirname (path : string) : option string :=
  match path with
  | EmptyString => None
  | String a rest =>
      match dirname rest with
      | Some d => Some (String a d)
      | None => if Ascii.eqb a "/" then Some "" else None
      end
  end.

Definition parent_is_dir (fs : filesystem) (path : string) : bool :=
  match dirname path with
  | None => true
  | Some d =>
      match fs_lookup fs d with
      | Some Dir => true
      | _ => false
      end
  end.

Definition os_stat (fs : filesystem) (path : string) : Z :=
  match fs_lookup fs path with
  | Some _ => 0
  | None => -1
  end.

Definition os_mkdir (fs : filesystem) (path : string) : filesystem :=
  match fs_lookup fs path with
  | Some _ => fs
  | None => if parent_is_dir fs path then (path, Dir) :: fs else fs
  end.

Definition os_fopen (fs : filesystem) (path : string) : option filesystem :=
  match fs_lookup fs path with
  | Some Dir => None
  | _ => if parent_is_dir fs path then Some ((path, File []) :: fs) else None
  end.

Definition os_fwrite (fs : filesystem) (path : string) (data : list Z) : filesystem :=
  (path, File data) :: fs.

Definition dir0 : IMAGE_RESOURCE_DIRECTORY :=
  {| Characteristics := 0; TimeDateStamp := 0; MajorVersion := 4;
     MinorVersion := 0; NumberOfNamedEntries := 0; NumberOfIdEntries := 1 |}.

Definition entry (name : Z) : pe_resource_raw :=
  directoryEntry {| u0_Name := name; u1_OffsetToData := 0x80000000 |}.

Definition data (offset size : Z) : IMAGE_RESOURCE_DATA_ENTRY :=
  {| OffsetToData := offset; Size := size; CodePage := 0; Reserved := 0 |}.

Definition leaf (offset size : Z) : pe_resource_raw := dataEntry (data offset size).

(** One resource: type entry, name entry, language entry and data entry,
    each hanging under the directory of the level above. *)
Definition n_root : pe_resource_node_t := mk_node (resourceDirectory dir0) 0 None.
Definition n_type (id : Z) : pe_resource_node_t := mk_node (entry id) 1 (Some n_root).
Definition n_dir1 (id : Z) : pe_resource_node_t :=
  mk_node (resourceDirectory dir0) 1 (Some (n_type id)).
Definition n_name (id name : Z) : pe_resource_node_t :=
  mk_node (entry name) 2 (Some (n_dir1 id)).
Definition n_dir2 (id name : Z) : pe_resource_node_t :=
  mk_node (resourceDirectory dir0) 2 (Some (n_name id name)).
Definition n_lang (id name lang : Z) : pe_resource_node_t :=
  mk_node (entry lang) 3 (Some (n_dir2 id name)).
Definition n_data (id name lang offset size : Z) : pe_resource_node_t :=
  mk_node (leaf offset size) 3 (Some (n_lang id name lang)).

(** The language entries of one name, given as (language, offset, size). *)
Fixpoint langs (id name : Z) (l : list (Z * Z * Z)) : node_ptr :=
  match l with
  | [] => NULL
  | (lang, offset, size) :: rest =>
      Node (n_lang id name lang)
           (Node (n_data id name lang offset size) NULL NULL)
           (langs id name rest)
  end.

(** A type entry with a single name, followed by the entries [next]. *)
Definition resource (id name : Z) (l : list (Z * Z * Z)) (next : node_ptr) : node_ptr :=
  Node (n_type id)
       (Node (n_dir1 id)
             (Node (n_name id name)
                   (Node (n_dir2 id name) (langs id name l) NULL)
                   NULL)
             NULL)
       next.

Definition tree_of (entries : node_ptr) : node_ptr := Node n_root entries NULL.

(** The mapped file has 4096 bytes; addresses translate to themselves; the
    version record sits behind the 32 bytes that follow offset 256. *)
Definition image (root : node_ptr) : pe_ctx_t :=
  {| pe_rva2ofs := fun rva => rva;
     pe_can_read := fun p size => (0 <=? p) && (p + size <=? 4096);
     resource_base_ptr := 128;
     root_node := root;
     data_string_at := fun _ => {| Length := 2; String_ := [65; 66] |};
     fixedfileinfo_at := fun p =>
       if p =? 288
       then {| dwFileVersionMS := 0x00010002; dwFileVersionLS := 0x00030004;
               dwProductVersionMS := 0x00050006; dwProductVersionLS := 0x00070008 |}
       else {| dwFileVersionMS := 0; dwFileVersionLS := 0;
               dwProductVersionMS := 0; dwProductVersionLS := 0 |};
     bytes_at := fun p size => List.map (fun i => (p + Z.of_nat i) mod 256)
                                        (List.seq 0 (Z.to_nat size));
     map_end := 4096 |}.

Definition start (root : node_ptr) (fs : filesystem) : state :=
  {| st_ctx := image root; st_fs := fs; st_search_items := 0 |}.

(** A version resource in one language and an icon in one language. *)
Definition tree1 : node_ptr :=
  tree_of (resource RT_ICON 1 [(1033, 512, 4)]
             (resource RT_VERSION 1 [(1033, 256, 92)] NULL)).

(** A version resource in two languages; the data of the first lies
    outside the mapped file. *)
Definition tree2 : node_ptr :=
  tree_of (resource RT_VERSION 1 [(1033, 8192, 92); (1046, 256, 92)] NULL).

(** A resource whose type 77 is not in the table. *)
Definition tree3 : node_ptr :=
  tree_of (resource 77 5 [(1033, 512, 4)] NULL).

(** A version resource whose single language can be read. *)
Definition tree4 : node_ptr :=
  tree_of (resource RT_VERSION 1 [(1046, 256, 92)] NULL).

Definition icon1 : pe_resource_node_t := n_data RT_ICON 1 1033 512 4.
Definition icon2 : pe_resource_node_t := n_data RT_ICON 2 1033 600 4.
Definition version1 : pe_resource_node_t := n_data RT_VERSION 1 1033 256 92.
Definition unreadable : pe_resource_node_t := n_data RT_VERSION 1 1033 8192 92.
Definition other : pe_resource_node_t := n_data 77 5 1033 512 4.

(** A data entry marked level 3 that hangs under the directory of a type
    entry: it has a level-1 directory entry above it and none of level 2. *)
Definition stray : pe_resource_node_t :=
  mk_node (leaf 512 4) 3 (Some (n_dir1 RT_ICON)).

(** The image with other code units in its name strings. *)
Definition image_with_names (name : list Z) (root : node_ptr) : pe_ctx_t :=
  {| pe_rva2ofs := pe_rva2ofs (image root);
     pe_can_read := pe_can_read (image root);
     resource_base_ptr := resource_base_ptr (image root);
     root_node := root;
     data_string_at := fun _ =>
       {| Length := Z.of_nat (List.length name); String_ := name |};
     fixedfileinfo_at := fixedfileinfo_at (image root);
     bytes_at := bytes_at (image root);
     map_end := map_end (image root) |}.

(** Directory entries named by the strings at offsets 16, 32 and 48 of the
    resource section. *)
Definition string16 : Z := 0x80000010.
Definition string32 : Z := 0x80000020.
Definition string48 : Z := 0x80000030.

(** A resource whose type is named by a string. *)
Definition tree5 : node_ptr :=
  tree_of (resource string16 1 [(1033, 512, 4)] NULL).

Definition named1 : pe_resource_node_t := n_data string16 1 1033 512 4.

(** A resource whose type, name and language are named by strings. *)
Definition tree6 : node_ptr :=
  tree_of (resource string16 string32 [(string48, 512, 4)] NULL).

Definition named3 : pe_resource_node_t :=
  n_data string16 string32 string48 512 4.

(** A version resource whose record starts where the mapped file ends and
    declares no bytes. *)
Definition tree7 : node_ptr :=
  tree_of (resource RT_VERSION 1 [(1033, 4064, 0)] NULL).

(** A version resource whose record declares the sixteen bytes before the
    end of the mapped file. *)
Definition tree8 : node_ptr :=
  tree_of (resource RT_VERSION 1 [(1033, 4048, 16)] NULL).

End Sample.

(** ** The functions of [peres.c] *)

Section Peres.

(** Buffer sizes from [common.h] and libpe. *)
Variables MAX_MSG MAX_PATH : nat.

(** The identifier of the version resource type. *)
Variable RT_VERSION : Z.

(** Modelled from the spec: the static table of well-known resource types,
    mapping a level-1 type identifier to a display name, a file extension and
    a directory name. *)
Variable g_resource_dataentry_info_table : list pe_resource_entry_info_t.

(** libpe's conversion of UTF-16 code units to narrow text: the characters
    stored in the destination for the given count. *)
Variable pe_utils_str_widechar2ascii : list Z -> nat -> string.

(** The system calls the extractor makes.  [os_stat] gives 0 or -1,
    [os_fopen] gives the file system after a successful open for writing
    with truncation, or nothing when the stream is null. *)
Variable os_stat : filesystem -> string -> Z.
Variable os_mkdir : filesystem -> string -> filesystem.
Variable os_fopen : filesystem -> string -> option filesystem.
Variable os_fwrite : filesystem -> string -> list Z -> filesystem.

(** Modelled from the spec: libpe's lookup of a type identifier in the
    table of well-known types; no entry gives the null pointer. *)
Definition pe_resource_entry_info_lookup (name_offset : Z)
  : option pe_resource_entry_info_t :=
  List.find (fun e => entry_type e =? name_offset)
            g_resource_dataentry_info_table.

Definition stat {R} (path : string) : M R Z :=
  s <- get ;; emit (SysStat path) ;; pure (os_stat (st_fs s) path).

Definition mkdir {R} (path : string) : M R unit :=
  s <- get ;;
  emit (SysMkdir path) ;;
  put {| st_ctx := st_ctx s; st_fs := os_mkdir (st_fs s) path;
         st_search_items := st_search_items s |}.

(** The stream is named by the path it was opened on. *)
Definition fopen {R} (path : string) : M R (option string) :=
  s <- get ;;
  emit (SysFopen path) ;;
  match os_fopen (st_fs s) path with
  | Some fs' =>
      put {| st_ctx := st_ctx s; st_fs := fs';
             st_search_items := st_search_items s |} ;;
      pure (Some path)
  | None => pure None
  end.

Definition fwrite {R} (data : list Z) (fp : string) : M R unit :=
  s <- get ;;
  emit (SysFwrite fp data) ;;
  put {| st_ctx := st_ctx s; st_fs := os_fwrite (st_fs s) fp data;
         st_search_items := st_search_items s |}.

Definition fclose {R} (fp : string) : M R unit := emit (SysFclose fp).

Definition node_type_label : string := String newline "Node Type / Level".

(** The [default] branch of the switch answers a type outside the
    enumeration, which a value of the enumeration never is. *)
Definition peres_show_node {R} (node : pe_resource_node_t) : M R unit :=
  call (R := unit)
  match raw node with
  | resourceDirectory rd =>
      output node_type_label
        (snprintf MAX_MSG ("Resource Directory / " ++ fmt_d (to_int32 (dirLevel node)))) ;;
      output "Characteristics" (snprintf MAX_MSG (fmt_d (to_int32 (Characteristics rd)))) ;;
      output "Timestamp" (snprintf MAX_MSG (fmt_d (to_int32 (TimeDateStamp rd)))) ;;
      output "Major Version" (snprintf MAX_MSG (fmt_d (MajorVersion rd))) ;;
      output "Minor Version" (snprintf MAX_MSG (fmt_d (MinorVersion rd))) ;;
      output "Named entries" (snprintf MAX_MSG (fmt_d (NumberOfNamedEntries rd))) ;;
      output "Id entries" (snprintf MAX_MSG (fmt_d (NumberOfIdEntries rd)))
  | directoryEntry de =>
      output node_type_label
        (snprintf MAX_MSG ("Directory Entry / " ++ fmt_d (to_int32 (dirLevel node)))) ;;
      output "Name offset" (snprintf MAX_MSG (fmt_d (NameOffset de))) ;;
      output "Name is string" (snprintf MAX_MSG (fmt_d (NameIsString de))) ;;
      output "Offset to directory" (snprintf MAX_MSG (fmt_x (OffsetToDirectory de))) ;;
      output "Data is directory" (snprintf MAX_MSG (fmt_d (DataIsDirectory de)))
  | dataString ds =>
      output node_type_label
        (snprintf MAX_MSG ("Data String / " ++ fmt_d (to_int32 (dirLevel node)))) ;;
      output "String len" (snprintf MAX_MSG (fmt_d (Length ds))) ;;
      let min_size := Z.min (Z.of_nat MAX_MSG) (Length ds + 1) in
      let ascii_string :=
        substring 0 (Z.to_nat (min_size - 1))
          (pe_utils_str_widechar2ascii (String_ ds) (Z.to_nat min_size)) in
      output "String" (snprintf MAX_MSG (c_str ascii_string))
  | dataEntry de =>
      output node_type_label
        (snprintf MAX_MSG ("Data Entry / " ++ fmt_d (to_int32 (dirLevel node)))) ;;
      output "OffsetToData" (snprintf MAX_MSG (fmt_x (OffsetToData de))) ;;
      output "Size" (snprintf MAX_MSG (fmt_d (to_int32 (Size de)))) ;;
      output "CodePage" (snprintf MAX_MSG (fmt_d (to_int32 (CodePage de)))) ;;
      output "Reserved" (snprintf MAX_MSG (fmt_d (to_int32 (Reserved de))))
  end.

Fixpoint peres_show_nodes {R} (node : node_ptr) : M R unit :=
  call (R := unit)
  match node with
  | NULL => return_ tt
  | Node n c s =>
      peres_show_node n ;;
      peres_show_nodes c ;;
      peres_show_nodes s
  end.

(** The body of the loop over the levels, for the [count] levels that
    remain; [output] is the text accumulated in the caller's buffer.  The
    counter stays below 2^32 for every level a tree has.  The code units of
    a name are read with no check beyond that of the header, and the bytes
    stored for them are appended as a C string. *)
Fixpoint build_node_filename_levels (count : nat) (level : Z)
    (node : pe_resource_node_t) (output : string) (output_size : nat)
  : M string string :=
  match count with
  | O => pure output
  | S count' =>
      match pe_resource_find_parent_node_by_type_and_level
              node LIBPE_RDT_DIRECTORY_ENTRY level with
      | None => crash NullDereference
      | Some dir_entry_node =>
          de <- raw_directoryEntry dir_entry_node ;;
          partial_path <-
            (if negb (NameIsString de =? 0) then
               c <- ctx ;;
               let string_ptr := LIBPE_PTR_ADD (resource_base_ptr c) (NameOffset de) in
               if negb (pe_can_read c string_ptr sizeof_IMAGE_RESOURCE_DATA_STRING_U) then
                 LIBPE_WARNING "Cannot read IMAGE_RESOURCE_DATA_STRING_U" ;;
                 return_ output
               else
                 let ds := data_string_at c string_ptr in
                 let string_size :=
                   Z.to_nat (Z.min (to_uint64 (Z.of_nat MAX_PATH - 2)) (Length ds)) in
                 if negb (pe_can_read c string_ptr
                            (sizeof_data_string_read string_size)) then
                   crash OutOfBoundsRead
                 else
                   pure (c_str (substring 0 string_size
                                  (pe_utils_str_widechar2ascii (String_ ds)
                                     string_size) ++ " "))
             else
               let match_ := pe_resource_entry_info_lookup (NameOffset de) in
               match level =? 1, match_ with
               | true, Some m => pure (snprintf MAX_PATH (entry_name m ++ " "))
               | _, _ => pure (snprintf MAX_PATH (fmt_04x (NameOffset de) ++ " "))
               end) ;;
          build_node_filename_levels count' (level + 1) node
            (strncat output partial_path (output_size - String.length output - 1))
            output_size
      end
  end.

Definition peres_build_node_filename {R} (node : pe_resource_node_t)
    (output : string) (output_size : nat) : M R string :=
  call (R := string) (
    output' <- build_node_filename_levels (Z.to_nat (dirLevel node)) 1
                 node output output_size ;;
    let length := String.length output' in
    match length with
    | O => crash OutOfBoundsWrite
    | S k => pure (substring 0 k output')
    end).

Definition peres_show_list_node {R} (node : pe_resource_node_t) : M R unit :=
  call (R := unit)
  match raw node with
  | dataEntry de =>
      node_info <- peres_build_node_filename node "" MAX_PATH ;;
      emit (Stdout (node_info ++ " (" ++ fmt_d (to_int32 (Size de)) ++ " bytes)"
                      ++ String newline ""))
  | _ => pure tt
  end.

Fixpoint peres_show_list {R} (node : node_ptr) : M R unit :=
  call (R := unit)
  match node with
  | NULL => return_ tt
  | Node n c s =>
      peres_show_list_node n ;;
      peres_show_list c ;;
      peres_show_list s
  end.

(** [%p] and [%lx] of the diagnostic, on offsets from [map_addr]. *)
Definition fmt_p (p : Z) : string := "0x" ++ fmt_x p.

(** The directory the extractor writes into, [dirName], and the extension
    it gives the file, both decided by the table entry of the resource type
    when there is one. *)
Definition resource_dirName (entry_info : option pe_resource_entry_info_t) : string :=
  match entry_info with
  | Some info => snprintf 100 (g_resourceDir ++ "/" ++ dir_name info)
  | None => snprintf 100 g_resourceDir
  end.

Definition resource_extension (entry_info : option pe_resource_entry_info_t) : string :=
  match entry_info with
  | Some info => extension info
  | None => ".bin"
  end.

Definition peres_save_resource {R} (node : node_ptr) (namedExtract : bool)
  : M R unit :=
  call (R := unit)
  match node with
  | NULL => crash AssertionFailure
  | Node n _ _ =>
      assert (type_eqb (type n) LIBPE_RDT_DATA_ENTRY) ;;
      assert (dirLevel n =? LIBPE_RDT_LEVEL3) ;;
      entry <- raw_dataEntry n ;;
      c <- ctx ;;
      let raw_data_offset := pe_rva2ofs c (OffsetToData entry) in
      let raw_data_size := Size entry in
      let raw_data_ptr := LIBPE_PTR_ADD map_addr raw_data_offset in
      when (negb (pe_can_read c raw_data_ptr raw_data_size))
        (emit (Stderr ("Attempted to read range [ " ++ fmt_p raw_data_ptr ++ ", "
                         ++ fmt_p (LIBPE_PTR_ADD raw_data_ptr raw_data_size)
                         ++ " ] which is not within the mapped range [ "
                         ++ fmt_p map_addr ++ ", " ++ fmt_x (map_end c) ++ " ]"
                         ++ String newline "")) ;;
         return_ tt) ;;
      r <- stat g_resourceDir ;;
      when (r =? -1) (mkdir g_resourceDir) ;;
      match pe_resource_find_parent_node_by_type_and_level
              n LIBPE_RDT_DIRECTORY_ENTRY LIBPE_RDT_LEVEL1 with
      | None => crash NullDereference
      | Some folder_node =>
          folder <- raw_directoryEntry folder_node ;;
          let entry_info := pe_resource_entry_info_lookup (u0_Name folder) in
          let dirName := resource_dirName entry_info in
          r <- stat dirName ;;
          when (r =? -1) (mkdir dirName) ;;
          match pe_resource_find_parent_node_by_type_and_level
                  n LIBPE_RDT_DIRECTORY_ENTRY LIBPE_RDT_LEVEL2 with
          | None =>
              emit (Stderr ("pe_resource_find_parent_node_by_type_and_level returned NULL"
                              ++ String newline "")) ;;
              return_ tt
          | Some name_node =>
              let ext := resource_extension entry_info in
              relativeFileName <-
                (if namedExtract then
                   fileName <- peres_build_node_filename n "" MAX_PATH ;;
                   pure (snprintf MAX_PATH (dirName ++ "/" ++ fileName ++ ext))
                 else
                   name <- raw_directoryEntry name_node ;;
                   pure (snprintf MAX_PATH
                           (dirName ++ "/" ++ fmt_u (NameOffset name) ++ ext))) ;;
              fp <- fopen relativeFileName ;;
              match fp with
              | None => return_ tt
              | Some fp =>
                  fwrite (bytes_at c raw_data_ptr raw_data_size) fp ;;
                  fclose fp ;;
                  output "Save On" relativeFileName
              end
          end
      end
  end.

(** The condition under which the traversal hands a node to the saver. *)
Definition save_guard (n : pe_resource_node_t) : bool :=
  type_eqb (type n) LIBPE_RDT_DATA_ENTRY && (dirLevel n =? 3).

Fixpoint peres_save_all_resources {R} (node : node_ptr) (namedExtract : bool)
  : M R unit :=
  call (R := unit)
  match node with
  | NULL => return_ tt
  | Node n c s =>
      when (save_guard n) (peres_save_resource node namedExtract) ;;
      peres_save_all_resources c namedExtract ;;
      peres_save_all_resources s namedExtract
  end.

Definition peres_contains_version_node (node : pe_resource_node_t) : bool :=
  match raw node with
  | directoryEntry de =>
      if negb (dirLevel node =? LIBPE_RDT_LEVEL1) then false
      else if negb (NameOffset de =? RT_VERSION) then false
      else true
  | _ => false
  end.

Definition peres_is_version_node (node : pe_resource_node_t) : bool :=
  type_eqb (type node) LIBPE_RDT_DATA_ENTRY.

(** The text of one version line: [%u.%u.%u.%u] on the halves of the two
    32-bit fields. *)
Definition version_value (ms ls : Z) : string :=
  snprintf MAX_MSG
    (fmt_u (Z.shiftr (to_uint32 (Z.land ms 0xffff0000)) 16) ++ "."
       ++ fmt_u (Z.land (to_uint32 ms) 0x0000ffff) ++ "."
       ++ fmt_u (Z.shiftr (to_uint32 (Z.land ls 0xffff0000)) 16) ++ "."
       ++ fmt_u (Z.land (to_uint32 ls) 0x0000ffff)).

(** The inner loop of [peres_show_version], over the data entries found
    under one version directory entry.  The bounds check covers the size
    the data entry declares; the fields of the record are read with no
    check of their own, the pair of the file version before the first line
    and the pair of the product version before the second. *)
Fixpoint show_version_items (items : list node_ptr) : M unit unit :=
  match items with
  | [] => pure tt
  | item_child :: rest =>
      match item_child with
      | NULL => crash NullDereference
      | Node n _ _ =>
          entry <- raw_dataEntry n ;;
          c <- ctx ;;
          let data_offset := pe_rva2ofs c (OffsetToData entry) in
          let data_size := Size entry in
          let data_ptr := LIBPE_PTR_ADD map_addr (to_uint64 (32 + data_offset)) in
          when (negb (pe_can_read c data_ptr data_size))
            (LIBPE_WARNING "Cannot read VS_FIXEDFILEINFO" ;;
             return_ tt) ;;
          when (negb (pe_can_read c
                        (LIBPE_PTR_ADD data_ptr offsetof_dwFileVersionMS)
                        sizeof_version_pair))
            (crash OutOfBoundsRead) ;;
          let info_ptr := fixedfileinfo_at c data_ptr in
          output "File Version"
            (version_value (dwFileVersionMS info_ptr) (dwFileVersionLS info_ptr)) ;;
          when (negb (pe_can_read c
                        (LIBPE_PTR_ADD data_ptr offsetof_dwProductVersionMS)
                        sizeof_version_pair))
            (crash OutOfBoundsRead) ;;
          output "Product Version"
            (version_value (dwProductVersionMS info_ptr) (dwProductVersionLS info_ptr)) ;;
          show_version_items rest
      end
  end.

(** The outer loop, over the version directory entries. *)
Fixpoint show_version_parents (items : list node_ptr) : M unit unit :=
  match items with
  | [] => pure tt
  | item_parent :: rest =>
      result_is_version_node <-
        pe_resource_search_nodes item_parent peres_is_version_node ;;
      show_version_items result_is_version_node ;;
      pe_resources_dealloc_node_search_result result_is_version_node ;;
      show_version_parents rest
  end.

Definition peres_show_version {R} (node : node_ptr) : M R unit :=
  call (R := unit) (
    assert (match node with NULL => false | _ => true end) ;;
    result_contains_version_node <-
      pe_resource_search_nodes node peres_contains_version_node ;;
    show_version_parents result_contains_version_node ;;
    pe_resources_dealloc_node_search_result result_contains_version_node).

Record peres_stats_t : Set := {
  totalCount : Z;
  totalResourceDirectory : Z;
  totalDirectoryEntry : Z;
  totalDataString : Z;
  totalDataEntry : Z
}.

(** [x++] on an [int]: past [INT_MAX] the increment has no defined result. *)
Definition incr (x : Z) : option Z :=
  if x <? INT_MAX then Some (x + 1) else None.

Definition set_totalCount (s : peres_stats_t) (v : Z) : peres_stats_t :=
  {| totalCount := v;
     totalResourceDirectory := totalResourceDirectory s;
     totalDirectoryEntry := totalDirectoryEntry s;
     totalDataString := totalDataString s;
     totalDataEntry := totalDataEntry s |}.

Definition set_totalResourceDirectory (s : peres_stats_t) (v : Z) : peres_stats_t :=
  {| totalCount := totalCount s;
     totalResourceDirectory := v;
     totalDirectoryEntry := totalDirectoryEntry s;
     totalDataString := totalDataString s;
     totalDataEntry := totalDataEntry s |}.

Definition set_totalDirectoryEntry (s : peres_stats_t) (v : Z) : peres_stats_t :=
  {| totalCount := totalCount s;
     totalResourceDirectory := totalResourceDirectory s;
     totalDirectoryEntry := v;
     totalDataString := totalDataString s;
     totalDataEntry := totalDataEntry s |}.

Definition set_totalDataString (s : peres_stats_t) (v : Z) : peres_stats_t :=
  {| totalCount := totalCount s;
     totalResourceDirectory := totalResourceDirectory s;
     totalDirectoryEntry := totalDirectoryEntry s;
     totalDataString := v;
     totalDataEntry := totalDataEntry s |}.

Definition set_totalDataEntry (s : peres_stats_t) (v : Z) : peres_stats_t :=
  {| totalCount := totalCount s;
     totalResourceDirectory := totalResourceDirectory s;
     totalDirectoryEntry := totalDirectoryEntry s;
     totalDataString := totalDataString s;
     totalDataEntry := v |}.

Definition count_node (stats : peres_stats_t) (t : pe_resource_node_type_e)
  : option peres_stats_t :=
  match incr (totalCount stats) with
  | None => None
  | Some total =>
      let stats := set_totalCount stats total in
      match t with
      | LIBPE_RDT_RESOURCE_DIRECTORY =>
          option_map (set_totalResourceDirectory stats)
                     (incr (totalResourceDirectory stats))
      | LIBPE_RDT_DIRECTORY_ENTRY =>
          option_map (set_totalDirectoryEntry stats)
                     (incr (totalDirectoryEntry stats))
      | LIBPE_RDT_DATA_STRING =>
          option_map (set_totalDataString stats) (incr (totalDataString stats))
      | LIBPE_RDT_DATA_ENTRY =>
          option_map (set_totalDataEntry stats) (incr (totalDataEntry stats))
      end
  end.

(** The statistics after the call, or nothing when a counter overflows. *)
Fixpoint peres_generate_stats (stats : peres_stats_t) (node : node_ptr)
  : option peres_stats_t :=
  match node with
  | NULL => Some stats
  | Node n c s =>
      match count_node stats (type n) with
      | None => None
      | Some stats1 =>
          match (match c with
                 | NULL => Some stats1
                 | Node _ _ _ => peres_generate_stats stats1 c
                 end) with
          | None => None
          | Some stats2 =>
              match s with
              | NULL => Some stats2
              | Node _ _ _ => peres_generate_stats stats2 s
              end
          end
      end
  end.

Definition stats_zero : peres_stats_t :=
  {| totalCount := 0; totalResourceDirectory := 0; totalDirectoryEntry := 0;
     totalDataString := 0; totalDataEntry := 0 |}.

Definition peres_show_stats {R} (node : node_ptr) : M R unit :=
  call (R := unit)
  match peres_generate_stats stats_zero node with
  | None => crash SignedOverflow
  | Some stats =>
      output "Total Structs" (snprintf MAX_MSG (fmt_d (totalCount stats))) ;;
      output "Total Resource Directory"
        (snprintf MAX_MSG (fmt_d (totalResourceDirectory stats))) ;;
      output "Total Directory Entry"
        (snprintf MAX_MSG (fmt_d (totalDirectoryEntry stats))) ;;
      output "Total Data String" (snprintf MAX_MSG (fmt_d (totalDataString stats))) ;;
      output "Total Data Entry" (snprintf MAX_MSG (fmt_d (totalDataEntry stats)))
  end.


(** ** Notions the properties are stated with *)

(** The dump announces every node it visits with one [Node Type / Level]
    line. *)
Definition is_node_header (e : event) : bool :=
  match e with
  | Output label _ => String.eqb label node_type_label
  | _ => false
  end.

Definition nodes_visited (log : list event) : nat :=
  List.length (List.filter is_node_header log).

Definition stats_sum (st : peres_stats_t) : Z :=
  totalResourceDirectory st + totalDirectoryEntry st
  + totalDataString st + totalDataEntry st.

(** Counters that were reached by counting: none is negative and the total
    is the sum of the other four. *)
Definition stats_consistent (st : peres_stats_t) : Prop :=
  0 <= totalResourceDirectory st /\ 0 <= totalDirectoryEntry st
  /\ 0 <= totalDataString st /\ 0 <= totalDataEntry st
  /\ totalCount st = stats_sum st.

(** A statement is tame when it leaves the context behind the [pe_ctx_t *]
    as it found it and does not stop on a failed assertion. *)
Definition tame {R A} (m : M R A) : Prop :=
  forall s,
    st_ctx (state_of (m s)) = st_ctx s
    /\ forall l s', m s <> (l, Crashed AssertionFailure s').

(** The entry assertions of [peres_save_resource]. *)
Definition save_assertions (node : node_ptr) : bool :=
  match node with
  | NULL => false
  | Node n _ _ =>
      type_eqb (type n) LIBPE_RDT_DATA_ENTRY && (dirLevel n =? LIBPE_RDT_LEVEL3)
  end.

(** What the table says about the level-1 type of the resource a node
    belongs to; nothing when the node has no level-1 directory entry above
    it. *)
Definition resource_type_info (n : pe_resource_node_t)
  : option (option pe_resource_entry_info_t) :=
  match pe_resource_find_parent_node_by_type_and_level
          n LIBPE_RDT_DIRECTORY_ENTRY LIBPE_RDT_LEVEL1 with
  | Some folder_node =>
      match raw folder_node with
      | directoryEntry folder => Some (pe_resource_entry_info_lookup (u0_Name folder))
      | _ => None
      end
  | None => None
  end.

(** The category directory of the resource a node belongs to. *)
Definition category_dir (n : pe_resource_node_t) : option string :=
  option_map resource_dirName (resource_type_info n).

(** The level-2 (name or id) identifier of the resource a node belongs to,
    as the extractor reads it. *)
Definition level2_id (n : pe_resource_node_t) : option Z :=
  match pe_resource_find_parent_node_by_type_and_level
          n LIBPE_RDT_DIRECTORY_ENTRY LIBPE_RDT_LEVEL2 with
  | Some name_node =>
      match raw name_node with
      | directoryEntry name => Some (NameOffset name)
      | _ => None
      end
  | None => None
  end.

(** Making sure a directory is there: [stat], and [mkdir] when [stat]
    failed.  The calls made on a file system, and the file system after. *)
Definition ensure_dir_calls (fs : filesystem) (path : string) : list event :=
  SysStat path :: (if os_stat fs path =? -1 then [SysMkdir path] else []).

Definition ensure_dir_fs (fs : filesystem) (path : string) : filesystem :=
  if os_stat fs path =? -1 then os_mkdir fs path else fs.

Definition is_warning (e : event) : Prop :=
  match e with
  | Warning _ => True
  | _ => False
  end.

(** An extension that cannot be taken for more digits of the file name. *)
Definition is_digit (a : ascii) : bool :=
  (48 <=? nat_of_ascii a)%nat && (nat_of_ascii a <=? 57)%nat.

Definition starts_with_digit (s : string) : bool :=
  match s with
  | EmptyString => false
  | String a _ => is_digit a
  end.

(** The dotted form of a version: the high and low halves of the most
    significant and of the least significant word. *)
Definition dotted_version (ms ls : Z) : string :=
  fmt_u (Z.shiftr ms 16) ++ "." ++ fmt_u (Z.land ms 0xFFFF) ++ "."
    ++ fmt_u (Z.shiftr ls 16) ++ "." ++ fmt_u (Z.land ls 0xFFFF).

(** Whether the [count] numbers from [x] on all print in at most [width]
    characters. *)
Fixpoint short_from (width count : nat) (x : Z) : bool :=
  match count with
  | O => true
  | S k => (String.length (fmt_u x) <=? width)%nat && short_from width k (x + 1)
  end.

Definition all_digits (s : string) : Prop :=
  Forall (fun a => is_digit a = true) (list_ascii_of_string s).

(** A category subdirectory for an extracted entry: a subdirectory of the
    base directory was looked for and the file is inside it. *)
Definition in_category_subdirectory (log : list event) (p : string) : Prop :=
  exists sub f,
    sub <> ""
    /\ In (SysStat (g_resourceDir ++ "/" ++ sub)) log
    /\ p = g_resourceDir ++ "/" ++ sub ++ "/" ++ f.

(** The four words of every version record of the image are 32-bit
    values. *)
Definition uint32_version_records (c : pe_ctx_t) : Prop :=
  forall p,
    is_uint32 (dwFileVersionMS (fixedfileinfo_at c p))
    /\ is_uint32 (dwFileVersionLS (fixedfileinfo_at c p))
    /\ is_uint32 (dwProductVersionMS (fixedfileinfo_at c p))
    /\ is_uint32 (dwProductVersionLS (fixedfileinfo_at c p)).

Definition with_search_items (st : state) (k : nat) : state :=
  {| st_ctx := st_ctx st; st_fs := st_fs st; st_search_items := k |}.

(** ** The command line and the driver *)

(** The fields of [options_t]; the prefix keeps them apart from the names
    of the standard library. *)
Record options_t : Set := {
  opt_all : bool;
  opt_extract : bool;
  opt_namedExtract : bool;
  opt_info : bool;
  opt_statistics : bool;
  opt_list : bool;
  opt_version : bool;
  opt_help : bool
}.

(** [memset (options, 0, sizeof (options_t))]. *)
Definition options_zero : options_t :=
  {| opt_all := false; opt_extract := false; opt_namedExtract := false;
     opt_info := false; opt_statistics := false; opt_list := false;
     opt_version := false; opt_help := false |}.

Definition EXIT_SUCCESS : Z := 0.
Definition EXIT_FAILURE : Z := 1.

(** The value of a character constant. *)
Definition chr (a : ascii) : Z := Z.of_nat (nat_of_ascii a).

(** What the command line code takes from outside the file: the text
    [usage] prints and the text of the [-V] branch, both built from macros
    of [common.h] and from the list of output formats; the macro
    [EXIT_ERROR] of [common.h], as the status it leaves with and what it
    prints for a message; and the output library's choice of a format by
    name, negative when the name is not one of its formats. *)
Record cli_env : Set := {
  usage_text : string;
  version_text : string;
  EXIT_ERROR : string -> Z * list event;
  output_set_format_by_name : string -> Z
}.

Variable cli : cli_env.

(** How [parse_options] ends: with the options, or in [exit] with a status
    after what it printed. *)
Inductive parse_result : Set :=
| Parsed (options : options_t)
| Exit (status : Z) (log : list event).

(** The loop of [parse_options] over the successive results of
    [getopt_long], each with the [optarg] it left; after the last of them
    [getopt_long] gives -1. *)
Fixpoint parse_options_loop (results : list (Z * string)) (options : options_t)
  : parse_result :=
  match results with
  | [] => Parsed options
  | (c, optarg) :: rest =>
      if c =? 0 then Parsed options
      else if c <? 0 then Parsed options
      else if c =? chr "a" then
        parse_options_loop rest
          {| opt_all := true; opt_extract := opt_extract options;
             opt_namedExtract := opt_namedExtract options;
             opt_info := opt_info options; opt_statistics := opt_statistics options;
             opt_list := opt_list options; opt_version := opt_version options;
             opt_help := opt_help options |}
      else if c =? chr "f" then
        if output_set_format_by_name cli optarg <? 0
        then Exit (fst (EXIT_ERROR cli "invalid format option"))
                  (snd (EXIT_ERROR cli "invalid format option"))
        else parse_options_loop rest options
      else if c =? chr "i" then
        parse_options_loop rest
          {| opt_all := opt_all options; opt_extract := opt_extract options;
             opt_namedExtract := opt_namedExtract options;
             opt_info := true; opt_statistics := opt_statistics options;
             opt_list := opt_list options; opt_version := opt_version options;
             opt_help := opt_help options |}
      else if c =? chr "l" then
        parse_options_loop rest
          {| opt_all := opt_all options; opt_extract := opt_extract options;
             opt_namedExtract := opt_namedExtract options;
             opt_info := opt_info options; opt_statistics := opt_statistics options;
             opt_list := true; opt_version := opt_version options;
             opt_help := opt_help options |}
      else if c =? chr "s" then
        parse_options_loop rest
          {| opt_all := opt_all options; opt_extract := opt_extract options;
             opt_namedExtract := opt_namedExtract options;
             opt_info := opt_info options; opt_statistics := true;
             opt_list := opt_list options; opt_version := opt_version options;
             opt_help := opt_help options |}
      else if c =? chr "x" then
        parse_options_loop rest
          {| opt_all := opt_all options; opt_extract := true;
             opt_namedExtract := opt_namedExtract options;
             opt_info := opt_info options; opt_statistics := opt_statistics options;
             opt_list := opt_list options; opt_version := opt_version options;
             opt_help := opt_help options |}
      else if c =? chr "X" then
        parse_options_loop rest
          {| opt_all := opt_all options; opt_extract := true;
             opt_namedExtract := true;
             opt_info := opt_info options; opt_statistics := opt_statistics options;
             opt_list := opt_list options; opt_version := opt_version options;
             opt_help := opt_help options |}
      else if c =? chr "v" then
        parse_options_loop rest
          {| opt_all := opt_all options; opt_extract := opt_extract options;
             opt_namedExtract := opt_namedExtract options;
             opt_info := opt_info options; opt_statistics := opt_statistics options;
             opt_list := opt_list options; opt_version := true;
             opt_help := opt_help options |}
      else if c =? chr "V" then Exit EXIT_SUCCESS [Stdout (version_text cli)]
      else if c =? 1 then Exit EXIT_SUCCESS [Stdout (usage_text cli)]
      else
        Exit EXIT_FAILURE
          [Stderr ("peres: try '--help' for more information" ++ String newline "")]
  end.

Definition parse_options (results : list (Z * string)) : parse_result :=
  parse_options_loop results options_zero.

(** The part of [main] that runs the operations the options ask for, on the
    root of the resource tree. *)
Definition peres_main_operations {R} (options : options_t) (root_node : node_ptr)
  : M R unit :=
  call (R := unit) (
    if opt_all options then
      peres_show_nodes root_node ;;
      peres_show_stats root_node ;;
      peres_show_list root_node ;;
      peres_save_all_resources root_node (opt_namedExtract options) ;;
      peres_show_version root_node
    else
      when (opt_extract options)
        (peres_save_all_resources root_node (opt_namedExtract options)) ;;
      when (opt_info options) (peres_show_nodes root_node) ;;
      when (opt_list options) (peres_show_list root_node) ;;
      when (opt_statistics options) (peres_show_stats root_node) ;;
      when (opt_version options) (peres_show_version root_node)).

(** ** Notions for the further properties *)

Definition type_hit (a b : pe_resource_node_type_e) : Z :=
  if type_eqb a b then 1 else 0.

(** The nodes of a tree that have a given type. *)
Fixpoint count_type (t : pe_resource_node_type_e) (node : node_ptr) : nat :=
  match node with
  | NULL => O
  | Node n c s =>
      ((if type_eqb (type n) t then 1 else 0) + count_type t c + count_type t s)%nat
  end.

(** The nodes of a tree that the whole-tree extraction hands to the saver. *)
Fixpoint count_saveable (node : node_ptr) : nat :=
  match node with
  | NULL => O
  | Node n c s =>
      ((if save_guard n then 1 else 0) + count_saveable c + count_saveable s)%nat
  end.

Definition count_events (p : event -> bool) (log : list event) : nat :=
  List.length (List.filter p log).

Definition is_stdout (e : event) : bool :=
  match e with Stdout _ => true | _ => false end.
Definition is_fopen (e : event) : bool :=
  match e with SysFopen _ => true | _ => false end.
Definition is_fwrite (e : event) : bool :=
  match e with SysFwrite _ _ => true | _ => false end.
Definition is_fclose (e : event) : bool :=
  match e with SysFclose _ => true | _ => false end.
Definition is_save_on (e : event) : bool :=
  match e with Output _ _ => true | _ => false end.
Definition is_syscall (e : event) : bool :=
  match e with
  | SysStat _ | SysMkdir _ | SysFopen _ | SysFwrite _ _ | SysFclose _ => true
  | _ => false
  end.

(** The path a system call is made on lies, as a text, under the base
    directory. *)
Definition under_base (e : event) : Prop :=
  match e with
  | SysStat p | SysMkdir p | SysFopen p | SysFwrite p _ | SysFclose p =>
      prefix g_resourceDir p = true
  | _ => True
  end.

(** A value that fits the message buffer, in an [output] line. *)
Definition fits_message (e : event) : Prop :=
  match e with
  | Output _ value => (String.length value <= MAX_MSG - 1)%nat
  | _ => False
  end.

(** A statement that only reports: it makes no system call and leaves the
    context and the file system as they are. *)
Definition reports_only {R A} (m : M R A) : Prop :=
  forall s,
    st_ctx (state_of (m s)) = st_ctx s
    /\ st_fs (state_of (m s)) = st_fs s
    /\ Forall (fun e => is_syscall e = false) (events_of (m s)).

(** A statement that leaves the whole state as it is. *)
Definition unchanged {R A} (m : M R A) : Prop :=
  forall s, state_of (m s) = s.

Definition keeps_context {R A} (m : M R A) : Prop :=
  forall s, st_ctx (state_of (m s)) = st_ctx s.

(** The text a numeric directory entry contributes to the path at a level:
    the display name of a well-known type at level 1, four hexadecimal
    digits otherwise, and the separator. *)
Definition numeric_component (level : Z) (e : IMAGE_RESOURCE_DIRECTORY_ENTRY)
  : string :=
  match (level =? 1)%Z, pe_resource_entry_info_lookup (NameOffset e) with
  | true, Some m => entry_name m ++ " "
  | _, _ => fmt_04x (NameOffset e) ++ " "
  end.

(** The data entries the version decoder visits: those under each level-1
    directory entry of the version type, in the order of the searches. *)
Definition version_leaves (node : node_ptr) : list node_ptr :=
  List.flat_map (search_subtree peres_is_version_node)
                (search_subtree peres_contains_version_node node).

Definition version_data_ptr (c : pe_ctx_t) (entry : IMAGE_RESOURCE_DATA_ENTRY) : Z :=
  LIBPE_PTR_ADD map_addr (to_uint64 (32 + pe_rva2ofs c (OffsetToData entry))).

(** The tests a data entry meets in the version decoder: the bounds check
    the code makes, on the size the entry declares, and whether the fields
    it then reads, one pair for each line, lie in the mapped file. *)
Definition record_checked (c : pe_ctx_t) (entry : IMAGE_RESOURCE_DATA_ENTRY)
  : bool :=
  pe_can_read c (version_data_ptr c entry) (Size entry).

Definition file_fields_in_bounds (c : pe_ctx_t)
    (entry : IMAGE_RESOURCE_DATA_ENTRY) : bool :=
  pe_can_read c (LIBPE_PTR_ADD (version_data_ptr c entry) offsetof_dwFileVersionMS)
    sizeof_version_pair.

Definition product_fields_in_bounds (c : pe_ctx_t)
    (entry : IMAGE_RESOURCE_DATA_ENTRY) : bool :=
  pe_can_read c
    (LIBPE_PTR_ADD (version_data_ptr c entry) offsetof_dwProductVersionMS)
    sizeof_version_pair.

Definition fields_in_bounds (c : pe_ctx_t) (entry : IMAGE_RESOURCE_DATA_ENTRY)
  : bool :=
  file_fields_in_bounds c entry && product_fields_in_bounds c entry.

(** The report on a list of data entries: the two version lines of each,
    up to the first that fails the bounds check, which gets the warning and
    ends the report, or that has a pair of fields outside the mapped file,
    at the read of which the process stops. *)
Fixpoint version_report (c : pe_ctx_t) (leaves : list node_ptr) : list event :=
  match leaves with
  | [] => []
  | NULL :: _ => []
  | Node n _ _ :: rest =>
      match raw n with
      | dataEntry entry =>
          if record_checked c entry then
            if file_fields_in_bounds c entry then
              let info := fixedfileinfo_at c (version_data_ptr c entry) in
              Output "File Version"
                (version_value (dwFileVersionMS info) (dwFileVersionLS info))
              :: (if product_fields_in_bounds c entry then
                    Output "Product Version"
                      (version_value (dwProductVersionMS info)
                                     (dwProductVersionLS info))
                    :: version_report c rest
                  else [])
            else []
          else [Warning "Cannot read VS_FIXEDFILEINFO"]
      | _ => []
      end
  end.

(** The same report in the words of the specification: each pair of words
    as the dotted text of its four 16-bit halves. *)
Fixpoint dotted_report (c : pe_ctx_t) (leaves : list node_ptr) : list event :=
  match leaves with
  | [] => []
  | NULL :: _ => []
  | Node n _ _ :: rest =>
      match raw n with
      | dataEntry entry =>
          if record_checked c entry then
            if file_fields_in_bounds c entry then
              let info := fixedfileinfo_at c (version_data_ptr c entry) in
              Output "File Version"
                (dotted_version (dwFileVersionMS info) (dwFileVersionLS info))
              :: (if product_fields_in_bounds c entry then
                    Output "Product Version"
                      (dotted_version (dwProductVersionMS info)
                                      (dwProductVersionLS info))
                    :: dotted_report c rest
                  else [])
            else []
          else [Warning "Cannot read VS_FIXEDFILEINFO"]
      | _ => []
      end
  end.

(** An item of a search result: a node, on which the predicate holds. *)
Definition found_by (predicate : pe_resource_node_t -> bool) (item : node_ptr)
  : Prop :=
  match item with
  | NULL => False
  | Node n _ _ => predicate n = true
  end.

(** Whether the record of every data entry of a list can be read: it
    passes the bounds check and its fields lie in the mapped file. *)
Fixpoint all_readable (c : pe_ctx_t) (leaves : list node_ptr) : bool :=
  match leaves with
  | [] => true
  | NULL :: rest => all_readable c rest
  | Node n _ _ :: rest =>
      match raw n with
      | dataEntry entry =>
          record_checked c entry && fields_in_bounds c entry
          && all_readable c rest
      | _ => all_readable c rest
      end
  end.

(** Whether the decoder reads no field outside the mapped file on a list
    of data entries: up to the first that fails the bounds check, every
    record has its fields inside. *)
Fixpoint reads_in_bounds (c : pe_ctx_t) (leaves : list node_ptr) : bool :=
  match leaves with
  | [] => true
  | NULL :: rest => reads_in_bounds c rest
  | Node n _ _ :: rest =>
      match raw n with
      | dataEntry entry =>
          if record_checked c entry
          then fields_in_bounds c entry && reads_in_bounds c rest
          else true
      | _ => reads_in_bounds c rest
      end
  end.

(** The option codes [parse_options] goes through: those before the first
    that is not positive. *)
Fixpoint codes_parsed (results : list (Z * string)) : list Z :=
  match results with
  | [] => []
  | (c, _) :: rest => if 0 <? c then c :: codes_parsed rest else []
  end.

Definition has_code (a : ascii) (results : list (Z * string)) : bool :=
  List.existsb (Z.eqb (chr a)) (codes_parsed results).

(** Whether the ancestor lookup finds the directory entry of every level
    from 1 to the node's own. *)
Definition rooted (n : pe_resource_node_t) : bool :=
  List.forallb
    (fun level =>
       match pe_resource_find_parent_node_by_type_and_level
               n LIBPE_RDT_DIRECTORY_ENTRY (Z.of_nat level) with
       | Some _ => true
       | None => false
       end)
    (List.seq 1 (Z.to_nat (dirLevel n))).

(** Whether every data entry of a tree is at level 1 or deeper and has its
    directory entries. *)
Fixpoint data_entries_rooted (node : node_ptr) : bool :=
  match node with
  | NULL => true
  | Node n c s =>
      (if type_eqb (type n) LIBPE_RDT_DATA_ENTRY
       then (1 <=? dirLevel n) && rooted n
       else true)
      && data_entries_rooted c && data_entries_rooted s
  end.

(** A statement that comes to its end from any state with a given
    context, and leaves the context as it is. *)
Definition returns {R} (c : pe_ctx_t) (m : M R unit) : Prop :=
  forall s, st_ctx s = c ->
    exists l s', m s = (l, Normal tt s') /\ st_ctx s' = c.

(** ** Names read as the path builder reads them *)

Definition name_string_ptr (c : pe_ctx_t) (e : IMAGE_RESOURCE_DIRECTORY_ENTRY)
  : Z :=
  LIBPE_PTR_ADD (resource_base_ptr c) (NameOffset e).

Definition name_string_size (c : pe_ctx_t) (e : IMAGE_RESOURCE_DIRECTORY_ENTRY)
  : nat :=
  Z.to_nat (Z.min (to_uint64 (Z.of_nat MAX_PATH - 2))
                  (Length (data_string_at c (name_string_ptr c e)))).

(** The characters stored in [partial_path] for a name, before the
    separator. *)
Definition name_stored (c : pe_ctx_t) (e : IMAGE_RESOURCE_DIRECTORY_ENTRY)
  : string :=
  substring 0 (name_string_size c e)
    (pe_utils_str_widechar2ascii
       (String_ (data_string_at c (name_string_ptr c e)))
       (name_string_size c e)).

Definition starts_with_zero (s : string) : bool :=
  match s with
  | EmptyString => false
  | String a _ => Ascii.eqb a Ascii.zero
  end.

(** Whether the builder reads a name inside the mapped file: the name is
    numeric, or its header fails the bounds check (and the builder
    returns), or the code units it reads lie in the mapped file. *)
Definition name_in_bounds (c : pe_ctx_t) (e : IMAGE_RESOURCE_DIRECTORY_ENTRY)
  : bool :=
  (NameIsString e =? 0)
  || negb (pe_can_read c (name_string_ptr c e) sizeof_IMAGE_RESOURCE_DATA_STRING_U)
  || pe_can_read c (name_string_ptr c e)
       (sizeof_data_string_read (name_string_size c e)).

(** Whether a name gives the path a character: every numeric name does,
    and a string does unless the first byte stored for it is zero. *)
Definition name_has_text (c : pe_ctx_t) (e : IMAGE_RESOURCE_DIRECTORY_ENTRY)
  : bool :=
  (NameIsString e =? 0) || negb (starts_with_zero (name_stored c e)).

(** The directory entry of a level above a node, when the lookup finds
    one. *)
Definition entry_at (n : pe_resource_node_t) (level : Z)
  : option IMAGE_RESOURCE_DIRECTORY_ENTRY :=
  match pe_resource_find_parent_node_by_type_and_level
          n LIBPE_RDT_DIRECTORY_ENTRY level with
  | Some d =>
      match raw d with
      | directoryEntry e => Some e
      | _ => None
      end
  | None => None
  end.

(** The statement of the loop of the path builder that fills
    [partial_path] at a level, for the directory entry found there. *)
Definition partial_path_statement (level : Z)
    (de : IMAGE_RESOURCE_DIRECTORY_ENTRY) (output : string) : M string string :=
  if negb (NameIsString de =? 0) then
    c <- ctx ;;
    let string_ptr := LIBPE_PTR_ADD (resource_base_ptr c) (NameOffset de) in
    if negb (pe_can_read c string_ptr sizeof_IMAGE_RESOURCE_DATA_STRING_U) then
      LIBPE_WARNING "Cannot read IMAGE_RESOURCE_DATA_STRING_U" ;;
      return_ output
    else
      let ds := data_string_at c string_ptr in
      let string_size :=
        Z.to_nat (Z.min (to_uint64 (Z.of_nat MAX_PATH - 2)) (Length ds)) in
      if negb (pe_can_read c string_ptr
                 (sizeof_data_string_read string_size)) then
        crash OutOfBoundsRead
      else
        pure (c_str (substring 0 string_size
                       (pe_utils_str_widechar2ascii (String_ ds)
                          string_size) ++ " "))
  else
    let match_ := pe_resource_entry_info_lookup (NameOffset de) in
    match level =? 1, match_ with
    | true, Some m => pure (snprintf MAX_PATH (entry_name m ++ " "))
    | _, _ => pure (snprintf MAX_PATH (fmt_04x (NameOffset de) ++ " "))
    end.

Definition levels_of (n : pe_resource_node_t) : list nat :=
  List.seq 1 (Z.to_nat (dirLevel n)).

(** Whether the path of a node can be built without a fault: the directory
    entry of every level is found and its name is read inside the mapped
    file, and one of the names gives the path a character. *)
Definition path_is_safe (c : pe_ctx_t) (n : pe_resource_node_t) : bool :=
  List.forallb
    (fun level =>
       match entry_at n (Z.of_nat level) with
       | Some e => name_in_bounds c e
       | None => false
       end)
    (levels_of n)
  && List.existsb
       (fun level =>
          match entry_at n (Z.of_nat level) with
          | Some e => name_has_text c e
          | None => false
          end)
       (levels_of n).

(** Whether that holds of every data entry of a tree. *)
Fixpoint data_entries_safe (c : pe_ctx_t) (node : node_ptr) : bool :=
  match node with
  | NULL => true
  | Node n x y =>
      (if type_eqb (type n) LIBPE_RDT_DATA_ENTRY then path_is_safe c n else true)
      && data_entries_safe c x && data_entries_safe c y
  end.

(** ** Paths and directories *)

Fixpoint has_slash (s : string) : bool :=
  match s with
  | EmptyString => false
  | String a rest => Ascii.eqb a "/" || has_slash rest
  end.

(** The directory a path names a file in: the text before its last
    slash. *)
Fixpoint directory_of (path : string) : option string :=
  match path with
  | EmptyString => None
  | String a rest =>
      match directory_of rest with
      | Some d => Some (String a d)
      | None => if Ascii.eqb a "/" then Some "" else None
      end
  end.

(** ** The shape of a resource tree *)




(** ** Running statements *)

Lemma bind_run {R A B} (m : M R A) (k : A -> M R B) s l1 a s1 l2 o :
  m s = (l1, Normal a s1) ->
  k a s1 = (l2, o) ->
  bind m k s = ((l1 ++ l2)%list, o).
Proof.
  intros Hm Hk. unfold bind. rewrite Hm, Hk. reflexivity.
Qed.

Lemma call_normal {R R'} (body : M R R) s l a s1 :
  body s = (l, Normal a s1) -> call (R' := R') body s = (l, Normal a s1).
Proof.
  intros Hb. unfold call. rewrite Hb. reflexivity.
Qed.

Lemma events_bind {R A B} (m : M R A) (k : A -> M R B) s :
  events_of (bind m k s) =
  match m s with
  | (l1, Normal a s1) => (l1 ++ events_of (k a s1))%list
  | (l1, _) => l1
  end.
Proof.
  unfold bind, events_of. destruct (m s) as [l1 [a s1|r s1|f s1]]; simpl; auto.
  destruct (k a s1); reflexivity.
Qed.

(** ** The dump visits every node once *)

Lemma nodes_visited_app l1 l2 :
  nodes_visited (l1 ++ l2) = (nodes_visited l1 + nodes_visited l2)%nat.
Proof.
  unfold nodes_visited. rewrite List.filter_app, List.length_app. reflexivity.
Qed.

Lemma peres_show_node_run {R} (n : pe_resource_node_t) (s : state) :
  exists l, peres_show_node (R := R) n s = (l, Normal tt s) /\ nodes_visited l = 1%nat.
Proof.
  unfold peres_show_node. destruct (raw n); eexists; split; reflexivity.
Qed.

Lemma peres_show_nodes_run (node : node_ptr) :
  forall R (s : state),
    exists l, peres_show_nodes (R := R) node s = (l, Normal tt s)
              /\ nodes_visited l = node_count node.
Proof.
  induction node as [|n c IHc sib IHs]; intros R s.
  - exists []. split; reflexivity.
  - destruct (peres_show_node_run (R := unit) n s) as (l0 & H0 & N0).
    destruct (IHc unit s) as (l1 & H1 & N1).
    destruct (IHs unit s) as (l2 & H2 & N2).
    exists (l0 ++ l1 ++ l2)%list. split.
    + cbn [peres_show_nodes]. apply call_normal.
      eapply bind_run; [exact H0|].
      eapply bind_run; [exact H1|exact H2].
    + rewrite !nodes_visited_app, N0, N1, N2. simpl. reflexivity.
Qed.

(** ** The statistics *)

Lemma count_node_spec st t :
  stats_consistent st -> totalCount st < INT_MAX ->
  exists st', count_node st t = Some st'
              /\ stats_consistent st'
              /\ totalCount st' = totalCount st + 1.
Proof.
  unfold stats_consistent, stats_sum, count_node, incr.
  intros (H1 & H2 & H3 & H4 & H5) Hlt.
  destruct (Z.ltb_spec (totalCount st) INT_MAX) as [_|]; [|lia].
  destruct t; cbn [set_totalCount totalCount totalResourceDirectory
                   totalDirectoryEntry totalDataString totalDataEntry].
  - destruct (Z.ltb_spec (totalResourceDirectory st) INT_MAX) as [_|]; [|lia].
    eexists; split; [reflexivity|]. cbn. lia.
  - destruct (Z.ltb_spec (totalDirectoryEntry st) INT_MAX) as [_|]; [|lia].
    eexists; split; [reflexivity|]. cbn. lia.
  - destruct (Z.ltb_spec (totalDataString st) INT_MAX) as [_|]; [|lia].
    eexists; split; [reflexivity|]. cbn. lia.
  - destruct (Z.ltb_spec (totalDataEntry st) INT_MAX) as [_|]; [|lia].
    eexists; split; [reflexivity|]. cbn. lia.
Qed.

Lemma peres_generate_stats_spec (node : node_ptr) :
  forall st,
    stats_consistent st ->
    totalCount st + Z.of_nat (node_count node) <= INT_MAX ->
    exists st', peres_generate_stats st node = Some st'
                /\ stats_consistent st'
                /\ totalCount st' = totalCount st + Z.of_nat (node_count node).
Proof.
  induction node as [|n c IHc sib IHs]; intros st Hc Hle.
  - exists st. cbn. repeat split; try apply Hc; lia.
  - cbn [node_count] in Hle. cbn [peres_generate_stats].
    destruct (count_node_spec st (type n) Hc) as (st1 & E1 & C1 & T1); [lia|].
    rewrite E1.
    destruct (IHc st1 C1) as (st2 & E2 & C2 & T2); [lia|].
    assert (E2' : match c with
                  | NULL => Some st1
                  | Node _ _ _ => peres_generate_stats st1 c
                  end = Some st2) by (destruct c; exact E2).
    rewrite E2'.
    destruct (IHs st2 C2) as (st3 & E3 & C3 & T3); [lia|].
    exists st3. split; [destruct sib; exact E3|]. split; [exact C3|].
    cbn [node_count]. lia.
Qed.

(** C1.  For every resource tree whose nodes an [int] can count, the
    statistics traversal succeeds, the [totalCount] it computes is the sum of
    the four per-variant counts, and it is the number of nodes the dump
    traversal visits on the same tree. *)
Theorem stats_total_is_sum_and_dump_count (node : node_ptr) (s : state) :
  Z.of_nat (node_count node) <= INT_MAX ->
  exists stats,
    peres_generate_stats stats_zero node = Some stats
    /\ totalCount stats =
         totalResourceDirectory stats + totalDirectoryEntry stats
         + totalDataString stats + totalDataEntry stats
    /\ totalCount stats =
         Z.of_nat (nodes_visited (events_of (peres_show_nodes (R := unit) node s))).
Proof.
  intros Hle.
  destruct (peres_generate_stats_spec node stats_zero) as (st & E & C & T).
  - unfold stats_consistent, stats_sum. cbn. lia.
  - cbn. lia.
  - exists st. split; [exact E|]. split.
    + apply C.
    + destruct (peres_show_nodes_run node unit s) as (l & Hrun & Hn).
      rewrite Hrun. cbn [events_of fst]. rewrite Hn, T. cbn. lia.
Qed.

(** ** What no statement of the file does *)

Lemma tame_pure {R A} (a : A) : tame (pure (R := R) a).
Proof. intros s. split; [reflexivity|discriminate]. Qed.

Lemma tame_return {R A} (r : R) : tame (return_ (A := A) r).
Proof. intros s. split; [reflexivity|discriminate]. Qed.

Lemma tame_emit {R} (e : event) : tame (emit (R := R) e).
Proof. intros s. split; [reflexivity|discriminate]. Qed.

Lemma tame_get {R} : tame (get (R := R)).
Proof. intros s. split; [reflexivity|discriminate]. Qed.

Lemma tame_ctx {R} : tame (ctx (R := R)).
Proof. intros s. split; [reflexivity|discriminate]. Qed.

Lemma tame_crash {R A} (f : fault) :
  f <> AssertionFailure -> tame (crash (R := R) (A := A) f).
Proof.
  intros Hf s. split; [reflexivity|].
  intros l s' H. inversion H. congruence.
Qed.

Lemma tame_bind {R A B} (m : M R A) (k : A -> M R B) :
  tame m -> (forall a, tame (k a)) -> tame (bind m k).
Proof.
  intros Hm Hk s. destruct (Hm s) as [Hc Hf].
  unfold bind, state_of in *.
  destruct (m s) as [l1 [a s1|r s1|f s1]]; cbn in *.
  - destruct (Hk a s1) as [Hc' Hf']. unfold state_of in Hc'.
    destruct (k a s1) as [l2 o]; cbn in *. split; [congruence|].
    intros l s' H. inversion H; subst. eapply Hf'. reflexivity.
  - split; [exact Hc|discriminate].
  - split; [exact Hc|]. intros l s' H. inversion H; subst.
    eapply Hf. reflexivity.
Qed.

Lemma tame_call {R R'} (body : M R R) : tame body -> tame (call (R' := R') body).
Proof.
  intros Hb s. destruct (Hb s) as [Hc Hf].
  unfold call, state_of in *.
  destruct (body s) as [l [a s1|r s1|f s1]]; cbn in *;
    (split; [exact Hc|]); try discriminate.
  intros l' s' H. inversion H; subst. eapply Hf. reflexivity.
Qed.

Lemma tame_when {R} (c : bool) (m : M R unit) : tame m -> tame (when c m).
Proof. intros Hm. destruct c; [exact Hm|apply tame_pure]. Qed.

Lemma tame_output {R} label value : tame (output (R := R) label value).
Proof. apply tame_emit. Qed.

Lemma tame_warning {R} msg : tame (LIBPE_WARNING (R := R) msg).
Proof. apply tame_emit. Qed.

Lemma tame_stat {R} path : tame (stat (R := R) path).
Proof. intros s. split; [reflexivity|discriminate]. Qed.

Lemma tame_mkdir {R} path : tame (mkdir (R := R) path).
Proof. intros s. split; [reflexivity|discriminate]. Qed.

Lemma tame_fopen {R} path : tame (fopen (R := R) path).
Proof.
  intros s. unfold fopen, bind, get, emit, put, pure, state_of. cbn.
  destruct (os_fopen (st_fs s) path); cbn; split;
    try reflexivity; discriminate.
Qed.

Lemma tame_fwrite {R} data fp : tame (fwrite (R := R) data fp).
Proof. intros s. split; [reflexivity|discriminate]. Qed.

Lemma tame_fclose {R} fp : tame (fclose (R := R) fp).
Proof. apply tame_emit. Qed.

Lemma tame_raw_directoryEntry {R} n : tame (raw_directoryEntry (R := R) n).
Proof.
  unfold raw_directoryEntry.
  destruct (raw n); try apply tame_pure; apply tame_crash; discriminate.
Qed.

Lemma tame_raw_dataEntry {R} n : tame (raw_dataEntry (R := R) n).
Proof.
  unfold raw_dataEntry.
  destruct (raw n); try apply tame_pure; apply tame_crash; discriminate.
Qed.

Ltac tame_step :=
  match goal with
  | |- tame (bind _ _) => apply tame_bind; [|intros ?]
  | |- tame (call _) => apply tame_call
  | |- tame (when _ _) => apply tame_when
  | |- tame (pure _) => apply tame_pure
  | |- tame (return_ _) => apply tame_return
  | |- tame (emit _) => apply tame_emit
  | |- tame (output _ _) => apply tame_output
  | |- tame (LIBPE_WARNING _) => apply tame_warning
  | |- tame ctx => apply tame_ctx
  | |- tame get => apply tame_get
  | |- tame (stat _) => apply tame_stat
  | |- tame (mkdir _) => apply tame_mkdir
  | |- tame (fopen _) => apply tame_fopen
  | |- tame (fwrite _ _) => apply tame_fwrite
  | |- tame (fclose _) => apply tame_fclose
  | |- tame (raw_directoryEntry _) => apply tame_raw_directoryEntry
  | |- tame (raw_dataEntry _) => apply tame_raw_dataEntry
  | |- tame (crash _) => apply tame_crash; discriminate
  | |- tame (match ?x with _ => _ end) => destruct x
  | |- tame (if ?x then _ else _) => destruct x
  end.

Lemma tame_build_node_filename_levels count :
  forall level node output output_size,
    tame (build_node_filename_levels count level node output output_size).
Proof.
  induction count as [|count IH]; intros level node output output_size;
    cbn [build_node_filename_levels].
  - apply tame_pure.
  - repeat tame_step. apply IH.
Qed.

Lemma tame_peres_build_node_filename {R} node output output_size :
  tame (peres_build_node_filename (R := R) node output output_size).
Proof.
  unfold peres_build_node_filename. tame_step. tame_step.
  - apply tame_build_node_filename_levels.
  - repeat tame_step.
Qed.

Lemma tame_peres_save_resource {R} n c s namedExtract :
  save_guard n = true ->
  tame (peres_save_resource (R := R) (Node n c s) namedExtract).
Proof.
  unfold save_guard. intros Hg. apply andb_true_iff in Hg as [Ht Hl].
  unfold peres_save_resource. rewrite Ht.
  change LIBPE_RDT_LEVEL3 with 3. rewrite Hl.
  unfold assert.
  repeat first [ apply tame_peres_build_node_filename | tame_step ].
Qed.

Lemma tame_peres_save_all_resources (node : node_ptr) :
  forall R namedExtract, tame (peres_save_all_resources (R := R) node namedExtract).
Proof.
  induction node as [|n c IHc sib IHs]; intros R namedExtract;
    cbn [peres_save_all_resources].
  - repeat tame_step.
  - tame_step. tame_step; [|tame_step; [apply IHc|apply IHs]].
    destruct (save_guard n) eqn:Hg.
    + cbn [when]. apply tame_peres_save_resource. exact Hg.
    + apply tame_pure.
Qed.

(** ** What the path builder and the saver are seen to do *)

Lemma build_node_filename_levels_events count :
  forall level node output output_size s,
    Forall is_warning
      (events_of (build_node_filename_levels count level node output output_size s)).
Proof.
  induction count as [|count IH]; intros level node output output_size s;
    cbn [build_node_filename_levels].
  - constructor.
  - destruct (pe_resource_find_parent_node_by_type_and_level _ _ _) as [d|];
      [|constructor].
    rewrite events_bind. unfold raw_directoryEntry.
    destruct (raw d); try constructor. cbn.
    rewrite events_bind.
    destruct (negb (NameIsString e =? 0)).
    + unfold ctx, get, bind, pure. cbn.
      destruct (negb (pe_can_read _ _ _)); cbn.
      * repeat constructor.
      * destruct (negb (pe_can_read _ _ _)); cbn.
        -- constructor.
        -- apply IH.
    + destruct (level =? 1), (pe_resource_entry_info_lookup (NameOffset e));
        cbn; apply IH.
Qed.

Lemma peres_build_node_filename_events {R} node output output_size s :
  Forall is_warning
    (events_of (peres_build_node_filename (R := R) node output output_size s)).
Proof.
  unfold peres_build_node_filename.
  pose proof (build_node_filename_levels_events
                (Z.to_nat (dirLevel node)) 1 node output output_size s) as H.
  unfold call, bind, events_of in *.
  destruct (build_node_filename_levels _ _ _ _ _ _) as [l [a s1|r s1|f s1]];
    cbn in *; auto.
  destruct (String.length a); cbn; rewrite List.app_nil_r; exact H.
Qed.

Lemma not_warning_not_in e l :
  Forall is_warning l -> ~ is_warning e -> ~ In e l.
Proof.
  intros HF Hn Hin. rewrite Forall_forall in HF. apply Hn, HF, Hin.
Qed.

(** The saver on a node whose data cannot be read: one line on the error
    stream, and nothing else. *)
Lemma peres_save_resource_unreadable {R} n c s namedExtract st entry :
  save_guard n = true ->
  raw n = dataEntry entry ->
  pe_can_read (st_ctx st)
    (LIBPE_PTR_ADD map_addr (pe_rva2ofs (st_ctx st) (OffsetToData entry)))
    (Size entry) = false ->
  exists msg,
    peres_save_resource (R := R) (Node n c s) namedExtract st
    = ([Stderr msg], Normal tt st).
Proof.
  unfold save_guard. intros Hg Hraw Hread.
  apply andb_true_iff in Hg as [Ht Hl].
  unfold peres_save_resource. rewrite Ht.
  change LIBPE_RDT_LEVEL3 with 3. rewrite Hl.
  unfold raw_dataEntry. rewrite Hraw.
  eexists. unfold call, bind, assert, ctx, get, pure, when. cbn.
  unfold LIBPE_PTR_ADD, map_addr in Hread. cbn in Hread. rewrite Hread.
  cbn. reflexivity.
Qed.

Ltac rewrite_lookups :=
  repeat match goal with
         | H : pe_resource_find_parent_node_by_type_and_level _ _ _ = _ |- _ =>
             rewrite H
         | H : raw _ = _ |- _ => rewrite H
         | H : (os_stat _ _ =? -1) = _ |- _ => rewrite H
         end.

Ltac split_statement :=
  repeat match goal with
         | |- context [match ?x with _ => _ end] =>
             lazymatch x with
             | context [match _ with _ => _ end] => fail
             | _ => destruct x eqn:?; cbn
             end
         end.

Ltac builder_events :=
  match goal with
  | H : peres_build_node_filename ?n ?o ?sz ?s = (?l, _) |- _ =>
      let F := fresh "F" in
      pose proof (peres_build_node_filename_events (R := unit) n o sz s) as F;
      rewrite H in F; cbn [events_of fst] in F
  end.

Ltac in_cases H :=
  repeat (destruct H as [H|H]; try discriminate H).

Ltac opens_case :=
  split; [unfold resource_type_info; rewrite_lookups; reflexivity|];
  split; [reflexivity|];
  split; [intros ?;
          first [discriminate
                |eexists; split;
                 [unfold level2_id; rewrite_lookups; reflexivity|reflexivity]]|];
  split; [unfold ensure_dir_calls, ensure_dir_fs; rewrite_lookups; cbn;
          reflexivity|];
  rewrite ?in_app_iff; cbn; auto.

(** Every file the saver opens: the two directories were seen to first, the
    path is the category directory, a slash, a file name and the extension,
    cut to the buffer; in default mode the file name is the level-2
    identifier in decimal. *)
Lemma peres_save_resource_opens {R} n c s namedExtract st p :
  In (SysFopen p)
     (events_of (peres_save_resource (R := R) (Node n c s) namedExtract st)) ->
  exists info file rest,
    resource_type_info n = Some info
    /\ p = snprintf MAX_PATH
             (resource_dirName info ++ "/" ++ file ++ resource_extension info)
    /\ (namedExtract = false ->
        exists id, level2_id n = Some id /\ file = fmt_u id)
    /\ events_of (peres_save_resource (R := R) (Node n c s) namedExtract st)
       = (ensure_dir_calls (st_fs st) g_resourceDir
            ++ ensure_dir_calls (ensure_dir_fs (st_fs st) g_resourceDir)
                                (resource_dirName info)
            ++ rest)%list
    /\ In (SysFopen p) rest.
Proof.
  unfold peres_save_resource, events_of.
  unfold call, bind, assert, when, raw_dataEntry, ctx, get, pure, stat, mkdir,
    emit, put, return_, crash, raw_directoryEntry, fopen, fwrite, fclose, output.
  cbn. split_statement; intros H; in_cases H; try contradiction.
  all: try builder_events.
  all: rewrite ?in_app_iff in H; cbn [In] in H.
  all: repeat match type of H with
              | _ \/ _ => destruct H as [H|H]
              end.
  all: try discriminate H; try contradiction.
  all: try (exfalso; eapply not_warning_not_in; [eassumption| |eassumption];
            cbn; tauto).
  all: inversion H; subst p; clear H.
  all: do 3 eexists.
  all: solve [opens_case].
Qed.

Lemma peres_save_resource_saved {R} n c s namedExtract st p :
  In (Output "Save On" p)
     (events_of (peres_save_resource (R := R) (Node n c s) namedExtract st)) ->
  In (SysFopen p)
     (events_of (peres_save_resource (R := R) (Node n c s) namedExtract st)).
Proof.
  unfold peres_save_resource, events_of.
  unfold call, bind, assert, when, raw_dataEntry, ctx, get, pure, stat, mkdir,
    emit, put, return_, crash, raw_directoryEntry, fopen, fwrite, fclose, output.
  cbn. split_statement; intros H; in_cases H; try contradiction.
  all: try builder_events.
  all: rewrite ?in_app_iff in H; cbn [In] in H.
  all: repeat match type of H with
              | _ \/ _ => destruct H as [H|H]
              end.
  all: try discriminate H; try contradiction.
  all: try (exfalso; eapply not_warning_not_in; [eassumption| |eassumption];
            cbn; tauto).
  all: inversion H; subst p; clear H.
  all: rewrite ?in_app_iff; cbn; auto 10.
Qed.

(** ** Texts and buffers *)

Lemma length_append (a b : string) :
  String.length (a ++ b) = (String.length a + String.length b)%nat.
Proof. induction a as [|x a IH]; cbn; [reflexivity|now rewrite IH]. Qed.

Lemma append_inv_head (d a b : string) : d ++ a = d ++ b -> a = b.
Proof.
  induction d as [|x d IH]; cbn; intros H; [exact H|].
  injection H as H. auto.
Qed.

Lemma substring_0_all (k : nat) (s : string) :
  (String.length s <= k)%nat -> substring 0 k s = s.
Proof.
  revert k. induction s as [|x s IH]; intros k Hk.
  - destruct k; reflexivity.
  - destruct k; cbn in *; [lia|]. rewrite IH by lia. reflexivity.
Qed.

Lemma substring_0_length (k : nat) (s : string) :
  String.length (substring 0 k s) = Nat.min k (String.length s).
Proof.
  revert k. induction s as [|x s IH]; intros k.
  - destruct k; reflexivity.
  - destruct k; cbn; [reflexivity|]. now rewrite IH.
Qed.

Lemma substring_0_append (k : nat) (d x : string) :
  (String.length d <= k)%nat ->
  substring 0 k (d ++ x) = d ++ substring 0 (k - String.length d) x.
Proof.
  revert k. induction d as [|a d IH]; intros k Hk; cbn in *.
  - now rewrite Nat.sub_0_r.
  - destruct k; [lia|]. cbn. rewrite IH by lia. reflexivity.
Qed.

(** A buffer that is not full holds the whole text. *)
Lemma snprintf_not_full (size : nat) (s : string) :
  (String.length (snprintf size s) < size - 1)%nat -> snprintf size s = s.
Proof.
  unfold snprintf. rewrite substring_0_length. intros H.
  apply substring_0_all. lia.
Qed.

Lemma snprintf_fits (size : nat) (s : string) :
  (String.length s < size)%nat -> snprintf size s = s.
Proof. intros H. apply substring_0_all. lia. Qed.

Lemma snprintf_length (size : nat) (s : string) :
  (String.length (snprintf size s) <= size - 1)%nat.
Proof. unfold snprintf. rewrite substring_0_length. lia. Qed.

Lemma resource_dirName_length info :
  (String.length (resource_dirName info) <= 99)%nat.
Proof.
  unfold resource_dirName.
  destruct info; apply (snprintf_length 100).
Qed.

(** ** Decimal texts *)

Lemma string_of_uint_digits (d : Decimal.uint) :
  all_digits (DecimalString.NilEmpty.string_of_uint d).
Proof.
  unfold all_digits. induction d; cbn; constructor; auto.
Qed.

Lemma fmt_u_digits (x : Z) : all_digits (fmt_u x).
Proof.
  unfold fmt_u, DecimalString.NilZero.string_of_uint.
  destruct (N.to_uint (Z.to_N x)) eqn:E;
    try (rewrite <- E; apply string_of_uint_digits).
  repeat constructor.
Qed.

Lemma digits_then_other (a b e1 e2 : string) :
  all_digits a -> all_digits b ->
  starts_with_digit e1 = false -> starts_with_digit e2 = false ->
  a ++ e1 = b ++ e2 -> a = b.
Proof.
  unfold all_digits. revert b.
  induction a as [|x a IH]; intros b Ha Hb H1 H2 H; destruct b as [|y b];
    cbn in *.
  - reflexivity.
  - subst e1. cbn in H1. inversion Hb; subst. congruence.
  - subst e2. cbn in H2. inversion Ha; subst. congruence.
  - injection H as -> H. inversion Ha; inversion Hb; subst.
    f_equal. eapply IH; eauto.
Qed.

Lemma N_to_uint_nonnil (n : N) : N.to_uint n <> Decimal.Nil.
Proof.
  destruct n; cbn; [discriminate|apply DecimalPos.Unsigned.to_uint_nonnil].
Qed.

Lemma fmt_u_inj (x y : Z) : 0 <= x -> 0 <= y -> fmt_u x = fmt_u y -> x = y.
Proof.
  unfold fmt_u. intros Hx Hy H.
  assert (E : Some (N.to_uint (Z.to_N x)) = Some (N.to_uint (Z.to_N y))).
  { rewrite <- (DecimalString.NilZero.usu _ (N_to_uint_nonnil (Z.to_N x))).
    rewrite <- (DecimalString.NilZero.usu _ (N_to_uint_nonnil (Z.to_N y))).
    now rewrite H. }
  injection E as E. apply DecimalN.Unsigned.to_uint_inj in E. lia.
Qed.

(** ** The extractor *)

(** C5.  Extraction of a level-3 data entry whose translated byte range
    fails the bounds check emits exactly one diagnostic and does nothing
    else: no system call is made and the state, with the file system in it,
    is the one before the call.  The whole-tree extraction then goes on with
    the child and the sibling subtrees from that same state, exactly as it
    would had the node not been there. *)
Theorem unreadable_entry_is_skipped n c s namedExtract st entry :
  raw n = dataEntry entry ->
  dirLevel n = 3 ->
  pe_can_read (st_ctx st)
    (LIBPE_PTR_ADD map_addr (pe_rva2ofs (st_ctx st) (OffsetToData entry)))
    (Size entry) = false ->
  exists msg,
    peres_save_resource (R := unit) (Node n c s) namedExtract st
    = ([Stderr msg], Normal tt st)
    /\ let rest :=
         call (R := unit) (R' := unit)
           (peres_save_all_resources c namedExtract ;;
            peres_save_all_resources s namedExtract) st in
       peres_save_all_resources (R := unit) (Node n c s) namedExtract st
       = (Stderr msg :: events_of rest, snd rest).
Proof.
  intros Hraw Hlevel Hread.
  assert (Hg : save_guard n = true).
  { unfold save_guard, type. rewrite Hraw, Hlevel. reflexivity. }
  destruct (peres_save_resource_unreadable (R := unit) n c s namedExtract st
              entry Hg Hraw Hread) as (msg & Hsave).
  exists msg. split; [exact Hsave|].
  cbn [peres_save_all_resources]. rewrite Hg. cbn [when].
  set (B := bind (peres_save_all_resources c namedExtract) _).
  assert (E : bind (peres_save_resource (Node n c s) namedExtract)
                (fun _ => B) st
              = (Stderr msg :: fst (B st), snd (B st))).
  { unfold bind at 1. rewrite Hsave. destruct (B st); reflexivity. }
  unfold call, events_of. rewrite E.
  destruct (B st) as [l [a s1|r s1|f s1]]; reflexivity.
Qed.

Lemma level2_id_nonneg n id : level2_id n = Some id -> 0 <= id.
Proof.
  unfold level2_id.
  destruct (pe_resource_find_parent_node_by_type_and_level _ _ _) as [d|];
    [|discriminate].
  destruct (raw d); try discriminate. intros [= <-].
  unfold NameOffset. apply Z.land_nonneg. right. lia.
Qed.

(** The identifier of an entry that is not named by a string is the whole
    32-bit word. *)
Lemma numeric_id_is_name_offset (e : IMAGE_RESOURCE_DIRECTORY_ENTRY) :
  is_uint32 (u0_Name e) -> NameIsString e = 0 -> NameOffset e = u0_Name e.
Proof.
  unfold is_uint32, UINT32_MAX, NameIsString, NameOffset. intros Hr Hs.
  change 1 with (Z.ones 1) in Hs. rewrite Z.land_ones in Hs by lia.
  rewrite Z.shiftr_div_pow2 in Hs by lia.
  change 0x7fffffff with (Z.ones 31). rewrite Z.land_ones by lia.
  apply Z.mod_small.
  assert (0 <= u0_Name e / 2 ^ 31 < 2).
  { split; [apply Z.div_pos; lia|apply Z.div_lt_upper_bound; lia]. }
  assert (E : u0_Name e / 2 ^ 31 = 0).
  { change (2 ^ 1) with 2 in Hs.
    rewrite Z.mod_small in Hs by lia. exact Hs. }
  apply Z.div_small_iff in E; lia.
Qed.

Lemma resource_extension_no_digit info :
  (forall i, In i g_resource_dataentry_info_table ->
             starts_with_digit (extension i) = false) ->
  forall n, resource_type_info n = Some info ->
  starts_with_digit (resource_extension info) = false.
Proof.
  intros Htable n. unfold resource_type_info.
  destruct (pe_resource_find_parent_node_by_type_and_level _ _ _) as [d|];
    [|discriminate].
  destruct (raw d); try discriminate. intros [= <-].
  unfold pe_resource_entry_info_lookup.
  destruct (find _ _) as [i|] eqn:F; [|reflexivity].
  apply find_some in F as [Hin _]. cbn. auto.
Qed.

(** C8.  Two data entries whose level-2 identifiers differ and whose
    category directory is the same are written, in default mode, to
    different paths, provided no extension of the table starts with a digit
    and neither path fills its buffer. *)
Theorem default_names_distinct n1 c1 s1 n2 c2 s2 st1 st2 p1 p2 id1 id2 :
  (forall i, In i g_resource_dataentry_info_table ->
             starts_with_digit (extension i) = false) ->
  In (SysFopen p1)
     (events_of (peres_save_resource (R := unit) (Node n1 c1 s1) false st1)) ->
  In (SysFopen p2)
     (events_of (peres_save_resource (R := unit) (Node n2 c2 s2) false st2)) ->
  level2_id n1 = Some id1 ->
  level2_id n2 = Some id2 ->
  id1 <> id2 ->
  category_dir n1 = category_dir n2 ->
  (String.length p1 < MAX_PATH - 1)%nat ->
  (String.length p2 < MAX_PATH - 1)%nat ->
  p1 <> p2.
Proof.
  intros Htable H1 H2 L1 L2 Hid Hdir F1 F2 Heq.
  apply peres_save_resource_opens in H1
    as (i1 & file1 & r1 & T1 & P1 & D1 & _).
  apply peres_save_resource_opens in H2
    as (i2 & file2 & r2 & T2 & P2 & D2 & _).
  destruct (D1 eq_refl) as (x1 & X1 & ->).
  destruct (D2 eq_refl) as (x2 & X2 & ->).
  assert (x1 = id1) by congruence. assert (x2 = id2) by congruence.
  subst x1 x2.
  rewrite P1 in F1. apply snprintf_not_full in F1.
  rewrite P2 in F2. apply snprintf_not_full in F2.
  unfold category_dir in Hdir. rewrite T1, T2 in Hdir. cbn in Hdir.
  injection Hdir as Hdir.
  rewrite P1, P2, F1, F2, Hdir in Heq.
  apply append_inv_head in Heq. cbn in Heq. injection Heq as Heq.
  apply digits_then_other in Heq; try apply fmt_u_digits;
    try (eapply resource_extension_no_digit; eassumption).
  apply fmt_u_inj in Heq; try (eapply level2_id_nonneg; eassumption).
  contradiction.
Qed.

(** C9.  Whole-tree extraction leaves the context as it found it: the tree
    reached through it after the extraction is the tree before, and so are
    the statistics computed on it. *)
Theorem extraction_leaves_the_tree (node : node_ptr) namedExtract st :
  let st' := state_of (peres_save_all_resources (R := unit) node namedExtract st) in
  root_node (st_ctx st') = root_node (st_ctx st)
  /\ peres_generate_stats stats_zero (root_node (st_ctx st'))
     = peres_generate_stats stats_zero (root_node (st_ctx st)).
Proof.
  cbn zeta.
  destruct (tame_peres_save_all_resources node unit namedExtract st) as [H _].
  rewrite H. split; reflexivity.
Qed.

Lemma peres_save_resource_asserts {R} node namedExtract st :
  save_assertions node = false ->
  peres_save_resource (R := R) node namedExtract st
  = ([], Crashed AssertionFailure st).
Proof.
  destruct node as [|n c s]; cbn [save_assertions]; [reflexivity|].
  intros H. apply andb_false_iff in H.
  unfold peres_save_resource, call, bind, assert.
  destruct (type_eqb (type n) LIBPE_RDT_DATA_ENTRY); cbn.
  - destruct H as [H|H]; [discriminate|]. rewrite H. reflexivity.
  - reflexivity.
Qed.

(** C10.  The guard of the whole-tree traversal admits exactly the nodes on
    which the entry assertions of the saver hold (the node is not null, is a
    data entry, and is at level 3); the saver stops on an assertion exactly
    when they do not hold; and the whole-tree traversal never stops on an
    assertion. *)
Theorem traversal_meets_save_assertions :
  (forall n c s, save_guard n = true <-> save_assertions (Node n c s) = true)
  /\ (forall n c s,
         save_assertions (Node n c s) = true <->
         type n = LIBPE_RDT_DATA_ENTRY /\ dirLevel n = LIBPE_RDT_LEVEL3)
  /\ save_assertions NULL = false
  /\ (forall node namedExtract st,
         save_assertions node = true <->
         forall l s', peres_save_resource (R := unit) node namedExtract st
                      <> (l, Crashed AssertionFailure s'))
  /\ (forall node namedExtract st l s',
         peres_save_all_resources (R := unit) node namedExtract st
         <> (l, Crashed AssertionFailure s')).
Proof.
  split; [|split; [|split; [|split]]].
  - intros n c s. reflexivity.
  - intros n c s. cbn [save_assertions]. rewrite andb_true_iff, Z.eqb_eq.
    split; intros [Ht Hl]; (split; [|exact Hl]).
    + destruct (type n); cbn in Ht; congruence.
    + rewrite Ht. reflexivity.
  - reflexivity.
  - intros node namedExtract st. split.
    + destruct node as [|n c s]; [discriminate|]. intros H.
      apply (tame_peres_save_resource (R := unit) n c s namedExtract H st).
    + intros H. destruct (save_assertions node) eqn:E; [reflexivity|].
      exfalso. eapply H.
      apply peres_save_resource_asserts. exact E.
  - intros node namedExtract st.
    apply (tame_peres_save_all_resources node unit namedExtract st).
Qed.

(** ** The version decoder *)

Lemma to_uint32_id (x : Z) : is_uint32 x -> to_uint32 x = x.
Proof.
  unfold is_uint32, UINT32_MAX, to_uint32. intros H.
  apply Z.mod_small. lia.
Qed.

Lemma high_half (ms : Z) :
  is_uint32 ms ->
  Z.shiftr (to_uint32 (Z.land ms 0xffff0000)) 16 = Z.shiftr ms 16.
Proof.
  intros H. unfold is_uint32, UINT32_MAX in H.
  assert (E : to_uint32 (Z.land ms 0xffff0000) = Z.land ms 0xffff0000).
  { unfold to_uint32. rewrite <- Z.land_ones by lia.
    rewrite <- Z.land_assoc. reflexivity. }
  rewrite E, Z.shiftr_land.
  change (Z.shiftr 0xffff0000 16) with (Z.ones 16).
  rewrite Z.land_ones by lia. rewrite Z.shiftr_div_pow2 by lia.
  apply Z.mod_small. split.
  - apply Z.div_pos; lia.
  - apply Z.div_lt_upper_bound; lia.
Qed.

Lemma high_half_range (ms : Z) : is_uint32 ms -> 0 <= Z.shiftr ms 16 <= 0xffff.
Proof.
  unfold is_uint32, UINT32_MAX. intros H.
  rewrite Z.shiftr_div_pow2 by lia. split.
  - apply Z.div_pos; lia.
  - assert (ms / 2 ^ 16 < 65536) by (apply Z.div_lt_upper_bound; lia). lia.
Qed.

Lemma low_half_range (ms : Z) : 0 <= Z.land ms 0xFFFF <= 0xffff.
Proof.
  assert (E : Z.land ms 0xFFFF = ms mod 2 ^ 16)
    by (rewrite <- Z.land_ones by lia; reflexivity).
  assert (H : 0 <= ms mod 2 ^ 16 < 2 ^ 16) by (apply Z.mod_pos_bound; lia).
  rewrite E. change (2 ^ 16) with 65536 in *. lia.
Qed.

Lemma short_from_spec (width count : nat) :
  forall x, short_from width count x = true ->
  forall y, x <= y < x + Z.of_nat count ->
  (String.length (fmt_u y) <= width)%nat.
Proof.
  induction count as [|count IH]; intros x H y Hy; [lia|].
  cbn [short_from] in H. apply andb_true_iff in H as [H0 H1].
  destruct (Z.eq_dec y x) as [->|Hne].
  - apply Nat.leb_le. exact H0.
  - apply (IH (x + 1) H1). lia.
Qed.

Lemma fmt_u_16bit_checked : short_from 5 (Z.to_nat 0x10000) 0 = true.
Proof. vm_compute. reflexivity. Qed.

(** A 16-bit value prints in at most five digits. *)
Lemma fmt_u_16bit (x : Z) :
  0 <= x <= 0xffff -> (String.length (fmt_u x) <= 5)%nat.
Proof.
  intros H. apply (short_from_spec 5 _ 0 fmt_u_16bit_checked). lia.
Qed.

Lemma version_value_dotted (ms ls : Z) :
  is_uint32 ms -> is_uint32 ls -> (24 <= MAX_MSG)%nat ->
  version_value ms ls = dotted_version ms ls.
Proof.
  intros Hm Hl Hsize. unfold version_value, dotted_version.
  rewrite !high_half, !to_uint32_id by assumption.
  apply snprintf_fits.
  pose proof (fmt_u_16bit _ (high_half_range ms Hm)).
  pose proof (fmt_u_16bit _ (low_half_range ms)).
  pose proof (fmt_u_16bit _ (high_half_range ls Hl)).
  pose proof (fmt_u_16bit _ (low_half_range ls)).
  rewrite !length_append. cbn [String.length]. lia.
Qed.

(** One turn of the inner loop, on a data entry. *)
Lemma show_version_items_step n c s rest entry st :
  raw n = dataEntry entry ->
  let data_ptr :=
    LIBPE_PTR_ADD map_addr
      (to_uint64 (32 + pe_rva2ofs (st_ctx st) (OffsetToData entry))) in
  let info := fixedfileinfo_at (st_ctx st) data_ptr in
  show_version_items (Node n c s :: rest) st
  = if pe_can_read (st_ctx st) data_ptr (Size entry)
    then
      if pe_can_read (st_ctx st)
           (LIBPE_PTR_ADD data_ptr offsetof_dwFileVersionMS)
           sizeof_version_pair
      then
        if pe_can_read (st_ctx st)
             (LIBPE_PTR_ADD data_ptr offsetof_dwProductVersionMS)
             sizeof_version_pair
        then (Output "File Version"
                (version_value (dwFileVersionMS info) (dwFileVersionLS info))
              :: Output "Product Version"
                   (version_value (dwProductVersionMS info)
                                  (dwProductVersionLS info))
              :: fst (show_version_items rest st),
              snd (show_version_items rest st))
        else ([Output "File Version"
                 (version_value (dwFileVersionMS info) (dwFileVersionLS info))],
              Crashed OutOfBoundsRead st)
      else ([], Crashed OutOfBoundsRead st)
    else ([Warning "Cannot read VS_FIXEDFILEINFO"], Returned tt st).
Proof.
  intros Hraw data_ptr info.
  cbn [show_version_items]. unfold raw_dataEntry. rewrite Hraw.
  cbv beta iota zeta delta
    [bind ctx get pure when LIBPE_WARNING output emit return_ crash app negb].
  fold data_ptr.
  destruct (pe_can_read (st_ctx st) data_ptr (Size entry));
    cbv beta iota zeta delta [pure app]; [|reflexivity].
  destruct (pe_can_read (st_ctx st)
              (LIBPE_PTR_ADD data_ptr offsetof_dwFileVersionMS)
              sizeof_version_pair);
    cbv beta iota zeta delta [pure app]; [|reflexivity].
  destruct (pe_can_read (st_ctx st)
              (LIBPE_PTR_ADD data_ptr offsetof_dwProductVersionMS)
              sizeof_version_pair);
    cbv beta iota zeta delta [pure app]; [|reflexivity].
  fold info. destruct (show_version_items rest st); reflexivity.
Qed.

(** One turn of the outer loop. *)
Lemma show_version_parents_step item rest st :
  let found := search_subtree peres_is_version_node item in
  let st1 := with_search_items st (st_search_items st + List.length found) in
  show_version_parents (item :: rest) st
  = match show_version_items found st1 with
    | (l1, Normal _ s1) =>
        (l1 ++ fst (show_version_parents rest
                      (with_search_items s1
                         (st_search_items s1 - List.length found))),
         snd (show_version_parents rest
                (with_search_items s1
                   (st_search_items s1 - List.length found))))%list
    | (l1, Returned r s1) => (l1, Returned r s1)
    | (l1, Crashed f s1) => (l1, Crashed f s1)
    end.
Proof.
  intros found st1. cbn [show_version_parents].
  cbv beta iota zeta delta
    [bind pe_resource_search_nodes pe_resources_dealloc_node_search_result
     get put pure app].
  fold found.
  change {| st_ctx := st_ctx st; st_fs := st_fs st;
            st_search_items := (st_search_items st + List.length found)%nat |}
    with st1.
  destruct (show_version_items found st1) as [l1 [[] s1|r s1|f s1]];
    try reflexivity.
  unfold with_search_items.
  destruct (show_version_parents rest _) as [l2 o2]. cbn [fst snd].
  reflexivity.
Qed.

(** ** The path builder without an ancestor *)



(** ** Further properties: the statistics *)

Lemma count_node_fields st t :
  stats_consistent st -> totalCount st < INT_MAX ->
  exists st',
    count_node st t = Some st'
    /\ totalCount st' = totalCount st + 1
    /\ totalResourceDirectory st'
       = totalResourceDirectory st + type_hit t LIBPE_RDT_RESOURCE_DIRECTORY
    /\ totalDirectoryEntry st'
       = totalDirectoryEntry st + type_hit t LIBPE_RDT_DIRECTORY_ENTRY
    /\ totalDataString st' = totalDataString st + type_hit t LIBPE_RDT_DATA_STRING
    /\ totalDataEntry st' = totalDataEntry st + type_hit t LIBPE_RDT_DATA_ENTRY.
Proof.
  unfold stats_consistent, stats_sum, count_node, incr.
  intros (H1 & H2 & H3 & H4 & H5) Hlt.
  destruct (Z.ltb_spec (totalCount st) INT_MAX) as [_|]; [|lia].
  destruct t; cbn [set_totalCount totalCount totalResourceDirectory
                   totalDirectoryEntry totalDataString totalDataEntry].
  - destruct (Z.ltb_spec (totalResourceDirectory st) INT_MAX) as [_|]; [|lia].
    eexists; split; [reflexivity|]. cbn. lia.
  - destruct (Z.ltb_spec (totalDirectoryEntry st) INT_MAX) as [_|]; [|lia].
    eexists; split; [reflexivity|]. cbn. lia.
  - destruct (Z.ltb_spec (totalDataString st) INT_MAX) as [_|]; [|lia].
    eexists; split; [reflexivity|]. cbn. lia.
  - destruct (Z.ltb_spec (totalDataEntry st) INT_MAX) as [_|]; [|lia].
    eexists; split; [reflexivity|]. cbn. lia.
Qed.

Lemma peres_generate_stats_fields (node : node_ptr) :
  forall st,
    stats_consistent st ->
    totalCount st + Z.of_nat (node_count node) <= INT_MAX ->
    exists st',
      peres_generate_stats st node = Some st'
      /\ stats_consistent st'
      /\ totalCount st' = totalCount st + Z.of_nat (node_count node)
      /\ totalResourceDirectory st'
         = totalResourceDirectory st
           + Z.of_nat (count_type LIBPE_RDT_RESOURCE_DIRECTORY node)
      /\ totalDirectoryEntry st'
         = totalDirectoryEntry st
           + Z.of_nat (count_type LIBPE_RDT_DIRECTORY_ENTRY node)
      /\ totalDataString st'
         = totalDataString st + Z.of_nat (count_type LIBPE_RDT_DATA_STRING node)
      /\ totalDataEntry st'
         = totalDataEntry st + Z.of_nat (count_type LIBPE_RDT_DATA_ENTRY node).
Proof.
  induction node as [|n c IHc sib IHs]; intros st Hc Hle.
  - exists st. cbn. repeat split; try apply Hc; lia.
  - cbn [node_count] in Hle. cbn [peres_generate_stats].
    destruct (count_node_fields st (type n) Hc)
      as (st1 & E1 & T1 & A1 & B1 & C1 & D1); [lia|].
    destruct (count_node_spec st (type n) Hc) as (st1' & E1' & K1 & _); [lia|].
    assert (st1' = st1) by congruence. subst st1'.
    rewrite E1.
    destruct (IHc st1 K1) as (st2 & E2 & K2 & T2 & A2 & B2 & C2 & D2); [lia|].
    assert (E2' : match c with
                  | NULL => Some st1
                  | Node _ _ _ => peres_generate_stats st1 c
                  end = Some st2) by (destruct c; exact E2).
    rewrite E2'.
    destruct (IHs st2 K2) as (st3 & E3 & K3 & T3 & A3 & B3 & C3 & D3); [lia|].
    exists st3. split; [destruct sib; exact E3|]. split; [exact K3|].
    cbn [node_count count_type]. unfold type_hit in *.
    destruct (type n); cbn [type_eqb] in *; repeat split; lia.
Qed.

(** X1.  The statistics traversal adds to the counters it is given: when
    the total has room for the nodes of the tree, each per-variant counter
    grows by the number of nodes of its variant and the total by the number
    of all nodes. *)
Theorem peres_generate_stats_counts (node : node_ptr) (st : peres_stats_t) :
  stats_consistent st ->
  totalCount st + Z.of_nat (node_count node) <= INT_MAX ->
  exists st',
    peres_generate_stats st node = Some st'
    /\ totalCount st' = totalCount st + Z.of_nat (node_count node)
    /\ totalResourceDirectory st'
       = totalResourceDirectory st
         + Z.of_nat (count_type LIBPE_RDT_RESOURCE_DIRECTORY node)
    /\ totalDirectoryEntry st'
       = totalDirectoryEntry st
         + Z.of_nat (count_type LIBPE_RDT_DIRECTORY_ENTRY node)
    /\ totalDataString st'
       = totalDataString st + Z.of_nat (count_type LIBPE_RDT_DATA_STRING node)
    /\ totalDataEntry st'
       = totalDataEntry st + Z.of_nat (count_type LIBPE_RDT_DATA_ENTRY node).
Proof.
  intros Hc Hle.
  destruct (peres_generate_stats_fields node st Hc Hle)
    as (st' & E & _ & T & A & B & C & D).
  exists st'. repeat split; assumption.
Qed.

Lemma stats_zero_consistent : stats_consistent stats_zero.
Proof. unfold stats_consistent, stats_sum. cbn. lia. Qed.

(** X2.  For a tree whose nodes an [int] can count, the statistics report
    is five lines, in this order: the number of nodes, then the number of
    resource directories, directory entries, data strings and data entries,
    each in decimal; the state is left as it was. *)
Theorem peres_show_stats_report (node : node_ptr) (s : state) :
  Z.of_nat (node_count node) <= INT_MAX ->
  peres_show_stats (R := unit) node s
  = ([Output "Total Structs"
        (snprintf MAX_MSG (fmt_d (Z.of_nat (node_count node))));
      Output "Total Resource Directory"
        (snprintf MAX_MSG
           (fmt_d (Z.of_nat (count_type LIBPE_RDT_RESOURCE_DIRECTORY node))));
      Output "Total Directory Entry"
        (snprintf MAX_MSG
           (fmt_d (Z.of_nat (count_type LIBPE_RDT_DIRECTORY_ENTRY node))));
      Output "Total Data String"
        (snprintf MAX_MSG
           (fmt_d (Z.of_nat (count_type LIBPE_RDT_DATA_STRING node))));
      Output "Total Data Entry"
        (snprintf MAX_MSG
           (fmt_d (Z.of_nat (count_type LIBPE_RDT_DATA_ENTRY node))))],
     Normal tt s).
Proof.
  intros Hle.
  destruct (peres_generate_stats_fields node stats_zero stats_zero_consistent)
    as (st & E & _ & T & A & B & C & D); [cbn; lia|].
  unfold peres_show_stats. rewrite E.
  cbn [stats_zero totalCount totalResourceDirectory totalDirectoryEntry
       totalDataString totalDataEntry] in T, A, B, C, D.
  rewrite T, A, B, C, D. rewrite !Z.add_0_l. reflexivity.
Qed.

(** ** Further properties: the path builder *)

Lemma bind_assoc {R A B C} (m : M R A) (k : A -> M R B) (h : B -> M R C) s :
  bind (bind m k) h s = bind m (fun a => bind (k a) h) s.
Proof.
  unfold bind. destruct (m s) as [l1 [a s1|r s1|f s1]]; try reflexivity.
  destruct (k a s1) as [l2 [b s2|r s2|f s2]]; try reflexivity.
  destruct (h b s2) as [l3 o]. rewrite List.app_assoc. reflexivity.
Qed.

Lemma bind_ext {R A B} (m : M R A) (k k' : A -> M R B) s :
  (forall a s1, k a s1 = k' a s1) -> bind m k s = bind m k' s.
Proof.
  intros H. unfold bind. destruct (m s) as [l1 [a s1|r s1|f s1]]; try reflexivity.
  rewrite H. reflexivity.
Qed.

(** The turns of the loop compose: [a + b] turns are [a] turns followed by
    [b] turns on the buffer the first left. *)
Lemma build_node_filename_levels_split (a b : nat) :
  forall level node output output_size s,
    build_node_filename_levels (a + b) level node output output_size s
    = bind (build_node_filename_levels a level node output output_size)
           (fun text =>
              build_node_filename_levels b (level + Z.of_nat a) node text
                                         output_size) s.
Proof.
  induction a as [|a IH]; intros level node output output_size s.
  - cbn [Nat.add build_node_filename_levels]. unfold bind, pure.
    rewrite Z.add_0_r.
    destruct (build_node_filename_levels b level node output output_size s).
    reflexivity.
  - cbn [Nat.add build_node_filename_levels].
    destruct (pe_resource_find_parent_node_by_type_and_level _ _ _) as [d|];
      [|reflexivity].
    rewrite bind_assoc. apply bind_ext. intros de s1.
    rewrite bind_assoc. apply bind_ext. intros partial_path s2.
    rewrite IH. apply bind_ext. intros text s3.
    replace (level + 1 + Z.of_nat a) with (level + Z.of_nat (S a)) by lia.
    reflexivity.
Qed.

Lemma strncat_length (dest src : string) (output_size : nat) :
  (String.length dest < output_size)%nat ->
  (String.length (strncat dest src (output_size - String.length dest - 1))
   < output_size)%nat.
Proof.
  intros H. unfold strncat. rewrite length_append, substring_0_length. lia.
Qed.

Lemma build_node_filename_levels_fits count :
  forall level node output output_size s,
    (String.length output < output_size)%nat ->
    match snd (build_node_filename_levels count level node output output_size s) with
    | Normal text _ | Returned text _ => (String.length text < output_size)%nat
    | Crashed _ _ => True
    end.
Proof.
  induction count as [|count IH]; intros level node output output_size s Hfit;
    cbn [build_node_filename_levels].
  - exact Hfit.
  - destruct (pe_resource_find_parent_node_by_type_and_level _ _ _) as [d|];
      [|exact I].
    unfold raw_directoryEntry.
    destruct (raw d) as [x|e|x|x]; [exact I| |exact I|exact I].
    unfold bind at 1. cbn [pure].
    set (P := if negb (NameIsString e =? 0) then _ else _).
    assert (HP : match snd (P s) with
                 | Normal _ s1 => True
                 | Returned text _ => text = output
                 | Crashed _ _ => True
                 end).
    { subst P. destruct (negb (NameIsString e =? 0)).
      - unfold bind, ctx, get, pure, LIBPE_WARNING, emit, return_, crash. cbn.
        destruct (negb (pe_can_read _ _ _)); cbn; auto.
        destruct (negb (pe_can_read _ _ _)); cbn; auto.
      - destruct (level =? 1), (pe_resource_entry_info_lookup (NameOffset e));
          exact I. }
    unfold bind.
    destruct (P s) as [l1 [partial_path s1|r s1|f s1]]; cbn [snd] in *.
    + specialize (IH (level + 1) node
                     (strncat output partial_path
                        (output_size - String.length output - 1))
                     output_size s1 (strncat_length _ _ _ Hfit)).
      destruct (build_node_filename_levels count _ _ _ _ _) as [l2 o].
      exact IH.
    + subst r. exact Hfit.
    + exact I.
Qed.

(** X3.  The path builder keeps to the caller's buffer: given a buffer
    whose text leaves room for the terminator, the text it hands back, on
    completion or on its early return, still does. *)
Theorem peres_build_node_filename_fits node output output_size s path s' :
  (String.length output < output_size)%nat ->
  snd (peres_build_node_filename (R := unit) node output output_size s)
  = Normal path s' ->
  (String.length path < output_size)%nat.
Proof.
  intros Hfit. unfold peres_build_node_filename, call, bind.
  pose proof (build_node_filename_levels_fits (Z.to_nat (dirLevel node)) 1
                node output output_size s Hfit) as H.
  destruct (build_node_filename_levels _ _ _ _ _ _)
    as [l [text s1|text s1|f s1]]; cbn [snd] in *.
  - destruct (String.length text) eqn:E; cbn; [discriminate|].
    intros [= <- <-]. rewrite substring_0_length. lia.
  - intros [= <- <-]. exact H.
  - discriminate.
Qed.

(** X4.  When the turns of the loop below some level have left a text in
    the buffer and the directory entry of that level is named by a string
    whose header cannot be read, the builder adds one warning and hands
    back that text as it is: the last separator is not stripped, and with
    the first level the caller's buffer comes back untouched. *)
Theorem peres_build_node_filename_unreadable_name
    (L : Z) node output output_size s l text s1 d e :
  1 <= L <= dirLevel node ->
  build_node_filename_levels (Z.to_nat (L - 1)) 1 node output output_size s
  = (l, Normal text s1) ->
  pe_resource_find_parent_node_by_type_and_level
    node LIBPE_RDT_DIRECTORY_ENTRY L = Some d ->
  raw d = directoryEntry e ->
  NameIsString e <> 0 ->
  pe_can_read (st_ctx s1)
    (LIBPE_PTR_ADD (resource_base_ptr (st_ctx s1)) (NameOffset e))
    sizeof_IMAGE_RESOURCE_DATA_STRING_U = false ->
  peres_build_node_filename (R := unit) node output output_size s
  = ((l ++ [Warning "Cannot read IMAGE_RESOURCE_DATA_STRING_U"])%list,
     Normal text s1).
Proof.
  intros HL Hbelow Hd He Hs Hread.
  unfold peres_build_node_filename.
  replace (Z.to_nat (dirLevel node))
    with (Z.to_nat (L - 1) + S (Z.to_nat (dirLevel node - L)))%nat by lia.
  cbv beta delta [call bind]. rewrite build_node_filename_levels_split.
  cbv beta delta [bind]. rewrite Hbelow. cbv beta iota zeta.
  replace (1 + Z.of_nat (Z.to_nat (L - 1))) with L by lia.
  cbn [build_node_filename_levels]. rewrite Hd.
  unfold raw_directoryEntry. rewrite He.
  apply Z.eqb_neq in Hs.
  cbv beta iota zeta delta [bind ctx get pure]. rewrite Hs.
  cbv beta iota zeta delta [negb]. rewrite Hread.
  cbv beta iota zeta delta [bind LIBPE_WARNING emit return_].
  cbn [app]. reflexivity.
Qed.

Lemma substring_0_prefix (x y : string) :
  substring 0 (String.length x) (x ++ y) = x.
Proof.
  rewrite substring_0_append by lia. rewrite Nat.sub_diag.
  destruct y; cbn; induction x; cbn; congruence.
Qed.

Lemma strncat_whole (dest src : string) (output_size : nat) :
  (String.length (dest ++ src) < output_size)%nat ->
  strncat dest src (output_size - String.length dest - 1) = dest ++ src.
Proof.
  rewrite length_append. intros H. unfold strncat.
  rewrite substring_0_all by lia. reflexivity.
Qed.

(** One turn of the loop on a numeric directory entry. *)
Lemma build_node_filename_levels_numeric count level node output output_size s d e :
  pe_resource_find_parent_node_by_type_and_level
    node LIBPE_RDT_DIRECTORY_ENTRY level = Some d ->
  raw d = directoryEntry e ->
  NameIsString e = 0 ->
  build_node_filename_levels (S count) level node output output_size s
  = build_node_filename_levels count (level + 1) node
      (strncat output (snprintf MAX_PATH (numeric_component level e))
               (output_size - String.length output - 1))
      output_size s.
Proof.
  intros Hd He Hs. cbn [build_node_filename_levels]. rewrite Hd.
  unfold raw_directoryEntry. rewrite He.
  unfold bind at 1. cbn [pure]. rewrite Hs. cbn [Z.eqb negb].
  unfold numeric_component.
  destruct (level =? 1), (pe_resource_entry_info_lookup (NameOffset e));
    unfold bind, pure;
    destruct (build_node_filename_levels count _ _ _ _ _);
    reflexivity.
Qed.

(** X5.  For a node at level 3 whose three directory entries are numeric,
    with room in both buffers, the path is the display name of the type when
    the table knows it (its id in four hexadecimal digits otherwise), the
    name id and the language id in four hexadecimal digits each, separated
    by single spaces, with no separator at the end; ids of the second and
    third level are never looked up in the table. *)
Theorem peres_build_node_filename_numeric node output_size s d1 e1 d2 e2 d3 e3 :
  dirLevel node = 3 ->
  pe_resource_find_parent_node_by_type_and_level
    node LIBPE_RDT_DIRECTORY_ENTRY 1 = Some d1 ->
  pe_resource_find_parent_node_by_type_and_level
    node LIBPE_RDT_DIRECTORY_ENTRY 2 = Some d2 ->
  pe_resource_find_parent_node_by_type_and_level
    node LIBPE_RDT_DIRECTORY_ENTRY 3 = Some d3 ->
  raw d1 = directoryEntry e1 -> raw d2 = directoryEntry e2 ->
  raw d3 = directoryEntry e3 ->
  NameIsString e1 = 0 -> NameIsString e2 = 0 -> NameIsString e3 = 0 ->
  (String.length (numeric_component 1 e1) < MAX_PATH)%nat ->
  (String.length (fmt_04x (NameOffset e2)) + 1 < MAX_PATH)%nat ->
  (String.length (fmt_04x (NameOffset e3)) + 1 < MAX_PATH)%nat ->
  (String.length (numeric_component 1 e1 ++ fmt_04x (NameOffset e2) ++ " "
                    ++ fmt_04x (NameOffset e3) ++ " ") < output_size)%nat ->
  peres_build_node_filename (R := unit) node "" output_size s
  = ([], Normal (numeric_component 1 e1 ++ fmt_04x (NameOffset e2) ++ " "
                   ++ fmt_04x (NameOffset e3)) s).
Proof.
  intros Hlevel H1 H2 H3 R1 R2 R3 S1 S2 S3 F1 F2 F3 Fall.
  assert (C2 : numeric_component 2 e2 = fmt_04x (NameOffset e2) ++ " ").
  { unfold numeric_component. cbn [Z.eqb Pos.eqb]. reflexivity. }
  assert (C3 : numeric_component 3 e3 = fmt_04x (NameOffset e3) ++ " ").
  { unfold numeric_component. cbn [Z.eqb Pos.eqb]. reflexivity. }
  rewrite !length_append in Fall. cbn [String.length] in Fall.
  unfold peres_build_node_filename. rewrite Hlevel.
  change (Z.to_nat 3) with 3%nat. cbv beta delta [call bind].
  rewrite (build_node_filename_levels_numeric _ 1 _ _ _ _ d1 e1 H1 R1 S1).
  rewrite (snprintf_fits MAX_PATH _ F1).
  rewrite strncat_whole by (cbn [append]; lia). cbn [append].
  change (1 + 1) with 2.
  rewrite (build_node_filename_levels_numeric _ 2 _ _ _ _ d2 e2 H2 R2 S2).
  rewrite C2, snprintf_fits
    by (rewrite length_append; cbn [String.length]; lia).
  rewrite strncat_whole
    by (rewrite !length_append; cbn [String.length]; lia).
  change (2 + 1) with 3.
  rewrite (build_node_filename_levels_numeric _ 3 _ _ _ _ d3 e3 H3 R3 S3).
  rewrite C3, snprintf_fits
    by (rewrite length_append; cbn [String.length]; lia).
  rewrite strncat_whole
    by (rewrite !length_append; cbn [String.length]; lia).
  cbn [build_node_filename_levels]. cbv beta iota zeta delta [pure].
  set (body := numeric_component 1 e1 ++ fmt_04x (NameOffset e2) ++ " "
                 ++ fmt_04x (NameOffset e3)).
  assert (E : (numeric_component 1 e1 ++ fmt_04x (NameOffset e2) ++ " ")
                ++ fmt_04x (NameOffset e3) ++ " " = body ++ " ").
  { subst body. clear.
    generalize (numeric_component 1 e1) as a, (fmt_04x (NameOffset e2)) as b,
      (fmt_04x (NameOffset e3)) as c.
    intros a b c. induction a as [|x a IH]; cbn.
    - induction b as [|y b IHb]; cbn; [reflexivity|]. f_equal. exact IHb.
    - f_equal. exact IH. }
  rewrite E.
  assert (Hlen : String.length (body ++ " ") = S (String.length body)).
  { rewrite length_append. cbn. lia. }
  rewrite Hlen. rewrite substring_0_prefix. reflexivity.
Qed.

(** ** Further properties: the dump and the list *)

Lemma count_events_app p l1 l2 :
  count_events p (l1 ++ l2) = (count_events p l1 + count_events p l2)%nat.
Proof.
  unfold count_events. rewrite List.filter_app, List.length_app. reflexivity.
Qed.

Lemma peres_show_node_fits {R} (n : pe_resource_node_t) (s : state) :
  exists l,
    peres_show_node (R := R) n s = (l, Normal tt s)
    /\ Forall fits_message l
    /\ List.length l
       = match type n with
         | LIBPE_RDT_RESOURCE_DIRECTORY => 7%nat
         | LIBPE_RDT_DIRECTORY_ENTRY => 5%nat
         | LIBPE_RDT_DATA_STRING => 3%nat
         | LIBPE_RDT_DATA_ENTRY => 5%nat
         end.
Proof.
  unfold peres_show_node, type.
  destruct (raw n); eexists; (split; [reflexivity|]); split;
    try reflexivity; repeat constructor; apply snprintf_length.
Qed.

Lemma peres_show_nodes_fits (node : node_ptr) :
  forall R (s : state),
    exists l,
      peres_show_nodes (R := R) node s = (l, Normal tt s)
      /\ Forall fits_message l
      /\ List.length l
         = (7 * count_type LIBPE_RDT_RESOURCE_DIRECTORY node
            + 5 * count_type LIBPE_RDT_DIRECTORY_ENTRY node
            + 3 * count_type LIBPE_RDT_DATA_STRING node
            + 5 * count_type LIBPE_RDT_DATA_ENTRY node)%nat.
Proof.
  induction node as [|n c IHc sib IHs]; intros R s.
  - exists []. repeat split. constructor.
  - destruct (peres_show_node_fits (R := unit) n s) as (l0 & H0 & F0 & N0).
    destruct (IHc unit s) as (l1 & H1 & F1 & N1).
    destruct (IHs unit s) as (l2 & H2 & F2 & N2).
    exists (l0 ++ l1 ++ l2)%list. split; [|split].
    + cbn [peres_show_nodes]. apply call_normal.
      eapply bind_run; [exact H0|].
      eapply bind_run; [exact H1|exact H2].
    + repeat (apply Forall_app; split); assumption.
    + rewrite !List.length_app, N0, N1, N2. cbn [count_type].
      destruct (type n); cbn [type_eqb]; lia.
Qed.

(** X6.  The dump always runs to its end and leaves the state as it was;
    it emits nothing but report lines, each with a value that fits the
    message buffer, and their number is seven for every resource directory,
    five for every directory entry, three for every data string and five
    for every data entry of the tree. *)
Theorem peres_show_nodes_lines (node : node_ptr) (s : state) :
  exists l,
    peres_show_nodes (R := unit) node s = (l, Normal tt s)
    /\ Forall fits_message l
    /\ List.length l
       = (7 * count_type LIBPE_RDT_RESOURCE_DIRECTORY node
          + 5 * count_type LIBPE_RDT_DIRECTORY_ENTRY node
          + 3 * count_type LIBPE_RDT_DATA_STRING node
          + 5 * count_type LIBPE_RDT_DATA_ENTRY node)%nat.
Proof. apply peres_show_nodes_fits. Qed.

Lemma unchanged_pure {R A} (a : A) : unchanged (pure (R := R) a).
Proof. intros s. reflexivity. Qed.

Lemma unchanged_return {R A} (r : R) : unchanged (return_ (A := A) r).
Proof. intros s. reflexivity. Qed.

Lemma unchanged_crash {R A} (f : fault) : unchanged (crash (R := R) (A := A) f).
Proof. intros s. reflexivity. Qed.

Lemma unchanged_emit {R} (e : event) : unchanged (emit (R := R) e).
Proof. intros s. reflexivity. Qed.

Lemma unchanged_ctx {R} : unchanged (ctx (R := R)).
Proof. intros s. reflexivity. Qed.

Lemma unchanged_bind {R A B} (m : M R A) (k : A -> M R B) :
  unchanged m -> (forall a, unchanged (k a)) -> unchanged (bind m k).
Proof.
  intros Hm Hk s. specialize (Hm s). unfold bind, state_of in *.
  destruct (m s) as [l1 [a s1|r s1|f s1]]; cbn in *; try exact Hm.
  subst s1. specialize (Hk a s). unfold state_of in Hk.
  destruct (k a s) as [l2 o]. exact Hk.
Qed.

Lemma unchanged_call {R R'} (body : M R R) :
  unchanged body -> unchanged (call (R' := R') body).
Proof.
  intros Hb s. specialize (Hb s). unfold call, state_of in *.
  destruct (body s) as [l [a s1|r s1|f s1]]; exact Hb.
Qed.

Ltac unchanged_step :=
  match goal with
  | |- unchanged (bind _ _) => apply unchanged_bind; [|intros ?]
  | |- unchanged (call _) => apply unchanged_call
  | |- unchanged (pure _) => apply unchanged_pure
  | |- unchanged (return_ _) => apply unchanged_return
  | |- unchanged (crash _) => apply unchanged_crash
  | |- unchanged (emit _) => apply unchanged_emit
  | |- unchanged (output _ _) => apply unchanged_emit
  | |- unchanged (LIBPE_WARNING _) => apply unchanged_emit
  | |- unchanged ctx => apply unchanged_ctx
  | |- unchanged (raw_directoryEntry _) => unfold raw_directoryEntry
  | |- unchanged (raw_dataEntry _) => unfold raw_dataEntry
  | |- unchanged (when _ _) => unfold when
  | |- unchanged (match ?x with _ => _ end) => destruct x
  | |- unchanged (if ?x then _ else _) => destruct x
  end.

Lemma unchanged_build_node_filename_levels count :
  forall level node output output_size,
    unchanged (build_node_filename_levels count level node output output_size).
Proof.
  induction count as [|count IH]; intros level node output output_size;
    cbn [build_node_filename_levels].
  - apply unchanged_pure.
  - repeat unchanged_step. apply IH.
Qed.

Lemma unchanged_peres_build_node_filename {R} node output output_size :
  unchanged (peres_build_node_filename (R := R) node output output_size).
Proof.
  unfold peres_build_node_filename. unchanged_step. unchanged_step.
  - apply unchanged_build_node_filename_levels.
  - repeat unchanged_step.
Qed.

Lemma unchanged_peres_show_list_node {R} n :
  unchanged (peres_show_list_node (R := R) n).
Proof.
  unfold peres_show_list_node.
  repeat first [apply unchanged_peres_build_node_filename | unchanged_step].
Qed.

Lemma unchanged_peres_show_list (node : node_ptr) :
  forall R, unchanged (peres_show_list (R := R) node).
Proof.
  induction node as [|n c IHc sib IHs]; intros R; cbn [peres_show_list].
  - repeat unchanged_step.
  - unchanged_step. unchanged_step; [apply unchanged_peres_show_list_node|].
    unchanged_step; [apply IHc|apply IHs].
Qed.

Lemma call_never_returned {R R'} (body : M R R) (s : state) l (r : R') s1 :
  call (R' := R') body s <> (l, Returned r s1).
Proof.
  unfold call. destruct (body s) as [l0 [a s0|r0 s0|f s0]]; discriminate.
Qed.

Lemma peres_build_node_filename_never_returned {R} node output output_size s
    l (r : R) s1 :
  peres_build_node_filename (R := R) node output output_size s
  <> (l, Returned r s1).
Proof. apply call_never_returned. Qed.

(** What one node contributes to the list. *)
Lemma peres_show_list_node_lines {R} n s :
  Forall (fun e => is_stdout e = true \/ is_warning e)
         (events_of (peres_show_list_node (R := R) n s))
  /\ match snd (peres_show_list_node (R := R) n s) with
     | Normal _ _ =>
         count_events is_stdout (events_of (peres_show_list_node (R := R) n s))
         = if type_eqb (type n) LIBPE_RDT_DATA_ENTRY then 1%nat else 0%nat
     | _ => True
     end.
Proof.
  unfold peres_show_list_node, type.
  destruct (raw n) as [x|x|x|de]; try (split; [constructor|reflexivity]).
  pose proof (peres_build_node_filename_events (R := unit) n "" MAX_PATH s) as W.
  pose proof (fun l r s1 =>
                peres_build_node_filename_never_returned
                  (R := unit) n "" MAX_PATH s l r s1) as NR.
  unfold call, bind, emit, events_of in *.
  destruct (peres_build_node_filename n "" MAX_PATH s)
    as [l [path s1|r s1|f s1]]; cbn [fst snd] in *;
    [| exfalso; eapply NR; reflexivity |].
  - split.
    + apply Forall_app. split.
      * eapply Forall_impl; [|exact W]. auto.
      * repeat constructor.
    + rewrite count_events_app. cbn.
      assert (Z0 : count_events is_stdout l = 0%nat).
      { clear -W. induction W as [|e l He _ IH]; [reflexivity|].
        unfold count_events in *. cbn. destruct e; cbn in *; try contradiction.
        exact IH. }
      rewrite Z0. reflexivity.
  - split; [|exact I]. eapply Forall_impl; [|exact W]. auto.
Qed.

Lemma peres_show_list_node_never_returned {R} n s l (r : R) s1 :
  peres_show_list_node (R := R) n s <> (l, Returned r s1).
Proof. apply call_never_returned. Qed.

Lemma peres_show_list_never_returned {R} node s l (r : R) s1 :
  peres_show_list (R := R) node s <> (l, Returned r s1).
Proof. destruct node; apply call_never_returned. Qed.

Lemma peres_show_list_lines (node : node_ptr) :
  forall R s,
    Forall (fun e => is_stdout e = true \/ is_warning e)
           (events_of (peres_show_list (R := R) node s))
    /\ match snd (peres_show_list (R := R) node s) with
       | Normal _ _ =>
           count_events is_stdout (events_of (peres_show_list (R := R) node s))
           = count_type LIBPE_RDT_DATA_ENTRY node
       | _ => True
       end.
Proof.
  induction node as [|n c IHc sib IHs]; intros R s.
  - split; [constructor|reflexivity].
  - cbn [peres_show_list count_type].
    destruct (peres_show_list_node_lines (R := unit) n s) as [F0 N0].
    pose proof (unchanged_peres_show_list_node (R := unit) n s) as U0.
    pose proof (fun l r s1 =>
                  peres_show_list_node_never_returned (R := unit) n s l r s1)
      as NR0.
    unfold call, bind, events_of, state_of in *.
    destruct (peres_show_list_node n s) as [l0 [[] s0|[] s0|f s0]];
      cbn [fst snd] in *;
      [| exfalso; eapply NR0; reflexivity | split; [exact F0|exact I]].
    subst s0.
    destruct (IHc unit s) as [F1 N1].
    pose proof (unchanged_peres_show_list c unit s) as U1.
    pose proof (fun l r s1 =>
                  peres_show_list_never_returned (R := unit) c s l r s1)
      as NR1.
    unfold events_of, state_of in *.
    destruct (peres_show_list c s) as [l1 [[] s1|[] s1|f s1]];
      cbn [fst snd] in *;
      [| exfalso; eapply NR1; reflexivity
       | split; [apply Forall_app; split; assumption|exact I]].
    subst s1.
    destruct (IHs unit s) as [F2 N2].
    pose proof (fun l r s1 =>
                  peres_show_list_never_returned (R := unit) sib s l r s1)
      as NR2.
    unfold events_of in *.
    destruct (peres_show_list sib s) as [l2 [[] s2|[] s2|f s2]];
      cbn [fst snd] in *;
      [| exfalso; eapply NR2; reflexivity |];
      (split; [repeat (apply Forall_app; split); assumption|]);
      [|exact I].
    rewrite !count_events_app, N0, N1, N2. lia.
Qed.

(** X7.  The list prints nothing but lines on the standard output and
    warnings; when it runs to its end it has left the state as it was and
    has printed one line for every data entry of the tree, at whatever
    level it sits. *)
Theorem peres_show_list_one_line_per_data_entry (node : node_ptr) (s s' : state) :
  snd (peres_show_list (R := unit) node s) = Normal tt s' ->
  s' = s
  /\ Forall (fun e => is_stdout e = true \/ is_warning e)
            (events_of (peres_show_list (R := unit) node s))
  /\ count_events is_stdout (events_of (peres_show_list (R := unit) node s))
     = count_type LIBPE_RDT_DATA_ENTRY node.
Proof.
  intros H.
  destruct (peres_show_list_lines node unit s) as [F N].
  pose proof (unchanged_peres_show_list node unit s) as U.
  unfold state_of in U. rewrite H in N, U.
  split; [exact U|]. split; [exact F|exact N].
Qed.

(** ** Further properties: the extractor *)

Lemma count_events_warnings (p : event -> bool) (l : list event) :
  (forall m, p (Warning m) = false) ->
  Forall is_warning l -> count_events p l = 0%nat.
Proof.
  intros Hp HF. induction HF as [|e l He _ IH]; [reflexivity|].
  destruct e; cbn in He; try contradiction.
  unfold count_events in *. cbn [List.filter]. rewrite Hp. exact IH.
Qed.

Lemma count_events_cons p e l :
  count_events p (e :: l)
  = ((if p e then 1 else 0) + count_events p l)%nat.
Proof. unfold count_events. cbn [List.filter]. destruct (p e); reflexivity. Qed.

Lemma prefix_append (a b : string) : prefix a (a ++ b) = true.
Proof. induction a as [|x a IH]; cbn; [destruct b; reflexivity|].
  destruct (ascii_dec x x); [exact IH|congruence].
Qed.

Lemma resource_dirName_under_base info :
  exists t, resource_dirName info = g_resourceDir ++ t.
Proof.
  destruct info as [i|]; cbn [resource_dirName]; unfold snprintf.
  - exists (substring 0 90 ("/" ++ dir_name i)).
    change (100 - 1)%nat with 99%nat.
    rewrite substring_0_append by (cbn; lia). reflexivity.
  - exists "". reflexivity.
Qed.

Lemma path_under_base info (x : string) :
  (10 <= MAX_PATH)%nat ->
  prefix g_resourceDir (snprintf MAX_PATH (resource_dirName info ++ x)) = true.
Proof.
  intros H. destruct (resource_dirName_under_base info) as [t ->].
  unfold snprintf.
  assert (E : (g_resourceDir ++ t) ++ x = g_resourceDir ++ (t ++ x)).
  { cbn. reflexivity. }
  rewrite E, substring_0_append by (cbn; lia). apply prefix_append.
Qed.

Lemma dirName_under_base info :
  prefix g_resourceDir (resource_dirName info) = true.
Proof.
  destruct (resource_dirName_under_base info) as [t ->]. apply prefix_append.
Qed.

Lemma warnings_under_base l : Forall is_warning l -> Forall under_base l.
Proof.
  intros H. eapply Forall_impl; [|exact H].
  intros e Hw. destruct e; try contradiction. exact I.
Qed.

Ltac unfold_saver :=
  unfold peres_save_resource, events_of;
  unfold call, bind, assert, when, raw_dataEntry, ctx, get, pure, stat, mkdir,
    emit, put, return_, crash, raw_directoryEntry, fopen, fwrite, fclose, output.

Ltac cbn_folded :=
  cbn -[resource_dirName resource_extension snprintf g_resourceDir prefix
        append count_events under_base].

Ltac split_folded :=
  repeat match goal with
         | |- context [match ?x with _ => _ end] =>
             lazymatch x with
             | context [match _ with _ => _ end] => fail
             | _ => destruct x eqn:?; cbn_folded
             end
         end.

Ltac count_log :=
  repeat rewrite ?count_events_cons, ?count_events_app;
  repeat match goal with
         | F : Forall is_warning ?l |- context [count_events ?p ?l] =>
             rewrite (count_events_warnings p l (fun _ => eq_refl) F)
         end;
  unfold count_events; cbn; repeat split; lia.

(** The files of one resource: it is opened at most once, and written,
    closed and reported exactly when that succeeded. *)
Lemma peres_save_resource_counts {R} n c s namedExtract st :
  let log := events_of (peres_save_resource (R := R) (Node n c s) namedExtract st) in
  count_events is_fwrite log = count_events is_save_on log
  /\ count_events is_fclose log = count_events is_save_on log
  /\ (count_events is_save_on log <= count_events is_fopen log)%nat
  /\ (count_events is_fopen log <= 1)%nat.
Proof.
  cbn zeta. unfold_saver. cbn_folded. split_folded.
  all: try builder_events.
  all: count_log.
Qed.

Lemma peres_save_resource_under_base {R} n c s namedExtract st :
  (10 <= MAX_PATH)%nat ->
  Forall under_base
         (events_of (peres_save_resource (R := R) (Node n c s) namedExtract st)).
Proof.
  intros Hmax. unfold_saver. cbn_folded. split_folded.
  all: try builder_events.
  all: repeat first [apply Forall_nil
                    |apply Forall_cons
                    |apply Forall_app; split
                    |apply warnings_under_base; assumption].
  all: cbn [under_base];
    first [exact I
          |reflexivity
          |apply dirName_under_base
          |apply path_under_base; exact Hmax].
Qed.

Lemma peres_save_resource_no_stream {R} n c s namedExtract st :
  (forall fs p, os_fopen fs p = None) ->
  let log := events_of (peres_save_resource (R := R) (Node n c s) namedExtract st) in
  count_events is_fwrite log = 0%nat
  /\ count_events is_fclose log = 0%nat
  /\ count_events is_save_on log = 0%nat.
Proof.
  intros Hfail. cbn zeta. unfold_saver. cbn_folded. split_folded.
  all: try match goal with
           | H : os_fopen _ _ = Some _ |- _ => rewrite Hfail in H; discriminate H
           end.
  all: try builder_events.
  all: count_log.
Qed.

(** What the whole-tree extraction is seen to do follows from what the
    saver is seen to do on one node, for a property of logs that holds of
    the empty log and of two logs one after the other; the number counts
    the nodes handed to the saver. *)
Lemma peres_save_all_resources_events (P : nat -> list event -> Prop) :
  P 0%nat [] ->
  (forall a b l1 l2, P a l1 -> P b l2 -> P (a + b)%nat (l1 ++ l2)%list) ->
  (forall a b l, P a l -> (a <= b)%nat -> P b l) ->
  (forall n c s namedExtract st,
      save_guard n = true ->
      P 1%nat (events_of (peres_save_resource (R := unit) (Node n c s)
                                            namedExtract st))) ->
  forall node R namedExtract st,
    P (count_saveable node)
      (events_of (peres_save_all_resources (R := R) node namedExtract st)).
Proof.
  intros P0 Papp Pmono Pnode.
  induction node as [|n c IHc sib IHs]; intros R namedExtract st.
  - exact P0.
  - cbn [peres_save_all_resources count_saveable].
    assert (H0 : P (if save_guard n then 1 else 0)%nat
                   (events_of (when (save_guard n)
                                 (peres_save_resource (R := unit) (Node n c sib)
                                                      namedExtract) st))).
    { unfold when. destruct (save_guard n) eqn:G; [apply Pnode; exact G|exact P0]. }
    remember (if save_guard n then 1 else 0)%nat as g eqn:Eg. clear Eg.
    unfold call, bind, events_of in *.
    destruct (when _ _ st) as [l0 [[] s0|[] s0|f s0]]; cbn [fst] in *;
      try (eapply Pmono; [exact H0|lia]).
    specialize (IHc unit namedExtract s0).
    destruct (peres_save_all_resources c namedExtract s0)
      as [l1 [[] s1|[] s1|f s1]]; cbn [fst] in *;
      try (eapply Pmono; [apply Papp; [exact H0|exact IHc]|lia]).
    specialize (IHs unit namedExtract s1).
    destruct (peres_save_all_resources sib namedExtract s1)
      as [l2 [[] s2|[] s2|f s2]]; cbn [fst] in *;
      (eapply Pmono; [apply Papp; [exact H0|apply Papp; [exact IHc|exact IHs]]|lia]).
Qed.

(** X8.  On a tree with no data entry at level 3, whole-tree extraction
    does nothing at all: no system call is made, so not even the base
    directory is looked for or created, nothing is printed, and the state
    is as before. *)
Theorem extraction_of_nothing (node : node_ptr) namedExtract st :
  count_saveable node = 0%nat ->
  peres_save_all_resources (R := unit) node namedExtract st = ([], Normal tt st).
Proof.
  induction node as [|n c IHc sib IHs]; intros H.
  - reflexivity.
  - cbn [count_saveable] in H. cbn [peres_save_all_resources].
    destruct (save_guard n); [lia|].
    apply call_normal. unfold when.
    change (@nil event) with (@nil event ++ [] ++ [])%list.
    eapply bind_run; [reflexivity|].
    eapply bind_run; [apply IHc; lia|apply IHs; lia].
Qed.

(** X9.  Whole-tree extraction writes to a file, closes a file and
    reports a file as saved the same number of times; it reports no more
    files than it opened, and opens no more than the tree has data entries
    at level 3. *)
Theorem extraction_file_accounting (node : node_ptr) namedExtract st :
  let log := events_of (peres_save_all_resources (R := unit) node namedExtract st) in
  count_events is_fwrite log = count_events is_save_on log
  /\ count_events is_fclose log = count_events is_save_on log
  /\ (count_events is_save_on log <= count_events is_fopen log)%nat
  /\ (count_events is_fopen log <= count_saveable node)%nat.
Proof.
  cbn zeta.
  apply (peres_save_all_resources_events
           (fun k log =>
              count_events is_fwrite log = count_events is_save_on log
              /\ count_events is_fclose log = count_events is_save_on log
              /\ (count_events is_save_on log <= count_events is_fopen log)%nat
              /\ (count_events is_fopen log <= k)%nat)).
  - repeat split; apply Nat.le_refl.
  - intros a b l1 l2 (A1 & A2 & A3 & A4) (B1 & B2 & B3 & B4).
    rewrite !count_events_app. repeat split; lia.
  - intros a b l (A1 & A2 & A3 & A4) Hle. repeat split; lia.
  - intros n c s named st0 _.
    apply (peres_save_resource_counts (R := unit) n c s named st0).
Qed.

(** X10.  With a path buffer of at least ten bytes, every path that
    whole-tree extraction hands to a system call (looking for a directory,
    creating it, opening, writing or closing a file) starts with the name of
    the base directory. *)
Theorem extraction_paths_start_at_base (node : node_ptr) namedExtract st :
  (10 <= MAX_PATH)%nat ->
  Forall under_base
         (events_of (peres_save_all_resources (R := unit) node namedExtract st)).
Proof.
  intros Hmax.
  apply (peres_save_all_resources_events (fun _ log => Forall under_base log)).
  - constructor.
  - intros a b l1 l2 H1 H2. apply Forall_app. split; assumption.
  - intros a b l H _. exact H.
  - intros n c s named st0 _.
    apply (peres_save_resource_under_base (R := unit) n c s named st0 Hmax).
Qed.

(** X11.  When no file can be opened, whole-tree extraction writes
    nothing, closes nothing and reports no file as saved. *)
Theorem extraction_without_streams (node : node_ptr) namedExtract st :
  (forall fs p, os_fopen fs p = None) ->
  let log := events_of (peres_save_all_resources (R := unit) node namedExtract st) in
  count_events is_fwrite log = 0%nat
  /\ count_events is_fclose log = 0%nat
  /\ count_events is_save_on log = 0%nat.
Proof.
  intros Hfail. cbn zeta.
  apply (peres_save_all_resources_events
           (fun _ log =>
              count_events is_fwrite log = 0%nat
              /\ count_events is_fclose log = 0%nat
              /\ count_events is_save_on log = 0%nat)).
  - repeat split.
  - intros a b l1 l2 (A1 & A2 & A3) (B1 & B2 & B3).
    rewrite !count_events_app. repeat split; lia.
  - intros a b l H _. exact H.
  - intros n c s named st0 _.
    apply (peres_save_resource_no_stream (R := unit) n c s named st0 Hfail).
Qed.

(** X12.  When the data of a level-3 data entry can be read and its type
    entry is found but its name entry is not, the saver makes sure of the
    base directory and of the category directory, prints one line on the
    error stream and returns: no file is opened, and the file system has
    changed by those directories only. *)
Theorem save_resource_without_name_entry n c s namedExtract st entry d1 e1 :
  save_guard n = true ->
  raw n = dataEntry entry ->
  pe_can_read (st_ctx st)
    (LIBPE_PTR_ADD map_addr (pe_rva2ofs (st_ctx st) (OffsetToData entry)))
    (Size entry) = true ->
  pe_resource_find_parent_node_by_type_and_level
    n LIBPE_RDT_DIRECTORY_ENTRY LIBPE_RDT_LEVEL1 = Some d1 ->
  raw d1 = directoryEntry e1 ->
  pe_resource_find_parent_node_by_type_and_level
    n LIBPE_RDT_DIRECTORY_ENTRY LIBPE_RDT_LEVEL2 = None ->
  let dirName := resource_dirName (pe_resource_entry_info_lookup (u0_Name e1)) in
  exists st',
    peres_save_resource (R := unit) (Node n c s) namedExtract st
    = ((ensure_dir_calls (st_fs st) g_resourceDir
          ++ ensure_dir_calls (ensure_dir_fs (st_fs st) g_resourceDir) dirName
          ++ [Stderr ("pe_resource_find_parent_node_by_type_and_level returned NULL"
                        ++ String newline "")])%list,
       Normal tt st')
    /\ st_ctx st' = st_ctx st
    /\ st_fs st' = ensure_dir_fs (ensure_dir_fs (st_fs st) g_resourceDir) dirName
    /\ st_search_items st' = st_search_items st.
Proof.
  intros Hg Hraw Hread H1 R1 H2 dirName. unfold save_guard in Hg.
  apply andb_true_iff in Hg as [Ht Hl].
  unfold LIBPE_PTR_ADD, map_addr in Hread. cbn in Hread.
  unfold peres_save_resource. rewrite Ht.
  change LIBPE_RDT_LEVEL3 with 3. rewrite Hl, H1, H2.
  unfold raw_dataEntry, raw_directoryEntry. rewrite Hraw, R1.
  subst dirName.
  unfold call, bind, assert, when, ctx, get, pure, stat, mkdir, emit, put,
    return_, ensure_dir_calls, ensure_dir_fs.
  cbn -[resource_dirName g_resourceDir String.append]. rewrite Hread.
  cbn -[resource_dirName g_resourceDir String.append].
  generalize (resource_dirName (pe_resource_entry_info_lookup (u0_Name e1))).
  intros dirName.
  destruct (os_stat (st_fs st) g_resourceDir =? -1);
    cbn -[g_resourceDir String.append];
    match goal with
    | |- context [os_stat ?fs dirName =? -1] =>
        destruct (os_stat fs dirName =? -1)
    end;
    cbn -[g_resourceDir String.append];
    eexists; (split; [reflexivity|]); repeat split.
Qed.

(** X13.  When the data of a level-3 data entry can be read but its type
    entry is not found, the saver has looked for the base directory, and
    created it when it was not there, before it reads through the null
    pointer the lookup gave. *)
Theorem save_resource_without_type_entry n c s namedExtract st entry :
  save_guard n = true ->
  raw n = dataEntry entry ->
  pe_can_read (st_ctx st)
    (LIBPE_PTR_ADD map_addr (pe_rva2ofs (st_ctx st) (OffsetToData entry)))
    (Size entry) = true ->
  pe_resource_find_parent_node_by_type_and_level
    n LIBPE_RDT_DIRECTORY_ENTRY LIBPE_RDT_LEVEL1 = None ->
  exists st',
    peres_save_resource (R := unit) (Node n c s) namedExtract st
    = (ensure_dir_calls (st_fs st) g_resourceDir, Crashed NullDereference st')
    /\ st_ctx st' = st_ctx st
    /\ st_fs st' = ensure_dir_fs (st_fs st) g_resourceDir.
Proof.
  unfold save_guard. intros Hg Hraw Hread H1.
  apply andb_true_iff in Hg as [Ht Hl].
  unfold LIBPE_PTR_ADD, map_addr in Hread. cbn in Hread.
  unfold peres_save_resource. rewrite Ht.
  change LIBPE_RDT_LEVEL3 with 3. rewrite Hl, H1.
  unfold raw_dataEntry. rewrite Hraw.
  unfold call, bind, assert, when, ctx, get, pure, stat, mkdir, emit, put,
    return_, crash, ensure_dir_calls, ensure_dir_fs.
  cbn -[g_resourceDir]. rewrite Hread. cbn -[g_resourceDir].
  destruct (os_stat (st_fs st) g_resourceDir =? -1); cbn -[g_resourceDir];
    eexists; (split; [reflexivity|]); split; reflexivity.
Qed.

(** ** Further properties: the version decoder *)

Lemma search_forest_found predicate (node : node_ptr) :
  Forall (found_by predicate) (search_forest predicate node).
Proof.
  induction node as [|n c IHc s IHs]; cbn [search_forest]; [constructor|].
  repeat (apply Forall_app; split); try assumption.
  destruct (predicate n) eqn:E; constructor; [exact E|constructor].
Qed.

Lemma search_subtree_found predicate (node : node_ptr) :
  Forall (found_by predicate) (search_subtree predicate node).
Proof.
  destruct node as [|n c s]; cbn [search_subtree]; [constructor|].
  apply Forall_app. split; [|apply search_forest_found].
  destruct (predicate n) eqn:E; constructor; [exact E|constructor].
Qed.

Lemma version_node_is_data_entry n :
  peres_is_version_node n = true -> exists entry, raw n = dataEntry entry.
Proof.
  unfold peres_is_version_node, type.
  destruct (raw n) as [x|x|x|entry]; cbn; try discriminate.
  intros _. exists entry. reflexivity.
Qed.

(** The inner loop on the items of a search: the report, a return from
    the function at the first item that fails the bounds check, and a read
    outside the mapped file at the first whose fields lie there. *)
Lemma show_version_items_report (items : list node_ptr) :
  forall st,
    Forall (found_by peres_is_version_node) items ->
    show_version_items items st
    = (version_report (st_ctx st) items,
       if all_readable (st_ctx st) items then Normal tt st
       else if reads_in_bounds (st_ctx st) items then Returned tt st
            else Crashed OutOfBoundsRead st).
Proof.
  induction items as [|item rest IH]; intros st HF.
  - reflexivity.
  - inversion HF as [|x l Hitem Hrest]; subst x l.
    destruct item as [|n c s]; [contradiction|].
    destruct (version_node_is_data_entry n Hitem) as [entry Hraw].
    rewrite (show_version_items_step n c s rest entry st Hraw). cbn zeta.
    cbn [version_report all_readable reads_in_bounds]. rewrite Hraw.
    unfold fields_in_bounds, record_checked, file_fields_in_bounds,
      product_fields_in_bounds, version_data_ptr.
    destruct (pe_can_read (st_ctx st) _ (Size entry)); [|reflexivity].
    destruct (pe_can_read (st_ctx st)
                (LIBPE_PTR_ADD _ offsetof_dwFileVersionMS) _); [|reflexivity].
    destruct (pe_can_read (st_ctx st)
                (LIBPE_PTR_ADD _ offsetof_dwProductVersionMS) _);
      [|reflexivity].
    rewrite (IH st Hrest). reflexivity.
Qed.

Lemma all_readable_app c (a b : list node_ptr) :
  all_readable c (a ++ b) = all_readable c a && all_readable c b.
Proof.
  induction a as [|item a IH]; [reflexivity|].
  cbn [app all_readable]. destruct item as [|n x y]; [exact IH|].
  destruct (raw n); try exact IH.
  rewrite IH. apply andb_assoc.
Qed.

Lemma all_readable_reads_in_bounds c (a : list node_ptr) :
  all_readable c a = true -> reads_in_bounds c a = true.
Proof.
  induction a as [|item a IH]; [reflexivity|].
  cbn [all_readable reads_in_bounds]. destruct item as [|n x y]; [exact IH|].
  destruct (raw n); try exact IH.
  destruct (record_checked c e), (fields_in_bounds c e); cbn [andb];
    try discriminate; try reflexivity. exact IH.
Qed.

Lemma reads_in_bounds_app c (a b : list node_ptr) :
  Forall (found_by peres_is_version_node) a ->
  reads_in_bounds c (a ++ b)
  = if all_readable c a then reads_in_bounds c b else reads_in_bounds c a.
Proof.
  induction 1 as [|item a Hitem _ IH]; [reflexivity|].
  destruct item as [|n x y]; [contradiction|].
  destruct (version_node_is_data_entry n Hitem) as [entry Hraw].
  cbn [app all_readable reads_in_bounds]. rewrite Hraw.
  destruct (record_checked c entry), (fields_in_bounds c entry); cbn [andb];
    try reflexivity.
  exact IH.
Qed.

Lemma version_report_app c (a b : list node_ptr) :
  Forall (found_by peres_is_version_node) a ->
  version_report c (a ++ b)
  = if all_readable c a
    then (version_report c a ++ version_report c b)%list
    else version_report c a.
Proof.
  induction 1 as [|item a Hitem _ IH]; [reflexivity|].
  destruct item as [|n x y]; [contradiction|].
  destruct (version_node_is_data_entry n Hitem) as [entry Hraw].
  cbn [app version_report all_readable]. rewrite Hraw.
  unfold fields_in_bounds.
  destruct (record_checked c entry), (file_fields_in_bounds c entry),
    (product_fields_in_bounds c entry); cbn [andb]; try reflexivity.
  rewrite IH. destruct (all_readable c a); reflexivity.
Qed.

Lemma unreadable_is_not_empty c (items : list node_ptr) :
  all_readable c items = false -> (1 <= List.length items)%nat.
Proof. destruct items; [discriminate|cbn; lia]. Qed.

(** The outer loop: the report on the data entries under the parents, in
    their order; the items of the searches are all released when every
    record could be read, and those of one search are not when the loop
    was left by the return or the process stopped. *)
Lemma show_version_parents_report (parents : list node_ptr) :
  forall st,
    let leaves := List.flat_map (search_subtree peres_is_version_node) parents in
    exists st',
      show_version_parents parents st
      = (version_report (st_ctx st) leaves,
         if all_readable (st_ctx st) leaves then Normal tt st'
         else if reads_in_bounds (st_ctx st) leaves then Returned tt st'
              else Crashed OutOfBoundsRead st')
      /\ st_ctx st' = st_ctx st
      /\ st_fs st' = st_fs st
      /\ (if all_readable (st_ctx st) leaves
          then st_search_items st' = st_search_items st
          else (st_search_items st + 1 <= st_search_items st')%nat).
Proof.
  induction parents as [|item rest IH]; intros st; cbn zeta.
  - exists st. repeat split.
  - rewrite show_version_parents_step. cbn zeta.
    set (found := search_subtree peres_is_version_node item).
    set (st1 := with_search_items st _).
    rewrite (show_version_items_report found st1
               (search_subtree_found _ item)).
    change (st_ctx st1) with (st_ctx st).
    cbn [List.flat_map]. fold found.
    rewrite version_report_app by apply search_subtree_found.
    rewrite reads_in_bounds_app by apply search_subtree_found.
    rewrite all_readable_app.
    destruct (all_readable (st_ctx st) found) eqn:Efound; cbn [andb].
    + set (st2 := with_search_items st1 _).
      destruct (IH st2) as (st' & Hrun & Hc & Hf & Hi).
      cbn zeta in Hrun. change (st_ctx st2) with (st_ctx st) in *.
      rewrite Hrun. cbn [fst snd].
      exists st'. split; [reflexivity|]. split; [exact Hc|].
      split; [exact Hf|].
      assert (E2 : st_search_items st2 = st_search_items st).
      { subst st2 st1. cbn. lia. }
      rewrite E2 in Hi. exact Hi.
    + exists st1. split.
      * destruct (reads_in_bounds (st_ctx st) found); reflexivity.
      * repeat split.
        subst st1. cbn. apply unreadable_is_not_empty in Efound. lia.
Qed.

Lemma version_leaves_need_parent c (parents : list node_ptr) :
  all_readable c (List.flat_map (search_subtree peres_is_version_node) parents)
  = false ->
  (1 <= List.length parents)%nat.
Proof. destruct parents; [discriminate|cbn; lia]. Qed.

(** The decoder on a tree. *)
Lemma peres_show_version_run {R} n c s st :
  let leaves := version_leaves (Node n c s) in
  exists st',
    peres_show_version (R := R) (Node n c s) st
    = (version_report (st_ctx st) leaves,
       if reads_in_bounds (st_ctx st) leaves then Normal tt st'
       else Crashed OutOfBoundsRead st')
    /\ st_ctx st' = st_ctx st
    /\ st_fs st' = st_fs st
    /\ (if all_readable (st_ctx st) leaves
        then st_search_items st' = st_search_items st
        else (st_search_items st + 2 <= st_search_items st')%nat).
Proof.
  cbn zeta. unfold version_leaves.
  set (parents := search_subtree peres_contains_version_node (Node n c s)).
  unfold peres_show_version, call.
  unfold bind at 1, assert. cbn [pure app].
  unfold bind at 1, pe_resource_search_nodes.
  unfold bind at 1, get, pure. unfold bind at 1, put, pure. cbn [app].
  fold parents.
  set (st1 := {| st_ctx := st_ctx st; st_fs := st_fs st;
                 st_search_items := _ |}).
  destruct (show_version_parents_report parents st1)
    as (st' & Hrun & Hc & Hf & Hi).
  cbn zeta in Hrun. change (st_ctx st1) with (st_ctx st) in *.
  unfold bind at 1. rewrite Hrun.
  destruct (all_readable (st_ctx st) _) eqn:Eall.
  - rewrite (all_readable_reads_in_bounds _ _ Eall).
    unfold pe_resources_dealloc_node_search_result, bind, get, put, pure.
    cbn [app]. rewrite List.app_nil_r.
    eexists. split; [reflexivity|]. cbn [st_ctx st_fs st_search_items].
    split; [exact Hc|]. split; [exact Hf|].
    rewrite Hi. subst st1. cbn. lia.
  - exists st'. split.
    + destruct (reads_in_bounds (st_ctx st) _); reflexivity.
    + split; [exact Hc|]. split; [exact Hf|].
      apply version_leaves_need_parent in Eall. fold parents in Eall.
      unfold st1 in Hi. cbn [st_search_items] in Hi. lia.
Qed.


(** X15.  The version decoder releases every item of its searches exactly
    when the record of every data entry it visits can be read; when one
    cannot, at least two items stay allocated, one of each of the two
    result lists. *)
Theorem peres_show_version_releases n c s st :
  let leaves := version_leaves (Node n c s) in
  let after := state_of (peres_show_version (R := unit) (Node n c s) st) in
  if all_readable (st_ctx st) leaves
  then st_search_items after = st_search_items st
  else (st_search_items st + 2 <= st_search_items after)%nat.
Proof.
  cbn zeta.
  destruct (peres_show_version_run (R := unit) n c s st)
    as (st' & Hrun & _ & _ & Hi).
  cbn zeta in Hi. rewrite Hrun. unfold state_of. cbn [snd].
  destruct (reads_in_bounds (st_ctx st) _); exact Hi.
Qed.

(** ** Further properties: the operations the options select *)

Lemma unchanged_reports_only {R A} (m : M R A) :
  unchanged m ->
  (forall s, Forall (fun e => is_syscall e = false) (events_of (m s))) ->
  reports_only m.
Proof.
  intros U F s. rewrite (U s). split; [reflexivity|]. split; [reflexivity|].
  apply F.
Qed.

Lemma reports_only_pure {R A} (a : A) : reports_only (pure (R := R) a).
Proof. intros s. repeat split. constructor. Qed.

Lemma reports_only_bind {R A B} (m : M R A) (k : A -> M R B) :
  reports_only m -> (forall a, reports_only (k a)) -> reports_only (bind m k).
Proof.
  intros Hm Hk s. destruct (Hm s) as (C1 & F1 & E1).
  unfold bind, state_of, events_of in *.
  destruct (m s) as [l1 [a s1|r s1|f s1]]; cbn [fst snd] in *;
    try (repeat split; assumption).
  destruct (Hk a s1) as (C2 & F2 & E2). unfold state_of, events_of in *.
  destruct (k a s1) as [l2 o]. cbn [fst snd] in *.
  split; [congruence|]. split; [congruence|].
  apply Forall_app. split; assumption.
Qed.

Lemma reports_only_call {R R'} (body : M R R) :
  reports_only body -> reports_only (call (R' := R') body).
Proof.
  intros Hb s. specialize (Hb s). unfold call, state_of, events_of in *.
  destruct (body s) as [l [a s1|r s1|f s1]]; exact Hb.
Qed.

Lemma reports_only_when {R} (c : bool) (m : M R unit) :
  reports_only m -> reports_only (when c m).
Proof. intros H. destruct c; [exact H|apply reports_only_pure]. Qed.

Lemma reports_only_peres_show_nodes {R} node :
  reports_only (peres_show_nodes (R := R) node).
Proof.
  intros s. destruct (peres_show_nodes_fits node R s) as (l & Hrun & F & _).
  rewrite Hrun. split; [reflexivity|]. split; [reflexivity|].
  unfold events_of. cbn [fst]. eapply Forall_impl; [|exact F].
  intros [] He; cbn in *; try contradiction; reflexivity.
Qed.

Lemma reports_only_peres_show_stats {R} node :
  reports_only (peres_show_stats (R := R) node).
Proof.
  intros s. unfold peres_show_stats.
  destruct (peres_generate_stats stats_zero node);
    repeat split; repeat constructor.
Qed.

Lemma reports_only_peres_show_list {R} node :
  reports_only (peres_show_list (R := R) node).
Proof.
  apply unchanged_reports_only; [apply unchanged_peres_show_list|].
  intros s. destruct (peres_show_list_lines node R s) as [F _].
  eapply Forall_impl; [|exact F].
  intros [] [He|He]; cbn in *; try discriminate; try contradiction; reflexivity.
Qed.

Lemma version_report_reports c (leaves : list node_ptr) :
  Forall (fun e => is_syscall e = false) (version_report c leaves).
Proof.
  induction leaves as [|item rest IH]; [constructor|].
  cbn [version_report]. destruct item as [|n x y]; [constructor|].
  destruct (raw n); try constructor.
  destruct (record_checked c e), (file_fields_in_bounds c e),
    (product_fields_in_bounds c e); repeat constructor. exact IH.
Qed.

Lemma reports_only_peres_show_version {R} node :
  reports_only (peres_show_version (R := R) node).
Proof.
  intros s. destruct node as [|n c sib].
  - repeat split. constructor.
  - destruct (peres_show_version_run (R := R) n c sib s)
      as (st' & Hrun & Hc & Hf & _).
    rewrite Hrun. unfold state_of, events_of. cbn [fst snd].
    destruct (reads_in_bounds (st_ctx s) _); cbn [fst snd];
      (split; [exact Hc|]); (split; [exact Hf|]);
      apply version_report_reports.
Qed.

Lemma keeps_context_reports_only {R A} (m : M R A) :
  reports_only m -> keeps_context m.
Proof. intros H s. apply H. Qed.

Lemma keeps_context_pure {R A} (a : A) : keeps_context (pure (R := R) a).
Proof. intros s. reflexivity. Qed.

Lemma keeps_context_bind {R A B} (m : M R A) (k : A -> M R B) :
  keeps_context m -> (forall a, keeps_context (k a)) -> keeps_context (bind m k).
Proof.
  intros Hm Hk s. specialize (Hm s). unfold bind, state_of in *.
  destruct (m s) as [l1 [a s1|r s1|f s1]]; cbn [snd] in *; try exact Hm.
  specialize (Hk a s1). unfold state_of in Hk.
  destruct (k a s1) as [l2 o]. cbn [snd] in *. congruence.
Qed.

Lemma keeps_context_call {R R'} (body : M R R) :
  keeps_context body -> keeps_context (call (R' := R') body).
Proof.
  intros Hb s. specialize (Hb s). unfold call, state_of in *.
  destruct (body s) as [l [a s1|r s1|f s1]]; exact Hb.
Qed.

Lemma keeps_context_when {R} (c : bool) (m : M R unit) :
  keeps_context m -> keeps_context (when c m).
Proof. intros H. destruct c; [exact H|apply keeps_context_pure]. Qed.

Lemma keeps_context_peres_save_all_resources {R} node namedExtract :
  keeps_context (peres_save_all_resources (R := R) node namedExtract).
Proof. intros s. apply (tame_peres_save_all_resources node R namedExtract s). Qed.

Lemma reports_only_peres_main_operations {R} options root_node :
  opt_all options = false ->
  opt_extract options = false ->
  reports_only (peres_main_operations (R := R) options root_node).
Proof.
  intros Hall Hextract. unfold peres_main_operations.
  rewrite Hall, Hextract. apply reports_only_call.
  change (when false (peres_save_all_resources
                        root_node (opt_namedExtract options)))
    with (pure (R := unit) tt).
  repeat first
    [ apply reports_only_bind; [|intros ?]
    | apply reports_only_pure
    | apply reports_only_when
    | apply reports_only_peres_show_nodes
    | apply reports_only_peres_show_stats
    | apply reports_only_peres_show_list
    | apply reports_only_peres_show_version ].
Qed.

(** X16.  Whatever the options, the operations [main] runs on the tree
    leave the context of the loaded file as it was: the dump, the
    statistics, the list, the extraction and the version decoder only read
    it. *)
Theorem operations_keep_the_context options (root_node : node_ptr) st :
  st_ctx (state_of (peres_main_operations (R := unit) options root_node st))
  = st_ctx st.
Proof.
  revert st. change (keeps_context
                       (peres_main_operations (R := unit) options root_node)).
  unfold peres_main_operations. apply keeps_context_call.
  destruct (opt_all options);
    repeat first
      [ apply keeps_context_bind; [|intros ?]
      | apply keeps_context_when
      | apply keeps_context_peres_save_all_resources
      | apply keeps_context_reports_only;
        first [ apply reports_only_peres_show_nodes
              | apply reports_only_peres_show_stats
              | apply reports_only_peres_show_list
              | apply reports_only_peres_show_version ] ].
Qed.

(** X17.  When neither all the operations nor the extraction is asked
    for, the operations [main] runs make no system call and leave the file
    system as it was. *)
Theorem operations_without_extraction_only_report options (root_node : node_ptr) st :
  opt_all options = false ->
  opt_extract options = false ->
  let r := peres_main_operations (R := unit) options root_node st in
  st_fs (state_of r) = st_fs st
  /\ Forall (fun e => is_syscall e = false) (events_of r).
Proof.
  intros Hall Hextract. cbn zeta.
  destruct (reports_only_peres_main_operations (R := unit) options root_node
              Hall Hextract st) as (_ & Hf & He).
  split; assumption.
Qed.

(** ** Further properties: the command line *)

Lemma has_code_nil a : has_code a [] = false.
Proof. reflexivity. Qed.

Lemma has_code_cons a c optarg rest :
  0 < c ->
  has_code a ((c, optarg) :: rest) = (chr a =? c) || has_code a rest.
Proof.
  intros H. unfold has_code. cbn [codes_parsed].
  apply Z.ltb_lt in H. rewrite H. reflexivity.
Qed.

Lemma has_code_stop a c optarg rest :
  c <= 0 -> has_code a ((c, optarg) :: rest) = false.
Proof.
  intros H. unfold has_code. cbn [codes_parsed].
  destruct (Z.ltb_spec 0 c); [lia|reflexivity].
Qed.

Ltac eval_codes :=
  repeat match goal with
         | |- context [Z.eqb (chr ?a) (chr ?b)] =>
             let v := eval vm_compute in (Z.eqb (chr a) (chr b)) in
             change (Z.eqb (chr a) (chr b)) with v
         end.

Ltac flags_case IH H :=
  apply IH in H;
  cbn [opt_all opt_extract opt_namedExtract opt_info opt_statistics opt_list
       opt_version opt_help] in H;
  destruct H as (H1 & H2 & H3 & H4 & H5 & H6 & H7 & H8);
  rewrite H1, H2, H3, H4, H5, H6, H7, H8;
  rewrite !has_code_cons by reflexivity;
  eval_codes;
  cbn [orb];
  rewrite ?orb_true_r, ?orb_false_r; cbn [orb];
  repeat split; try reflexivity.

(** The flags after the loop, from the flags before it. *)
Lemma parse_options_loop_flags (results : list (Z * string)) :
  forall o0 o,
    parse_options_loop results o0 = Parsed o ->
    opt_all o = opt_all o0 || has_code "a" results
    /\ opt_extract o
       = opt_extract o0 || (has_code "x" results || has_code "X" results)
    /\ opt_namedExtract o = opt_namedExtract o0 || has_code "X" results
    /\ opt_info o = opt_info o0 || has_code "i" results
    /\ opt_statistics o = opt_statistics o0 || has_code "s" results
    /\ opt_list o = opt_list o0 || has_code "l" results
    /\ opt_version o = opt_version o0 || has_code "v" results
    /\ opt_help o = opt_help o0.
Proof.
  induction results as [|[c optarg] rest IH]; intros o0 o H.
  - injection H as <-. rewrite !has_code_nil, !orb_false_r. repeat split.
  - cbn [parse_options_loop] in H.
    destruct (Z.eqb_spec c 0) as [E0|N0].
    { injection H as <-. rewrite !has_code_stop by lia.
      rewrite !orb_false_r. repeat split. }
    destruct (Z.ltb_spec c 0) as [L0|G0].
    { injection H as <-. rewrite !has_code_stop by lia.
      rewrite !orb_false_r. repeat split. }
    destruct (Z.eqb_spec c (chr "a")) as [->|_]; [flags_case IH H|].
    destruct (Z.eqb_spec c (chr "f")) as [->|_].
    { destruct (output_set_format_by_name cli optarg <? 0); [discriminate|].
      flags_case IH H. }
    destruct (Z.eqb_spec c (chr "i")) as [->|_]; [flags_case IH H|].
    destruct (Z.eqb_spec c (chr "l")) as [->|_]; [flags_case IH H|].
    destruct (Z.eqb_spec c (chr "s")) as [->|_]; [flags_case IH H|].
    destruct (Z.eqb_spec c (chr "x")) as [->|_]; [flags_case IH H|].
    destruct (Z.eqb_spec c (chr "X")) as [->|_]; [flags_case IH H|].
    destruct (Z.eqb_spec c (chr "v")) as [->|_]; [flags_case IH H|].
    destruct (Z.eqb_spec c (chr "V")); [discriminate|].
    destruct (Z.eqb_spec c 1); discriminate.
Qed.

Lemma parse_options_sets_flags (results : list (Z * string)) o :
  parse_options results = Parsed o ->
  opt_all o = has_code "a" results
  /\ opt_extract o = has_code "x" results || has_code "X" results
  /\ opt_namedExtract o = has_code "X" results
  /\ opt_info o = has_code "i" results
  /\ opt_statistics o = has_code "s" results
  /\ opt_list o = has_code "l" results
  /\ opt_version o = has_code "v" results
  /\ opt_help o = false.
Proof.
  intros H. apply parse_options_loop_flags in H. exact H.
Qed.

(** X18.  When [parse_options] returns, each flag of the options is set
    exactly when its letter is among the codes [getopt_long] gave before
    the first that is not positive, in whatever order and however often:
    a, i, l, s and v set their own flag, the extraction is set by x and by
    X, the named extraction by X alone, so that it is never set without the
    extraction; the help flag is never set. *)
Theorem parse_options_flags (results : list (Z * string)) o :
  parse_options results = Parsed o ->
  opt_all o = has_code "a" results
  /\ opt_extract o = has_code "x" results || has_code "X" results
  /\ opt_namedExtract o = has_code "X" results
  /\ opt_info o = has_code "i" results
  /\ opt_statistics o = has_code "s" results
  /\ opt_list o = has_code "l" results
  /\ opt_version o = has_code "v" results
  /\ opt_help o = false
  /\ (opt_namedExtract o = true -> opt_extract o = true).
Proof.
  intros H.
  destruct (parse_options_sets_flags results o H)
    as (H1 & H2 & H3 & H4 & H5 & H6 & H7 & H8).
  repeat (split; [assumption|]).
  rewrite H2, H3. intros ->. apply orb_true_r.
Qed.

(** X19.  A command line with none of the options a, x and X makes the
    program call the system for no directory and no file: the operations it
    runs on the tree only print, and leave the file system as it was. *)
Theorem command_line_without_extraction
    (results : list (Z * string)) o (root_node : node_ptr) st :
  parse_options results = Parsed o ->
  has_code "a" results = false ->
  has_code "x" results = false ->
  has_code "X" results = false ->
  let r := peres_main_operations (R := unit) o root_node st in
  st_fs (state_of r) = st_fs st
  /\ Forall (fun e => is_syscall e = false) (events_of r).
Proof.
  intros H Ha Hx HX. cbn zeta.
  destruct (parse_options_sets_flags results o H)
    as (H1 & H2 & _).
  rewrite Ha in H1. rewrite Hx, HX in H2.
  destruct (reports_only_peres_main_operations (R := unit) o root_node
              H1 H2 st) as (_ & Hf & He).
  split; assumption.
Qed.

(** ** Further properties: trees on which nothing goes wrong *)

Lemma find_parent_type t level :
  forall n d,
    pe_resource_find_parent_node_by_type_and_level n t level = Some d ->
    type_eqb (type d) t = true.
Proof.
  fix IH 1. intros [r l [parent|]] d;
    cbn [pe_resource_find_parent_node_by_type_and_level parentNode];
    [|discriminate].
  destruct (type_eqb (type parent) t && (dirLevel parent =? level)) eqn:E.
  - intros [= <-]. apply andb_true_iff in E. apply E.
  - apply IH.
Qed.

Lemma found_directory_entry n level d :
  pe_resource_find_parent_node_by_type_and_level
    n LIBPE_RDT_DIRECTORY_ENTRY level = Some d ->
  exists e, raw d = directoryEntry e.
Proof.
  intros H. apply find_parent_type in H. unfold type in H.
  destruct (raw d) as [x|e|x|x]; try discriminate. exists e. reflexivity.
Qed.

Lemma rooted_spec n :
  rooted n = true ->
  forall L, 1 <= L <= dirLevel n ->
    exists d, pe_resource_find_parent_node_by_type_and_level
                n LIBPE_RDT_DIRECTORY_ENTRY L = Some d.
Proof.
  unfold rooted. rewrite List.forallb_forall. intros H L HL.
  specialize (H (Z.to_nat L)). rewrite Z2Nat.id in H by lia.
  destruct (pe_resource_find_parent_node_by_type_and_level _ _ L) as [d|].
  - exists d. reflexivity.
  - assert (false = true); [|discriminate]. apply H. apply List.in_seq. lia.
Qed.

Lemma strncat_grows (dest src : string) (k : nat) :
  (String.length dest <= String.length (strncat dest src k))%nat.
Proof. unfold strncat. rewrite length_append. lia. Qed.

Lemma strncat_not_empty (dest src : string) (k : nat) :
  (1 <= String.length src)%nat -> (1 <= k)%nat ->
  (1 <= String.length (strncat dest src k))%nat.
Proof.
  intros Hs Hk. unfold strncat. rewrite length_append, substring_0_length. lia.
Qed.

Lemma c_str_not_empty (t : string) :
  starts_with_zero t = false -> (1 <= String.length (c_str (t ++ " ")))%nat.
Proof.
  destruct t as [|a t]; cbn; [lia|]. intros ->. cbn. lia.
Qed.

Lemma entry_at_found n level e :
  entry_at n level = Some e ->
  exists d,
    pe_resource_find_parent_node_by_type_and_level
      n LIBPE_RDT_DIRECTORY_ENTRY level = Some d
    /\ raw d = directoryEntry e.
Proof.
  unfold entry_at.
  destruct (pe_resource_find_parent_node_by_type_and_level _ _ _) as [d|];
    [|discriminate].
  destruct (raw d) eqn:E; try discriminate. intros [= <-]. eauto.
Qed.

Lemma path_is_safe_spec c n :
  path_is_safe c n = true ->
  (forall L, 1 <= L <= dirLevel n ->
     exists e, entry_at n L = Some e /\ name_in_bounds c e = true)
  /\ (exists L e,
         1 <= L <= dirLevel n
         /\ entry_at n L = Some e /\ name_has_text c e = true).
Proof.
  unfold path_is_safe, levels_of.
  rewrite andb_true_iff, List.forallb_forall, List.existsb_exists.
  intros [Hall [k [Hin Hk]]]. split.
  - intros L HL. specialize (Hall (Z.to_nat L)).
    rewrite Z2Nat.id in Hall by lia.
    destruct (entry_at n L) as [e|].
    + exists e. split; [reflexivity|]. apply Hall, List.in_seq. lia.
    + assert (false = true); [|discriminate]. apply Hall, List.in_seq. lia.
  - apply List.in_seq in Hin. exists (Z.of_nat k).
    destruct (entry_at n (Z.of_nat k)) as [e|]; [|discriminate].
    exists e. split; [lia|]. split; [reflexivity|exact Hk].
Qed.

Lemma path_is_safe_rooted c n : path_is_safe c n = true -> rooted n = true.
Proof.
  intros H. destruct (path_is_safe_spec c n H) as [Hall _].
  unfold rooted. apply List.forallb_forall. intros k Hin.
  apply List.in_seq in Hin.
  destruct (Hall (Z.of_nat k)) as (e & He & _); [lia|].
  destruct (entry_at_found _ _ _ He) as (d & -> & _). reflexivity.
Qed.

Lemma build_node_filename_levels_step count level node output output_size d e s :
  pe_resource_find_parent_node_by_type_and_level
    node LIBPE_RDT_DIRECTORY_ENTRY level = Some d ->
  raw d = directoryEntry e ->
  build_node_filename_levels (S count) level node output output_size s
  = (partial_path <- partial_path_statement level e output ;;
     build_node_filename_levels count (level + 1) node
       (strncat output partial_path (output_size - String.length output - 1))
       output_size)%stmt s.
Proof.
  intros Hd He. cbn [build_node_filename_levels]. rewrite Hd.
  unfold raw_directoryEntry. rewrite He.
  unfold bind at 1. cbn [pure]. unfold partial_path_statement.
  destruct (bind _ _ s) as [l o]. destruct o; reflexivity.
Qed.

(** What the statement that fills [partial_path] does for a name read
    inside the mapped file: it gives a text, not empty when the name has
    one, or it makes the builder return with the buffer as it is. *)
Lemma partial_path_statement_safe level e output s :
  name_in_bounds (st_ctx s) e = true ->
  (exists partial_path,
      partial_path_statement level e output s = ([], Normal partial_path s)
      /\ ((2 <= MAX_PATH)%nat -> name_has_text (st_ctx s) e = true ->
          (1 <= String.length partial_path)%nat))
  \/ partial_path_statement level e output s
     = ([Warning "Cannot read IMAGE_RESOURCE_DATA_STRING_U"], Returned output s).
Proof.
  unfold name_in_bounds, name_has_text, partial_path_statement.
  destruct (NameIsString e =? 0); cbn [negb orb].
  - intros _. left.
    destruct (level =? 1), (pe_resource_entry_info_lookup (NameOffset e));
      eexists; (split; [reflexivity|]); intros Hpath _;
      unfold snprintf; rewrite substring_0_length, length_append; cbn; lia.
  - unfold name_string_size, name_stored, name_string_ptr.
    cbv beta iota zeta delta [bind ctx get pure LIBPE_WARNING emit return_ crash].
    destruct (pe_can_read (st_ctx s)
                (LIBPE_PTR_ADD (resource_base_ptr (st_ctx s)) (NameOffset e))
                sizeof_IMAGE_RESOURCE_DATA_STRING_U); cbn [negb orb app].
    + intros ->. cbn [negb]. left. eexists. split; [reflexivity|].
      intros _ Htext. apply c_str_not_empty.
      destruct (starts_with_zero _); [discriminate|reflexivity].
    + intros _. right. reflexivity.
Qed.

(** The turns of the loop on a node whose directory entries are found and
    named inside the mapped file: no fault, the state as it was, a text
    that has not become shorter, and not an empty one when a name of these
    levels has a text. *)
Lemma build_node_filename_levels_safe count :
  forall level node output output_size s,
    (2 <= MAX_PATH)%nat ->
    (2 <= output_size)%nat ->
    (forall L, level <= L < level + Z.of_nat count ->
       exists e, entry_at node L = Some e
                 /\ name_in_bounds (st_ctx s) e = true) ->
    exists l o text,
      build_node_filename_levels count level node output output_size s = (l, o)
      /\ (o = Normal text s \/ o = Returned text s)
      /\ (String.length output <= String.length text)%nat
      /\ ((exists L e,
              level <= L < level + Z.of_nat count
              /\ entry_at node L = Some e
              /\ name_has_text (st_ctx s) e = true) ->
          o = Normal text s -> (1 <= String.length text)%nat).
Proof.
  induction count as [|count IH];
    intros level node output output_size s Hpath Hsize Hall.
  - exists [], (Normal output s), output.
    split; [reflexivity|]. split; [left; reflexivity|]. split; [lia|].
    intros (L & e & HL & _). lia.
  - destruct (Hall level) as (e & He & Hb); [lia|].
    destruct (entry_at_found _ _ _ He) as (d & Hd & Hr).
    rewrite (build_node_filename_levels_step count level node output
               output_size d e s Hd Hr).
    unfold bind.
    destruct (partial_path_statement_safe level e output s Hb)
      as [(partial_path & -> & Hpp)| ->].
    + set (output1 := strncat output partial_path
                        (output_size - String.length output - 1)).
      destruct (IH (level + 1) node output1 output_size s Hpath Hsize)
        as (l & o & text & Hrun & Ho & Hlen & Htext).
      { intros L HL. apply Hall. lia. }
      pose proof (strncat_grows output partial_path
                    (output_size - String.length output - 1)) as Hgrow.
      fold output1 in Hgrow.
      rewrite Hrun. exists l, o, text.
      split; [reflexivity|]. split; [exact Ho|]. split; [lia|].
      intros (L & e' & HL & He' & Ht) Hnormal.
      destruct (Z.eq_dec L level) as [->|Hne].
      * assert (e' = e) by congruence. subst e'.
        specialize (Hpp Hpath Ht).
        assert (1 <= String.length output1)%nat; [|lia].
        destruct (String.length output) as [|k] eqn:Ek.
        -- apply strncat_not_empty; [exact Hpp|lia].
        -- lia.
      * apply Htext; [|exact Hnormal].
        exists L, e'. split; [lia|]. split; assumption.
    + exists [Warning "Cannot read IMAGE_RESOURCE_DATA_STRING_U"],
        (Returned output s), output.
      split; [reflexivity|]. split; [right; reflexivity|]. split; [lia|].
      intros _ [=].
Qed.

(** The path builder on a node whose path is safe, with room for a byte in
    both buffers: it returns. *)
Lemma peres_build_node_filename_total {R} node output output_size s :
  (2 <= MAX_PATH)%nat ->
  (2 <= output_size)%nat ->
  path_is_safe (st_ctx s) node = true ->
  exists l path,
    peres_build_node_filename (R := R) node output output_size s
    = (l, Normal path s).
Proof.
  intros Hpath Hsize Hsafe.
  destruct (path_is_safe_spec _ _ Hsafe) as [Hall (L & e & HL & He & Ht)].
  unfold peres_build_node_filename.
  destruct (build_node_filename_levels_safe (Z.to_nat (dirLevel node)) 1 node
              output output_size s Hpath Hsize)
    as (l & o & text & Hrun & Ho & _ & Htext).
  { intros L' HL'. apply Hall. lia. }
  unfold call, bind. rewrite Hrun.
  destruct Ho as [->| ->].
  - assert (Hlen : (1 <= String.length text)%nat).
    { apply Htext; [|reflexivity]. exists L, e. split; [lia|].
      split; assumption. }
    destruct (String.length text) as [|k] eqn:Ek; [lia|].
    cbn. eexists. eexists. reflexivity.
  - eexists. eexists. reflexivity.
Qed.

(** X20.  For a node whose directory entry of every level from 1 to its
    own is found and has a name that is read inside the mapped file, one
    of the names leaving a text, and with a caller's buffer of at least two
    bytes that holds its text and a component buffer of at least two
    bytes, the path builder returns a path and leaves the state as it was:
    it reads through no null pointer, reads no name outside the mapped
    file and writes before no buffer. *)
Theorem peres_build_node_filename_returns node output output_size s :
  (2 <= MAX_PATH)%nat ->
  (2 <= output_size)%nat ->
  (String.length output < output_size)%nat ->
  path_is_safe (st_ctx s) node = true ->
  exists l path,
    peres_build_node_filename (R := unit) node output output_size s
    = (l, Normal path s).
Proof.
  intros Hpath Hsize _. apply peres_build_node_filename_total; assumption.
Qed.

Lemma peres_show_list_node_total {R} n s :
  (2 <= MAX_PATH)%nat ->
  (type_eqb (type n) LIBPE_RDT_DATA_ENTRY = true ->
   path_is_safe (st_ctx s) n = true) ->
  exists l, peres_show_list_node (R := R) n s = (l, Normal tt s).
Proof.
  intros Hpath H. unfold peres_show_list_node. unfold type in H.
  destruct (raw n) as [x|x|x|de]; try (eexists; reflexivity).
  destruct (peres_build_node_filename_total (R := unit) n "" MAX_PATH s
              Hpath Hpath (H eq_refl)) as (l & path & Hrun).
  unfold call, bind, emit. rewrite Hrun. eexists. reflexivity.
Qed.

Lemma data_entries_safe_node c n x y :
  data_entries_safe c (Node n x y) = true ->
  (type_eqb (type n) LIBPE_RDT_DATA_ENTRY = true -> path_is_safe c n = true)
  /\ data_entries_safe c x = true
  /\ data_entries_safe c y = true.
Proof.
  cbn [data_entries_safe]. rewrite !andb_true_iff. intros [[H Hx] Hy].
  split; [|split; assumption].
  intros Ht. rewrite Ht in H. exact H.
Qed.

Lemma data_entries_rooted_node n c s :
  data_entries_rooted (Node n c s) = true ->
  (type_eqb (type n) LIBPE_RDT_DATA_ENTRY = true ->
   1 <= dirLevel n /\ rooted n = true)
  /\ data_entries_rooted c = true
  /\ data_entries_rooted s = true.
Proof.
  cbn [data_entries_rooted]. rewrite !andb_true_iff. intros [[H Hc] Hs].
  split; [|split; assumption].
  intros Ht. rewrite Ht in H. apply andb_true_iff in H as [H1 H2].
  split; [apply Z.leb_le; exact H1|exact H2].
Qed.

Lemma peres_show_list_total (node : node_ptr) :
  forall R s,
    (2 <= MAX_PATH)%nat ->
    data_entries_safe (st_ctx s) node = true ->
    exists l, peres_show_list (R := R) node s = (l, Normal tt s).
Proof.
  induction node as [|n c IHc sib IHs]; intros R s Hpath H.
  - exists []. reflexivity.
  - apply data_entries_safe_node in H as (Hn & Hc & Hs).
    destruct (peres_show_list_node_total (R := unit) n s Hpath Hn) as [l0 H0].
    destruct (IHc unit s Hpath Hc) as [l1 H1].
    destruct (IHs unit s Hpath Hs) as [l2 H2].
    exists (l0 ++ l1 ++ l2)%list.
    cbn [peres_show_list]. apply call_normal.
    eapply bind_run; [exact H0|].
    eapply bind_run; [exact H1|exact H2].
Qed.

(** X21.  On a tree in which the path of every data entry is safe (its
    directory entries are found and their names are read inside the mapped
    file, one of them leaving a text), and with a path buffer of at least
    two bytes, the list comes to its end with the state as it was, having
    printed one line for every data entry. *)
Theorem peres_show_list_returns (node : node_ptr) (s : state) :
  (2 <= MAX_PATH)%nat ->
  data_entries_safe (st_ctx s) node = true ->
  exists l,
    peres_show_list (R := unit) node s = (l, Normal tt s)
    /\ count_events is_stdout l = count_type LIBPE_RDT_DATA_ENTRY node.
Proof.
  intros Hpath H.
  destruct (peres_show_list_total node unit s Hpath H) as [l Hrun].
  exists l. split; [exact Hrun|].
  destruct (peres_show_list_lines node unit s) as [_ N].
  rewrite Hrun in N. exact N.
Qed.

(** The saver on a level-3 data entry that has its directory entries and,
    in named mode, a safe path. *)
Lemma peres_save_resource_total {R} n c s (namedExtract : bool) st :
  (2 <= MAX_PATH)%nat ->
  save_guard n = true ->
  (if namedExtract then path_is_safe (st_ctx st) n else rooted n) = true ->
  exists l st',
    peres_save_resource (R := R) (Node n c s) namedExtract st
    = (l, Normal tt st')
    /\ st_ctx st' = st_ctx st.
Proof.
  intros Hpath Hg Hmode.
  assert (Hrooted : rooted n = true).
  { destruct namedExtract; [eapply path_is_safe_rooted|]; exact Hmode. }
  assert (Hkeep := tame_peres_save_resource (R := R) n c s namedExtract Hg).
  unfold save_guard in Hg.
  apply andb_true_iff in Hg as [Ht Hl]. apply Z.eqb_eq in Hl.
  destruct (rooted_spec n Hrooted 1) as [d1 H1]; [lia|].
  destruct (rooted_spec n Hrooted 2) as [d2 H2]; [lia|].
  destruct (found_directory_entry _ _ _ H1) as [e1 R1].
  destruct (found_directory_entry _ _ _ H2) as [e2 R2].
  assert (Hraw : exists entry, raw n = dataEntry entry).
  { unfold type in Ht. destruct (raw n) as [x|x|x|entry]; try discriminate.
    exists entry. reflexivity. }
  destruct Hraw as [entry Hraw].
  assert (Hb : namedExtract = true ->
               forall st0, st_ctx st0 = st_ctx st ->
                 exists l path,
                   peres_build_node_filename (R := unit) n "" MAX_PATH st0
                   = (l, Normal path st0)).
  { intros -> st0 E. apply peres_build_node_filename_total;
      [exact Hpath|exact Hpath|rewrite E; exact Hmode]. }
  assert (Hctx : forall l st',
             peres_save_resource (R := R) (Node n c s) namedExtract st
             = (l, Normal tt st') -> st_ctx st' = st_ctx st).
  { intros l st' E. destruct (Hkeep st) as [K _]. rewrite E in K. exact K. }
  assert (Hrun : exists l st',
             peres_save_resource (R := R) (Node n c s) namedExtract st
             = (l, Normal tt st')).
  { clear Hctx Hkeep. unfold peres_save_resource.
    change LIBPE_RDT_LEVEL1 with 1 in *. change LIBPE_RDT_LEVEL2 with 2 in *.
    change LIBPE_RDT_LEVEL3 with 3 in *.
    rewrite Ht, H1, H2. apply Z.eqb_eq in Hl. rewrite Hl.
    unfold raw_dataEntry, raw_directoryEntry. rewrite Hraw, R1, R2.
    destruct namedExtract.
    - specialize (Hb eq_refl).
      unfold call, bind, assert, when, ctx, get, pure, stat, mkdir,
        emit, put, return_, crash, fopen, fwrite, fclose, output.
      cbn_folded.
      repeat match goal with
             | |- context [peres_build_node_filename n "" MAX_PATH ?st0] =>
                 let l := fresh "l" in
                 let path := fresh "path" in
                 let E := fresh "E" in
                 destruct (Hb st0 eq_refl) as (l & path & E); rewrite E;
                 cbn_folded
             | |- context [match ?x with _ => _ end] =>
                 lazymatch x with
                 | context [match _ with _ => _ end] => fail
                 | _ => destruct x eqn:?; cbn_folded
                 end
             end.
      all: eexists; eexists; reflexivity.
    - clear Hb.
      unfold call, bind, assert, when, ctx, get, pure, stat, mkdir,
        emit, put, return_, crash, fopen, fwrite, fclose, output.
      cbn_folded.
      repeat match goal with
             | |- context [match ?x with _ => _ end] =>
                 lazymatch x with
                 | context [match _ with _ => _ end] => fail
                 | _ => destruct x eqn:?; cbn_folded
                 end
             end.
      all: eexists; eexists; reflexivity. }
  destruct Hrun as (l & st' & E). exists l, st'. split; [exact E|].
  eapply Hctx. exact E.
Qed.

Lemma peres_save_all_resources_total (node : node_ptr) :
  forall R (namedExtract : bool) st,
    (2 <= MAX_PATH)%nat ->
    (if namedExtract then data_entries_safe (st_ctx st) node
     else data_entries_rooted node) = true ->
    exists l st',
      peres_save_all_resources (R := R) node namedExtract st
      = (l, Normal tt st')
      /\ st_ctx st' = st_ctx st.
Proof.
  induction node as [|n c IHc sib IHs]; intros R namedExtract st Hpath H.
  - exists [], st. split; reflexivity.
  - assert (Hn : save_guard n = true ->
                 (if namedExtract then path_is_safe (st_ctx st) n
                  else rooted n) = true).
    { unfold save_guard. intros G. apply andb_true_iff in G as [Ht _].
      destruct namedExtract.
      - apply data_entries_safe_node in H as (Hn & _). apply Hn, Ht.
      - apply data_entries_rooted_node in H as (Hn & _). apply Hn, Ht. }
    assert (Hparts : forall st0, st_ctx st0 = st_ctx st ->
               (if namedExtract then data_entries_safe (st_ctx st0) c
                else data_entries_rooted c) = true
               /\ (if namedExtract then data_entries_safe (st_ctx st0) sib
                   else data_entries_rooted sib) = true).
    { intros st0 ->. destruct namedExtract.
      - apply data_entries_safe_node in H as (_ & Hc & Hs). split; assumption.
      - apply data_entries_rooted_node in H as (_ & Hc & Hs).
        split; assumption. }
    assert (H0 : exists l0 st0,
               when (save_guard n)
                 (peres_save_resource (R := unit) (Node n c sib) namedExtract) st
               = (l0, Normal tt st0)
               /\ st_ctx st0 = st_ctx st).
    { unfold when. destruct (save_guard n) eqn:G.
      - apply peres_save_resource_total; [exact Hpath|exact G|].
        apply Hn. reflexivity.
      - exists [], st. split; reflexivity. }
    destruct H0 as (l0 & st0 & H0 & C0).
    destruct (Hparts st0 C0) as [Hc0 _].
    destruct (IHc unit namedExtract st0 Hpath Hc0) as (l1 & st1 & H1 & C1).
    assert (C01 : st_ctx st1 = st_ctx st) by congruence.
    destruct (Hparts st1 C01) as [_ Hs1].
    destruct (IHs unit namedExtract st1 Hpath Hs1) as (l2 & st2 & H2 & C2).
    exists (l0 ++ l1 ++ l2)%list, st2. split; [|congruence].
    cbn [peres_save_all_resources]. apply call_normal.
    eapply bind_run; [exact H0|].
    eapply bind_run; [exact H1|exact H2].
Qed.

(** X22.  With a path buffer of at least two bytes, whole-tree extraction
    comes to its end whatever the file system answers: in default mode on
    a tree in which every data entry is at level 1 or deeper and has its
    directory entries, in named mode on a tree in which the path of every
    data entry is safe. *)
Theorem extraction_returns (node : node_ptr) (namedExtract : bool) st :
  (2 <= MAX_PATH)%nat ->
  (if namedExtract then data_entries_safe (st_ctx st) node
   else data_entries_rooted node) = true ->
  exists l st',
    peres_save_all_resources (R := unit) node namedExtract st
    = (l, Normal tt st').
Proof.
  intros Hpath H.
  destruct (peres_save_all_resources_total node unit namedExtract st Hpath H)
    as (l & st' & E & _).
  exists l, st'. exact E.
Qed.

Lemma data_entries_safe_rooted c (node : node_ptr) :
  data_entries_safe c node = true -> data_entries_rooted node = true.
Proof.
  induction node as [|n x IHx y IHy]; [reflexivity|].
  intros H. apply data_entries_safe_node in H as (Hn & Hx & Hy).
  cbn [data_entries_rooted]. rewrite (IHx Hx), (IHy Hy), !andb_true_r.
  destruct (type_eqb (type n) LIBPE_RDT_DATA_ENTRY); [|reflexivity].
  specialize (Hn eq_refl). rewrite (path_is_safe_rooted c n Hn), andb_true_r.
  destruct (path_is_safe_spec c n Hn) as [_ (L & e & HL & _)].
  apply Z.leb_le. lia.
Qed.

Lemma returns_bind {R} c (m k : M R unit) :
  returns c m -> returns c k -> returns c (m ;; k).
Proof.
  intros Hm Hk s Hs. destruct (Hm s Hs) as (l1 & s1 & H1 & C1).
  destruct (Hk s1 C1) as (l2 & s2 & H2 & C2).
  exists (l1 ++ l2)%list, s2. split; [|exact C2].
  eapply bind_run; eassumption.
Qed.

Lemma returns_when {R} c (b : bool) (m : M R unit) :
  returns c m -> returns c (when b m).
Proof.
  intros H. destruct b; [exact H|]. intros s Hs. exists [], s.
  split; [reflexivity|exact Hs].
Qed.

Lemma returns_call {R'} c (body : M unit unit) :
  returns c body -> returns c (call (R' := R') body).
Proof.
  intros H s Hs. destruct (H s Hs) as (l & s' & E & C). exists l, s'.
  split; [|exact C]. apply call_normal. exact E.
Qed.

Lemma returns_peres_main_operations {R} ctx0 options n c s :
  (2 <= MAX_PATH)%nat ->
  data_entries_safe ctx0 (Node n c s) = true ->
  reads_in_bounds ctx0 (version_leaves (Node n c s)) = true ->
  Z.of_nat (node_count (Node n c s)) <= INT_MAX ->
  returns ctx0 (peres_main_operations (R := R) options (Node n c s)).
Proof.
  intros Hpath Hsafe Hread Hcount.
  assert (Hnodes : returns ctx0 (peres_show_nodes (R := unit) (Node n c s))).
  { intros st Hst. destruct (peres_show_nodes_fits (Node n c s) unit st)
      as (l & E & _). eauto. }
  assert (Hstats : returns ctx0 (peres_show_stats (R := unit) (Node n c s))).
  { intros st Hst. unfold peres_show_stats.
    destruct (peres_generate_stats_fields (Node n c s) stats_zero
                stats_zero_consistent) as (stats & E & _); [cbn in *; lia|].
    rewrite E. eexists. eexists. split; [reflexivity|exact Hst]. }
  assert (Hlist : returns ctx0 (peres_show_list (R := unit) (Node n c s))).
  { intros st Hst.
    destruct (peres_show_list_total (Node n c s) unit st Hpath) as (l & E);
      [rewrite Hst; exact Hsafe|]. eauto. }
  assert (Hsave : returns ctx0 (peres_save_all_resources (R := unit) (Node n c s)
                                  (opt_namedExtract options))).
  { intros st Hst.
    destruct (peres_save_all_resources_total (Node n c s) unit
                (opt_namedExtract options) st Hpath) as (l & st' & E & C).
    - rewrite Hst. destruct (opt_namedExtract options); [exact Hsafe|].
      eapply data_entries_safe_rooted. exact Hsafe.
    - exists l, st'. split; [exact E|congruence]. }
  assert (Hversion : returns ctx0 (peres_show_version (R := unit) (Node n c s))).
  { intros st Hst. destruct (peres_show_version_run (R := unit) n c s st)
      as (st' & E & C & _).
    rewrite Hst, Hread in E. eexists. exists st'.
    split; [exact E|congruence]. }
  unfold peres_main_operations. apply returns_call.
  destruct (opt_all options);
    repeat first [apply returns_bind | apply returns_when | assumption].
Qed.

(** X23.  On a tree that is not empty, has no more nodes than an int
    counts, in which the path of every data entry is safe and the fields
    of every version record that passes the bounds check lie in the mapped
    file, the operations [main] runs come to their end for every choice of
    options, with a path buffer of at least two bytes: nothing reads
    through a null pointer, reads a name or a version field outside the
    mapped file, fails an assertion, writes before a buffer or overflows a
    counter. *)
Theorem operations_return options n c s st :
  (2 <= MAX_PATH)%nat ->
  data_entries_safe (st_ctx st) (Node n c s) = true ->
  reads_in_bounds (st_ctx st) (version_leaves (Node n c s)) = true ->
  Z.of_nat (node_count (Node n c s)) <= INT_MAX ->
  exists l st',
    peres_main_operations (R := unit) options (Node n c s) st
    = (l, Normal tt st').
Proof.
  intros Hpath Hsafe Hread Hcount.
  destruct (returns_peres_main_operations (R := unit) (st_ctx st) options n c s
              Hpath Hsafe Hread Hcount st eq_refl) as (l & st' & E & _).
  exists l, st'. exact E.
Qed.

(** ** Further properties: one name in the list and in the named extraction *)

(** The path builder reads the state through the context only. *)
Lemma build_node_filename_levels_ctx count :
  forall level node output output_size s1 s2 l o,
    st_ctx s1 = st_ctx s2 ->
    build_node_filename_levels count level node output output_size s1 = (l, o) ->
    build_node_filename_levels count level node output output_size s2
    = (l, match o with
          | Normal v _ => Normal v s2
          | Returned v _ => Returned v s2
          | Crashed f _ => Crashed f s2
          end).
Proof.
  induction count as [|count IH];
    intros level node output output_size s1 s2 l o Hctx;
    cbn [build_node_filename_levels].
  - intros [= <- <-]. reflexivity.
  - destruct (pe_resource_find_parent_node_by_type_and_level _ _ _) as [d|];
      [|intros [= <- <-]; reflexivity].
    unfold raw_directoryEntry.
    destruct (raw d) as [x|e|x|x];
      [intros [= <- <-]; reflexivity
      |
      |intros [= <- <-]; reflexivity
      |intros [= <- <-]; reflexivity].
    cbv beta iota zeta delta [bind ctx get pure LIBPE_WARNING emit return_
                                crash].
    destruct (negb (NameIsString e =? 0)); cbv beta iota zeta.
    + rewrite Hctx.
      destruct (negb (pe_can_read (st_ctx s2) _ _)); cbv beta iota zeta;
        [intros [= <- <-]; reflexivity|].
      destruct (negb (pe_can_read (st_ctx s2) _ _)); cbv beta iota zeta.
      * intros [= <- <-]. reflexivity.
      * specialize (IH (level + 1) node).
        match goal with
        | |- context [build_node_filename_levels count (level + 1) node ?out
                        output_size s1] =>
            specialize (IH out output_size s1 s2);
            destruct (build_node_filename_levels count (level + 1) node out
                        output_size s1) as [l1 o1]
        end.
        rewrite (IH l1 o1 Hctx eq_refl).
        intros [= <- <-]. destruct o1; reflexivity.
    + destruct (level =? 1), (pe_resource_entry_info_lookup (NameOffset e));
        match goal with
        | |- context [build_node_filename_levels count (level + 1) node ?out
                        output_size s1] =>
            specialize (IH (level + 1) node out output_size s1 s2);
            destruct (build_node_filename_levels count (level + 1) node out
                        output_size s1) as [l1 o1]
        end;
        rewrite (IH l1 o1 Hctx eq_refl);
        intros [= <- <-]; destruct o1; reflexivity.
Qed.

Lemma peres_build_node_filename_ctx {R} node output output_size s1 s2 l o :
  st_ctx s1 = st_ctx s2 ->
  peres_build_node_filename (R := R) node output output_size s1 = (l, o) ->
  peres_build_node_filename (R := R) node output output_size s2
  = (l, match o with
        | Normal v _ => Normal v s2
        | Returned v _ => Returned v s2
        | Crashed f _ => Crashed f s2
        end).
Proof.
  intros Hctx. unfold peres_build_node_filename, call, bind.
  destruct (build_node_filename_levels _ 1 node output output_size s1)
    as [l1 o1] eqn:E1.
  rewrite (build_node_filename_levels_ctx _ _ _ _ _ s1 s2 l1 o1 Hctx E1).
  destruct o1 as [text s|text s|f s].
  - destruct (String.length text); unfold crash, pure;
      intros [= <- <-]; reflexivity.
  - intros [= <- <-]; reflexivity.
  - intros [= <- <-]; reflexivity.
Qed.

(** The file the saver opens in named mode: its name is what the path
    builder gave, on a state with the context of the start. *)
Lemma peres_save_resource_named_opens {R} n c s st p :
  In (SysFopen p)
     (events_of (peres_save_resource (R := R) (Node n c s) true st)) ->
  exists info name l st2 st3,
    resource_type_info n = Some info
    /\ st_ctx st2 = st_ctx st
    /\ peres_build_node_filename (R := unit) n "" MAX_PATH st2
       = (l, Normal name st3)
    /\ p = snprintf MAX_PATH
             (resource_dirName info ++ "/" ++ name ++ resource_extension info).
Proof.
  unfold_saver. cbn_folded. split_folded; intros H; in_cases H;
    try contradiction.
  all: try builder_events.
  all: rewrite ?in_app_iff in H; cbn [In] in H.
  all: repeat match type of H with
              | _ \/ _ => destruct H as [H|H]
              end.
  all: try discriminate H; try contradiction.
  all: try (exfalso; eapply not_warning_not_in; [eassumption| |eassumption];
            cbn; tauto).
  all: inversion H; subst p; clear H.
  all: do 5 eexists.
  all: split; [unfold resource_type_info; rewrite_lookups; reflexivity|].
  all: split; [|split; [eassumption|reflexivity]].
  all: reflexivity.
Qed.

(** X24.  The file that named extraction opens for a data entry is named
    after the line the list prints for it: the category directory, a slash,
    the text the list prints before the size, and the extension, cut to the
    path buffer. *)
Theorem named_extraction_uses_the_listed_name n c s st st0 p entry :
  raw n = dataEntry entry ->
  st_ctx st0 = st_ctx st ->
  In (SysFopen p)
     (events_of (peres_save_resource (R := unit) (Node n c s) true st)) ->
  exists info name l,
    resource_type_info n = Some info
    /\ peres_show_list_node (R := unit) n st0
       = ((l ++ [Stdout (name ++ " (" ++ fmt_d (to_int32 (Size entry))
                           ++ " bytes)" ++ String newline "")])%list,
          Normal tt st0)
    /\ p = snprintf MAX_PATH
             (resource_dirName info ++ "/" ++ name ++ resource_extension info).
Proof.
  intros Hraw Hctx Hin.
  destruct (peres_save_resource_named_opens n c s st p Hin)
    as (info & name & l & st2 & st3 & Hinfo & Hctx2 & Hrun & Hp).
  exists info, name, l. split; [exact Hinfo|]. split; [|exact Hp].
  assert (Hctx0 : st_ctx st2 = st_ctx st0) by congruence.
  pose proof (peres_build_node_filename_ctx (R := unit) n "" MAX_PATH
                st2 st0 l _ Hctx0 Hrun) as Hrun0.
  unfold peres_show_list_node. rewrite Hraw.
  unfold call, bind, emit. rewrite Hrun0. reflexivity.
Qed.

(** ** The directory of a path *)

Lemma directory_of_none (f : string) :
  has_slash f = false -> directory_of f = None.
Proof.
  induction f as [|a f IH]; cbn [has_slash directory_of]; [reflexivity|].
  intros H. apply orb_false_iff in H as [Ha Hf].
  rewrite (IH Hf), Ha. reflexivity.
Qed.

Lemma directory_of_join (d f : string) :
  has_slash f = false -> directory_of (d ++ String "/" f) = Some d.
Proof.
  intros Hf. induction d as [|a d IH].
  - cbn [append directory_of]. rewrite (directory_of_none f Hf). reflexivity.
  - cbn [append directory_of]. rewrite IH. reflexivity.
Qed.

Lemma has_slash_substring (k : nat) (f : string) :
  has_slash f = false -> has_slash (substring 0 k f) = false.
Proof.
  revert k. induction f as [|a f IH]; intros k H; destruct k;
    cbn [substring has_slash] in *; try reflexivity.
  apply orb_false_iff in H as [Ha Hf]. rewrite Ha, (IH k Hf). reflexivity.
Qed.

Lemma has_slash_append (a b : string) :
  has_slash (a ++ b) = has_slash a || has_slash b.
Proof.
  induction a as [|x a IH]; cbn [append has_slash]; [reflexivity|].
  rewrite IH. apply orb_assoc.
Qed.

Lemma digit_is_no_slash (a : ascii) :
  is_digit a = true -> Ascii.eqb a "/" = false.
Proof.
  intros H. destruct (Ascii.eqb_spec a "/") as [->|]; [|reflexivity].
  vm_compute in H. discriminate.
Qed.

Lemma digits_no_slash (s : string) : all_digits s -> has_slash s = false.
Proof.
  unfold all_digits. induction s as [|a s IH];
    cbn [list_ascii_of_string has_slash]; [reflexivity|].
  intros H. inversion H; subst.
  rewrite digit_is_no_slash, IH by assumption. reflexivity.
Qed.

(** In a path buffer of more than a hundred bytes, the directory of the
    path made of the category directory, a slash and a file name without a
    slash is the category directory. *)
Lemma path_directory (d f : string) :
  (String.length d <= 99)%nat -> (101 <= MAX_PATH)%nat ->
  has_slash f = false ->
  directory_of (snprintf MAX_PATH (d ++ "/" ++ f)) = Some d.
Proof.
  intros Hd Hp Hf. unfold snprintf.
  rewrite substring_0_append by lia.
  remember (MAX_PATH - 1 - String.length d)%nat as k.
  destruct k as [|k]; [lia|]. cbn [append substring].
  apply directory_of_join, has_slash_substring, Hf.
Qed.

(** ** The extractor: the directory and the file *)


(** C7, as the code has it.  For every extracted data entry the extractor
    first looks for the base output directory and creates it when it is not
    there, then does the same for the category directory: the subdirectory
    of the base directory named by the table entry of the level-1 type id
    or, when the table has no such entry, the base directory itself.  The
    output file is opened at the path made of that directory, a slash, the
    file name and the extension, cut to the path buffer; the file name is
    the level-2 identifier in decimal in default mode and the text of the
    path builder in named mode, and the file lies in the category directory
    itself when file name and extension hold no slash, as they do in
    default mode when the extension holds none. *)
Theorem extraction_directories n c s (namedExtract : bool) st p :
  (101 <= MAX_PATH)%nat ->
  In (Output "Save On" p)
     (events_of (peres_save_resource (R := unit) (Node n c s) namedExtract st)) ->
  exists info d rest file,
    resource_type_info n = Some info
    /\ d = match info with
           | Some i => snprintf 100 (g_resourceDir ++ "/" ++ dir_name i)
           | None => g_resourceDir
           end
    /\ events_of (peres_save_resource (R := unit) (Node n c s) namedExtract st)
       = (ensure_dir_calls (st_fs st) g_resourceDir
            ++ ensure_dir_calls (ensure_dir_fs (st_fs st) g_resourceDir) d
            ++ rest)%list
    /\ In (SysFopen p) rest
    /\ p = snprintf MAX_PATH (d ++ "/" ++ file ++ resource_extension info)
    /\ (namedExtract = false ->
        exists id, level2_id n = Some id /\ file = fmt_u id)
    /\ (namedExtract = true ->
        exists l st2 st3,
          st_ctx st2 = st_ctx st
          /\ peres_build_node_filename (R := unit) n "" MAX_PATH st2
             = (l, Normal file st3))
    /\ (has_slash (file ++ resource_extension info) = false ->
        directory_of p = Some d)
    /\ (namedExtract = false ->
        has_slash (resource_extension info) = false ->
        directory_of p = Some d).
Proof.
  intros Hmax H. apply peres_save_resource_saved in H.
  pose proof H as H'.
  apply peres_save_resource_opens in H
    as (info & file & rest & T & P & F & E & Hin).
  assert (Hd : resource_dirName info
               = match info with
                 | Some i => snprintf 100 (g_resourceDir ++ "/" ++ dir_name i)
                 | None => g_resourceDir
                 end) by (destruct info; reflexivity).
  assert (Hdir : forall file',
             has_slash (file' ++ resource_extension info) = false ->
             directory_of
               (snprintf MAX_PATH
                  (resource_dirName info ++ "/" ++ file'
                     ++ resource_extension info))
             = Some (resource_dirName info)).
  { intros file' Hs. apply path_directory;
      [apply resource_dirName_length|exact Hmax|exact Hs]. }
  destruct namedExtract.
  - destruct (peres_save_resource_named_opens n c s st p H')
      as (info' & name & l & st2 & st3 & T' & C' & B' & P').
    assert (info' = info) by congruence. subst info'.
    exists info, (resource_dirName info), rest, name.
    split; [exact T|]. split; [exact Hd|]. split; [exact E|].
    split; [exact Hin|]. split; [exact P'|].
    split; [discriminate|].
    split; [intros _; exists l, st2, st3; split; assumption|].
    split; [|discriminate].
    intros Hs. rewrite P'. apply Hdir, Hs.
  - exists info, (resource_dirName info), rest, file.
    split; [exact T|]. split; [exact Hd|]. split; [exact E|].
    split; [exact Hin|]. split; [exact P|].
    split; [exact F|]. split; [discriminate|].
    split; [intros Hs; rewrite P; apply Hdir, Hs|].
    intros _ Hext. rewrite P. apply Hdir.
    destruct (F eq_refl) as (id & _ & ->).
    rewrite has_slash_append, Hext, (digits_no_slash _ (fmt_u_digits id)).
    reflexivity.
Qed.

(** ** The version decoder: the lines in the words of the specification *)

Lemma version_report_dotted c (leaves : list node_ptr) :
  (24 <= MAX_MSG)%nat ->
  uint32_version_records c ->
  version_report c leaves = dotted_report c leaves.
Proof.
  intros Hsize Hrec. induction leaves as [|item rest IH]; [reflexivity|].
  cbn [version_report dotted_report]. destruct item as [|n x y]; [reflexivity|].
  destruct (raw n) as [r|r|r|entry]; try reflexivity.
  destruct (record_checked c entry); [|reflexivity].
  destruct (file_fields_in_bounds c entry); [|reflexivity].
  cbv zeta. destruct (Hrec (version_data_ptr c entry)) as (H1 & H2 & H3 & H4).
  rewrite !version_value_dotted, IH by assumption. reflexivity.
Qed.

Lemma version_leaves_found (node : node_ptr) :
  Forall (found_by peres_is_version_node) (version_leaves node).
Proof.
  unfold version_leaves.
  induction (search_subtree peres_contains_version_node node) as [|p l IH];
    cbn [List.flat_map]; [constructor|].
  apply Forall_app. split; [apply search_subtree_found|exact IH].
Qed.

(** The two lines of a data entry before which every record is read. *)
Lemma version_report_lines c (before : list node_ptr) :
  forall n x y after entry,
    Forall (found_by peres_is_version_node) before ->
    raw n = dataEntry entry ->
    all_readable c (before ++ [Node n x y]) = true ->
    let info := fixedfileinfo_at c (version_data_ptr c entry) in
    exists l1 l2,
      version_report c (before ++ Node n x y :: after)
      = (l1 ++ Output "File Version"
                 (version_value (dwFileVersionMS info) (dwFileVersionLS info))
            :: Output "Product Version"
                 (version_value (dwProductVersionMS info)
                                (dwProductVersionLS info))
            :: l2)%list.
Proof.
  induction before as [|item before IH];
    intros n x y after entry HF Hraw Hall; cbv zeta.
  - cbn [app all_readable version_report] in *. rewrite Hraw in *.
    unfold fields_in_bounds in Hall.
    destruct (record_checked c entry); [|discriminate].
    destruct (file_fields_in_bounds c entry); [|discriminate].
    destruct (product_fields_in_bounds c entry); [|discriminate].
    exists [], (version_report c after). reflexivity.
  - inversion HF as [|i l Hitem Hrest]; subst i l.
    destruct item as [|n0 x0 y0]; [contradiction|].
    destruct (version_node_is_data_entry n0 Hitem) as [entry0 Hraw0].
    cbn [app all_readable version_report] in *. rewrite Hraw0 in *.
    unfold fields_in_bounds in Hall.
    destruct (record_checked c entry0); [|discriminate].
    destruct (file_fields_in_bounds c entry0); [|discriminate].
    destruct (product_fields_in_bounds c entry0); [|discriminate].
    cbn [andb] in Hall.
    destruct (IH n x y after entry Hrest Hraw Hall) as (l1 & l2 & E).
    cbv zeta in E. rewrite E.
    eexists (_ :: _ :: l1), l2. reflexivity.
Qed.

(** C2.  On a tree, with a message buffer that holds a version text and
    32-bit words in the records, the lines the version decoder emits are
    the report in the words of the specification: for each data entry it
    decodes, a File Version and a Product Version line that render the pair
    (MS, LS) as the dotted text of MS>>16, MS&0xFFFF, LS>>16 and LS&0xFFFF.
    Every data entry of the version resource before which, and at which,
    the records are read has these two lines in the output, one after the
    other; for the words 0x00010002 and 0x00030004 the File Version line
    reads 1.2.3.4. *)
Theorem version_decoder_emits_dotted_lines n c s st :
  (24 <= MAX_MSG)%nat ->
  uint32_version_records (st_ctx st) ->
  events_of (peres_show_version (R := unit) (Node n c s) st)
  = dotted_report (st_ctx st) (version_leaves (Node n c s))
  /\ forall before n' c' s' after entry,
       version_leaves (Node n c s)
       = (before ++ Node n' c' s' :: after)%list ->
       raw n' = dataEntry entry ->
       all_readable (st_ctx st) (before ++ [Node n' c' s']) = true ->
       let info :=
         fixedfileinfo_at (st_ctx st) (version_data_ptr (st_ctx st) entry) in
       (exists l1 l2,
           events_of (peres_show_version (R := unit) (Node n c s) st)
           = (l1 ++ Output "File Version"
                      (dotted_version (dwFileVersionMS info)
                                      (dwFileVersionLS info))
                 :: Output "Product Version"
                      (dotted_version (dwProductVersionMS info)
                                      (dwProductVersionLS info))
                 :: l2)%list)
       /\ (dwFileVersionMS info = 0x00010002 ->
           dwFileVersionLS info = 0x00030004 ->
           In (Output "File Version" "1.2.3.4")
              (events_of (peres_show_version (R := unit) (Node n c s) st))).
Proof.
  intros Hsize Hrec.
  destruct (peres_show_version_run (R := unit) n c s st)
    as (st' & Hrun & _).
  cbv zeta in Hrun. rewrite Hrun. unfold events_of. cbn [fst].
  split; [apply version_report_dotted; assumption|].
  intros before n' c' s' after entry Hleaves Hraw Hall. cbv zeta.
  assert (HF : Forall (found_by peres_is_version_node) before).
  { pose proof (version_leaves_found (Node n c s)) as F.
    rewrite Hleaves in F. apply Forall_app in F. apply F. }
  destruct (version_report_lines (st_ctx st) before n' c' s' after entry
              HF Hraw Hall) as (l1 & l2 & E).
  cbv zeta in E.
  destruct (Hrec (version_data_ptr (st_ctx st) entry)) as (H1 & H2 & H3 & H4).
  rewrite !version_value_dotted in E by assumption.
  rewrite Hleaves, E. split.
  - exists l1, l2. reflexivity.
  - intros Hms Hls. rewrite Hms, Hls. apply in_app_iff. right. left.
    reflexivity.
Qed.

(** ** No statement reads through a missing ancestor *)























(** ** The ancestors in a resource tree *)





End Peres.

(** ** The properties on the small image *)

Local Notation "'save_resource'" :=
  (peres_save_resource (R := unit) Sample.MAX_PATH Sample.table
     Sample.widechar2ascii Sample.os_stat Sample.os_mkdir Sample.os_fopen
     Sample.os_fwrite).

Local Notation "'save_all_resources'" :=
  (peres_save_all_resources (R := unit) Sample.MAX_PATH Sample.table
     Sample.widechar2ascii Sample.os_stat Sample.os_mkdir Sample.os_fopen
     Sample.os_fwrite).

(** The trees of the examples are linked the way libpe links a tree. *)
Example sample_trees_well_linked :
  well_linked None Sample.tree1 /\ well_linked None Sample.tree2
  /\ well_linked None Sample.tree3 /\ well_linked None Sample.tree4.
Proof. cbn. repeat split. Qed.

(** Thirteen nodes: five directories, six entries, two data entries. *)
Example peres_show_stats_tree1 :
  events_of (peres_show_stats (R := unit) Sample.MAX_MSG Sample.tree1
               (Sample.start Sample.tree1 []))
  = [Output "Total Structs" "13"; Output "Total Resource Directory" "5";
     Output "Total Directory Entry" "6"; Output "Total Data String" "0";
     Output "Total Data Entry" "2"].
Proof. vm_compute. reflexivity. Qed.

Lemma stats_total_is_sum_and_dump_count_witness :
  exists stats,
    peres_generate_stats stats_zero Sample.tree1 = Some stats
    /\ totalCount stats =
         totalResourceDirectory stats + totalDirectoryEntry stats
         + totalDataString stats + totalDataEntry stats
    /\ totalCount stats =
         Z.of_nat (nodes_visited
                     (events_of
                        (peres_show_nodes (R := unit) Sample.MAX_MSG
                           Sample.widechar2ascii Sample.tree1
                           (Sample.start Sample.tree1 [])))).
Proof.
  apply (stats_total_is_sum_and_dump_count Sample.MAX_MSG Sample.widechar2ascii
           Sample.tree1 (Sample.start Sample.tree1 [])).
  vm_compute. discriminate.
Defined.

Lemma version_decoder_emits_dotted_lines_witness :
  events_of (peres_show_version (R := unit) Sample.MAX_MSG Sample.RT_VERSION
               Sample.tree1 (Sample.start Sample.tree1 []))
  = dotted_report (Sample.image Sample.tree1)
      (version_leaves Sample.RT_VERSION Sample.tree1)
  /\ In (Output "File Version" "1.2.3.4")
        (events_of (peres_show_version (R := unit) Sample.MAX_MSG
                      Sample.RT_VERSION Sample.tree1
                      (Sample.start Sample.tree1 []))).
Proof.
  destruct (version_decoder_emits_dotted_lines Sample.MAX_MSG Sample.RT_VERSION
              Sample.n_root
              (Sample.resource Sample.RT_ICON 1 [(1033, 512, 4)]
                 (Sample.resource Sample.RT_VERSION 1 [(1033, 256, 92)] NULL))
              NULL (Sample.start Sample.tree1 []))
    as [Hlog Hleaf].
  - unfold Sample.MAX_MSG. lia.
  - intros p. cbn. destruct (p =? 288); vm_compute;
      repeat split; discriminate.
  - split; [exact Hlog|].
    apply (Hleaf [] Sample.version1 NULL NULL [] (Sample.data 256 92));
      reflexivity.
Defined.

(** The whole decoder on a tree with an icon and a version resource. *)
Example peres_show_version_tree1 :
  events_of (peres_show_version (R := unit) Sample.MAX_MSG Sample.RT_VERSION
               Sample.tree1 (Sample.start Sample.tree1 []))
  = [Output "File Version" "1.2.3.4"; Output "Product Version" "5.6.7.8"].
Proof. vm_compute. reflexivity. Qed.



(** The saver checks the name entry but not the type entry: a data entry
    with no level-1 directory entry above it stops the process. *)
Example save_resource_missing_type_entry :
  snd (save_resource
         (Node (mk_node (Sample.leaf 512 4) 3 None) NULL NULL) false
         (Sample.start Sample.tree1 []))
  = Crashed NullDereference
      {| st_ctx := Sample.image Sample.tree1;
         st_fs := [("resources", Dir)];
         st_search_items := 0 |}.
Proof. vm_compute. reflexivity. Qed.

(** C4, what the code does.  On a version resource with two languages, the
    first of which cannot be read, the decoder emits the warning and
    returns: the second language, which decodes when it stands alone, is
    not reported, and the three result items of the two searches are still
    allocated. *)
Theorem show_version_unreadable_leaf_ends_decoding :
  let r := peres_show_version (R := unit) Sample.MAX_MSG Sample.RT_VERSION
             Sample.tree2 (Sample.start Sample.tree2 []) in
  events_of r = [Warning "Cannot read VS_FIXEDFILEINFO"]
  /\ st_search_items (state_of r) = 3%nat
  /\ events_of (peres_show_version (R := unit) Sample.MAX_MSG Sample.RT_VERSION
                  Sample.tree4 (Sample.start Sample.tree4 []))
     = [Output "File Version" "1.2.3.4"; Output "Product Version" "5.6.7.8"]
  /\ st_search_items
       (state_of (peres_show_version (R := unit) Sample.MAX_MSG Sample.RT_VERSION
                    Sample.tree4 (Sample.start Sample.tree4 [])))
     = 0%nat.
Proof. vm_compute. repeat split. Qed.

Lemma unreadable_entry_is_skipped_witness :
  exists msg,
    save_resource (Node Sample.unreadable NULL NULL) false
      (Sample.start Sample.tree2 [])
    = ([Stderr msg], Normal tt (Sample.start Sample.tree2 []))
    /\ let rest :=
         call (R := unit) (R' := unit)
           (save_all_resources NULL false ;; save_all_resources NULL false)
           (Sample.start Sample.tree2 []) in
       save_all_resources (Node Sample.unreadable NULL NULL) false
         (Sample.start Sample.tree2 [])
       = (Stderr msg :: events_of rest, snd rest).
Proof.
  apply (unreadable_entry_is_skipped Sample.MAX_PATH Sample.table
           Sample.widechar2ascii Sample.os_stat Sample.os_mkdir Sample.os_fopen
           Sample.os_fwrite Sample.unreadable NULL NULL false
           (Sample.start Sample.tree2 []) (Sample.data 8192 92)).
  - reflexivity.
  - reflexivity.
  - reflexivity.
Defined.

(** Whole-tree extraction of a version resource in two languages, the
    first of them unreadable: one diagnostic, then the second language is
    written. *)
Example extraction_goes_on_after_unreadable_entry :
  List.filter (fun e => match e with
                        | Stderr _ | SysFopen _ | Output _ _ => true
                        | _ => false
                        end)
     (events_of (save_all_resources Sample.tree2 false
                   (Sample.start Sample.tree2 [])))
  = [Stderr ("Attempted to read range [ 0x2000, 0x205c ] which is not "
               ++ "within the mapped range [ 0x0, 1000 ]" ++ String newline "");
     SysFopen "resources/versions/1.rc";
     Output "Save On" "resources/versions/1.rc"].
Proof. vm_compute. reflexivity. Qed.



(** C7 as stated fails: a data entry whose type 77 is not in the table is
    extracted to the base directory itself; no subdirectory is looked for
    or made, and the file system afterwards holds no directory but the
    base. *)
Lemma no_fallback_subdirectory :
  let r := save_resource (Node Sample.other NULL NULL) false
             (Sample.start Sample.tree3 []) in
  In (Output "Save On" "resources/5.bin") (events_of r)
  /\ ~ in_category_subdirectory (events_of r) "resources/5.bin"
  /\ List.filter (fun e => match snd e with Dir => true | _ => false end)
                 (st_fs (state_of r))
     = [("resources", Dir)].
Proof.
  cbn zeta. split; [|split].
  - vm_compute. do 6 right. left. reflexivity.
  - intros (sub & f & Hsub & Hin & _).
    vm_compute in Hin.
    repeat (destruct Hin as [Hin|Hin]; try discriminate Hin); contradiction.
  - vm_compute. reflexivity.
Qed.

Lemma extraction_directories_witness :
  exists info d rest file,
    resource_type_info Sample.table Sample.other = Some info
    /\ d = match info with
           | Some i => snprintf 100 (g_resourceDir ++ "/" ++ dir_name i)
           | None => g_resourceDir
           end
    /\ events_of (save_resource (Node Sample.other NULL NULL) false
                    (Sample.start Sample.tree3 []))
       = (ensure_dir_calls Sample.os_stat [] g_resourceDir
            ++ ensure_dir_calls Sample.os_stat
                 (ensure_dir_fs Sample.os_stat Sample.os_mkdir [] g_resourceDir) d
            ++ rest)%list
    /\ In (SysFopen "resources/5.bin") rest
    /\ "resources/5.bin"
       = snprintf Sample.MAX_PATH (d ++ "/" ++ file ++ resource_extension info)
    /\ (false = false ->
        exists id, level2_id Sample.other = Some id /\ file = fmt_u id)
    /\ (false = true ->
        exists l st2 st3,
          st_ctx st2 = st_ctx (Sample.start Sample.tree3 [])
          /\ peres_build_node_filename (R := unit) Sample.MAX_PATH
               Sample.table Sample.widechar2ascii Sample.other ""
               Sample.MAX_PATH st2
             = (l, Normal file st3))
    /\ (has_slash (file ++ resource_extension info) = false ->
        directory_of "resources/5.bin" = Some d)
    /\ (false = false ->
        has_slash (resource_extension info) = false ->
        directory_of "resources/5.bin" = Some d).
Proof.
  apply (extraction_directories Sample.MAX_PATH Sample.table
           Sample.widechar2ascii Sample.os_stat Sample.os_mkdir Sample.os_fopen
           Sample.os_fwrite Sample.other NULL NULL false
           (Sample.start Sample.tree3 []) "resources/5.bin").
  - unfold Sample.MAX_PATH. lia.
  - vm_compute. do 6 right. left. reflexivity.
Defined.

Lemma default_names_distinct_witness :
  "resources/icons/1.ico" <> "resources/icons/2.ico".
Proof.
  apply (default_names_distinct Sample.MAX_PATH Sample.table
           Sample.widechar2ascii Sample.os_stat Sample.os_mkdir Sample.os_fopen
           Sample.os_fwrite
           Sample.icon1 NULL NULL Sample.icon2 NULL NULL
           (Sample.start Sample.tree1 []) (Sample.start Sample.tree1 [])
           "resources/icons/1.ico" "resources/icons/2.ico" 1 2).
  - intros i Hi. simpl in Hi.
    repeat (destruct Hi as [Hi|Hi]; [subst i; reflexivity|]). contradiction.
  - vm_compute. do 4 right. left. reflexivity.
  - vm_compute. do 4 right. left. reflexivity.
  - reflexivity.
  - reflexivity.
  - lia.
  - reflexivity.
  - vm_compute. lia.
  - vm_compute. lia.
Defined.

(** The identifier default mode prints is the 31-bit field: an entry named
    by the string at offset 256 and the entry with id 256 have the same. *)
Example name_offset_of_string_and_numeric_entry :
  NameOffset {| u0_Name := 0x80000100; u1_OffsetToData := 0 |}
  = NameOffset {| u0_Name := 0x00000100; u1_OffsetToData := 0 |}.
Proof. reflexivity. Qed.

(** Two languages of one name have one level-2 identifier, and default
    mode writes both to one path. *)
Example languages_share_a_default_name :
  List.filter (fun e => match e with SysFopen _ => true | _ => false end)
     (events_of (save_all_resources
                   (Sample.tree_of
                      (Sample.resource Sample.RT_ICON 1
                         [(1033, 512, 4); (1046, 600, 4)] NULL))
                   false (Sample.start Sample.tree1 [])))
  = [SysFopen "resources/icons/1.ico"; SysFopen "resources/icons/1.ico"].
Proof. vm_compute. reflexivity. Qed.

(** A name is read up to its first zero code unit: the letter A, a zero
    and the letter B give the path its first letter only. *)
Example name_ends_at_zero :
  peres_build_node_filename (R := unit) Sample.MAX_PATH Sample.table
    Sample.widechar2ascii Sample.named1 "" Sample.MAX_PATH
    {| st_ctx := Sample.image_with_names [65; 0; 66] Sample.tree5;
       st_fs := []; st_search_items := 0 |}
  = ([], Normal "A0001 0409"
           {| st_ctx := Sample.image_with_names [65; 0; 66] Sample.tree5;
              st_fs := []; st_search_items := 0 |}).
Proof. vm_compute. reflexivity. Qed.

(** Names that start with a zero code unit at every level leave the path
    empty, and the builder writes before the buffer. *)
Example empty_names_write_before_the_buffer :
  snd (peres_build_node_filename (R := unit) Sample.MAX_PATH Sample.table
         Sample.widechar2ascii Sample.named3 "" Sample.MAX_PATH
         {| st_ctx := Sample.image_with_names [0; 65] Sample.tree6;
            st_fs := []; st_search_items := 0 |})
  = Crashed OutOfBoundsWrite
      {| st_ctx := Sample.image_with_names [0; 65] Sample.tree6;
         st_fs := []; st_search_items := 0 |}.
Proof. vm_compute. reflexivity. Qed.

(** A version record that declares no bytes and starts where the mapped
    file ends passes the bounds check; its fields lie outside the file. *)
Example version_fields_outside_the_file :
  peres_show_version (R := unit) Sample.MAX_MSG Sample.RT_VERSION
    Sample.tree7 (Sample.start Sample.tree7 [])
  = ([], Crashed OutOfBoundsRead
           {| st_ctx := Sample.image Sample.tree7; st_fs := [];
              st_search_items := 2 |}).
Proof. vm_compute. reflexivity. Qed.

(** A version record of which only the first sixteen bytes lie in the
    mapped file: the File Version line is printed from the pair that does,
    and the pair of the product version is read outside the file. *)
Example product_version_outside_the_file :
  peres_show_version (R := unit) Sample.MAX_MSG Sample.RT_VERSION
    Sample.tree8 (Sample.start Sample.tree8 [])
  = ([Output "File Version" "0.0.0.0"],
     Crashed OutOfBoundsRead
       {| st_ctx := Sample.image Sample.tree8; st_fs := [];
          st_search_items := 2 |}).
Proof. vm_compute. reflexivity. Qed.

(** ** The further properties on the small image *)

Local Notation "'build_node_filename'" :=
  (peres_build_node_filename (R := unit) Sample.MAX_PATH Sample.table
     Sample.widechar2ascii) (only parsing).

Local Notation "'show_list'" :=
  (peres_show_list (R := unit) Sample.MAX_PATH Sample.table
     Sample.widechar2ascii) (only parsing).

Local Notation "'main_operations'" :=
  (peres_main_operations (R := unit) Sample.MAX_MSG Sample.MAX_PATH
     Sample.RT_VERSION Sample.table Sample.widechar2ascii Sample.os_stat
     Sample.os_mkdir Sample.os_fopen Sample.os_fwrite) (only parsing).

(** A command line environment that knows every format. *)
Local Notation "'sample_cli'" :=
  {| usage_text := "Usage: peres OPTIONS FILE";
     version_text := "peres";
     EXIT_ERROR := fun msg => (EXIT_FAILURE, [Stderr msg]);
     output_set_format_by_name := fun _ => 0 |} (only parsing).

(** A type entry named by a string whose header lies outside the mapped
    file, and a data entry under it. *)
Local Notation "'far_name'" := (0x80000000 + 5000) (only parsing).

Lemma peres_generate_stats_counts_witness :
  exists st',
    peres_generate_stats stats_zero Sample.tree1 = Some st'
    /\ totalCount st' = 13
    /\ totalResourceDirectory st' = 5
    /\ totalDirectoryEntry st' = 6
    /\ totalDataString st' = 0
    /\ totalDataEntry st' = 2.
Proof.
  apply (peres_generate_stats_counts Sample.tree1 stats_zero).
  - unfold stats_consistent, stats_sum. cbn. lia.
  - vm_compute. discriminate.
Defined.

Lemma peres_show_stats_report_witness :
  peres_show_stats (R := unit) Sample.MAX_MSG Sample.tree1
    (Sample.start Sample.tree1 [])
  = ([Output "Total Structs" "13"; Output "Total Resource Directory" "5";
      Output "Total Directory Entry" "6"; Output "Total Data String" "0";
      Output "Total Data Entry" "2"],
     Normal tt (Sample.start Sample.tree1 [])).
Proof.
  apply (peres_show_stats_report Sample.MAX_MSG Sample.tree1
           (Sample.start Sample.tree1 [])).
  vm_compute. discriminate.
Defined.

Lemma peres_build_node_filename_fits_witness :
  (String.length "RT_ICON 0001 0409" < Sample.MAX_PATH)%nat.
Proof.
  apply (peres_build_node_filename_fits Sample.MAX_PATH Sample.table
           Sample.widechar2ascii Sample.icon1 "" Sample.MAX_PATH
           (Sample.start Sample.tree1 []) "RT_ICON 0001 0409"
           (Sample.start Sample.tree1 [])).
  - unfold Sample.MAX_PATH. cbn. lia.
  - vm_compute. reflexivity.
Defined.

Lemma peres_build_node_filename_unreadable_name_witness :
  build_node_filename (Sample.n_data far_name 1 1033 512 4) ""
    Sample.MAX_PATH (Sample.start Sample.tree1 [])
  = ([Warning "Cannot read IMAGE_RESOURCE_DATA_STRING_U"],
     Normal "" (Sample.start Sample.tree1 [])).
Proof.
  apply (peres_build_node_filename_unreadable_name Sample.MAX_PATH Sample.table
           Sample.widechar2ascii 1 (Sample.n_data far_name 1 1033 512 4) ""
           Sample.MAX_PATH (Sample.start Sample.tree1 []) [] ""
           (Sample.start Sample.tree1 []) (Sample.n_type far_name)
           {| u0_Name := far_name; u1_OffsetToData := 0x80000000 |}).
  - cbn. lia.
  - reflexivity.
  - reflexivity.
  - reflexivity.
  - vm_compute. discriminate.
  - reflexivity.
Defined.

Lemma peres_build_node_filename_numeric_witness :
  build_node_filename Sample.icon1 "" Sample.MAX_PATH
    (Sample.start Sample.tree1 [])
  = ([], Normal "RT_ICON 0001 0409" (Sample.start Sample.tree1 [])).
Proof.
  apply (peres_build_node_filename_numeric Sample.MAX_PATH Sample.table
           Sample.widechar2ascii Sample.icon1 Sample.MAX_PATH
           (Sample.start Sample.tree1 [])
           (Sample.n_type Sample.RT_ICON)
           {| u0_Name := Sample.RT_ICON; u1_OffsetToData := 0x80000000 |}
           (Sample.n_name Sample.RT_ICON 1)
           {| u0_Name := 1; u1_OffsetToData := 0x80000000 |}
           (Sample.n_lang Sample.RT_ICON 1 1033)
           {| u0_Name := 1033; u1_OffsetToData := 0x80000000 |}).
  all: try reflexivity.
  all: vm_compute; lia.
Defined.

Lemma peres_show_list_one_line_per_data_entry_witness :
  Sample.start Sample.tree1 [] = Sample.start Sample.tree1 []
  /\ Forall (fun e => is_stdout e = true \/ is_warning e)
            (events_of (show_list Sample.tree1 (Sample.start Sample.tree1 [])))
  /\ count_events is_stdout
       (events_of (show_list Sample.tree1 (Sample.start Sample.tree1 [])))
     = count_type LIBPE_RDT_DATA_ENTRY Sample.tree1.
Proof.
  apply (peres_show_list_one_line_per_data_entry Sample.MAX_PATH Sample.table
           Sample.widechar2ascii Sample.tree1 (Sample.start Sample.tree1 [])
           (Sample.start Sample.tree1 [])).
  vm_compute. reflexivity.
Defined.

Lemma extraction_of_nothing_witness :
  save_all_resources (Sample.tree_of NULL) true (Sample.start Sample.tree1 [])
  = ([], Normal tt (Sample.start Sample.tree1 [])).
Proof.
  apply (extraction_of_nothing Sample.MAX_PATH Sample.table
           Sample.widechar2ascii Sample.os_stat Sample.os_mkdir Sample.os_fopen
           Sample.os_fwrite (Sample.tree_of NULL) true
           (Sample.start Sample.tree1 [])).
  reflexivity.
Defined.

Lemma extraction_paths_start_at_base_witness :
  Forall under_base
         (events_of (save_all_resources Sample.tree1 false
                       (Sample.start Sample.tree1 []))).
Proof.
  apply (extraction_paths_start_at_base Sample.MAX_PATH Sample.table
           Sample.widechar2ascii Sample.os_stat Sample.os_mkdir Sample.os_fopen
           Sample.os_fwrite Sample.tree1 false (Sample.start Sample.tree1 [])).
  unfold Sample.MAX_PATH. lia.
Defined.

Lemma extraction_without_streams_witness :
  let log :=
    events_of (peres_save_all_resources (R := unit) Sample.MAX_PATH Sample.table
                 Sample.widechar2ascii Sample.os_stat Sample.os_mkdir
                 (fun _ _ => None) Sample.os_fwrite Sample.tree1 false
                 (Sample.start Sample.tree1 [])) in
  count_events is_fwrite log = 0%nat
  /\ count_events is_fclose log = 0%nat
  /\ count_events is_save_on log = 0%nat.
Proof.
  apply (extraction_without_streams Sample.MAX_PATH Sample.table
           Sample.widechar2ascii Sample.os_stat Sample.os_mkdir
           (fun _ _ => None) Sample.os_fwrite Sample.tree1 false
           (Sample.start Sample.tree1 [])).
  intros fs p. reflexivity.
Defined.

Lemma save_resource_without_name_entry_witness :
  exists st',
    save_resource (Node Sample.stray NULL NULL) false
      (Sample.start Sample.tree1 [])
    = ([SysStat "resources"; SysMkdir "resources";
        SysStat "resources/icons"; SysMkdir "resources/icons";
        Stderr ("pe_resource_find_parent_node_by_type_and_level returned NULL"
                  ++ String newline "")],
       Normal tt st')
    /\ st_ctx st' = Sample.image Sample.tree1
    /\ st_fs st' = [("resources/icons", Dir); ("resources", Dir)]
    /\ st_search_items st' = 0%nat.
Proof.
  apply (save_resource_without_name_entry Sample.MAX_PATH Sample.table
           Sample.widechar2ascii Sample.os_stat Sample.os_mkdir Sample.os_fopen
           Sample.os_fwrite Sample.stray NULL NULL false
           (Sample.start Sample.tree1 []) (Sample.data 512 4)
           (Sample.n_type Sample.RT_ICON)
           {| u0_Name := Sample.RT_ICON; u1_OffsetToData := 0x80000000 |}).
  all: reflexivity.
Defined.

Lemma save_resource_without_type_entry_witness :
  exists st',
    save_resource (Node (mk_node (Sample.leaf 512 4) 3 None) NULL NULL) false
      (Sample.start Sample.tree1 [])
    = ([SysStat "resources"; SysMkdir "resources"],
       Crashed NullDereference st')
    /\ st_ctx st' = Sample.image Sample.tree1
    /\ st_fs st' = [("resources", Dir)].
Proof.
  apply (save_resource_without_type_entry Sample.MAX_PATH Sample.table
           Sample.widechar2ascii Sample.os_stat Sample.os_mkdir Sample.os_fopen
           Sample.os_fwrite (mk_node (Sample.leaf 512 4) 3 None) NULL NULL false
           (Sample.start Sample.tree1 []) (Sample.data 512 4)).
  all: reflexivity.
Defined.

Lemma operations_without_extraction_only_report_witness :
  let r := main_operations
             {| opt_all := false; opt_extract := false;
                opt_namedExtract := false; opt_info := true;
                opt_statistics := true; opt_list := true;
                opt_version := true; opt_help := false |}
             Sample.tree1 (Sample.start Sample.tree1 []) in
  st_fs (state_of r) = []
  /\ Forall (fun e => is_syscall e = false) (events_of r).
Proof.
  apply (operations_without_extraction_only_report Sample.MAX_MSG
           Sample.MAX_PATH Sample.RT_VERSION Sample.table Sample.widechar2ascii
           Sample.os_stat Sample.os_mkdir Sample.os_fopen Sample.os_fwrite
           {| opt_all := false; opt_extract := false;
              opt_namedExtract := false; opt_info := true;
              opt_statistics := true; opt_list := true;
              opt_version := true; opt_help := false |}
           Sample.tree1 (Sample.start Sample.tree1 [])).
  all: reflexivity.
Defined.

Lemma parse_options_flags_witness :
  let results := [(chr "X", ""); (chr "l", ""); (chr "f", "json"); (-1, "")] in
  let o := {| opt_all := false; opt_extract := true; opt_namedExtract := true;
              opt_info := false; opt_statistics := false; opt_list := true;
              opt_version := false; opt_help := false |} in
  opt_all o = has_code "a" results
  /\ opt_extract o = has_code "x" results || has_code "X" results
  /\ opt_namedExtract o = has_code "X" results
  /\ opt_info o = has_code "i" results
  /\ opt_statistics o = has_code "s" results
  /\ opt_list o = has_code "l" results
  /\ opt_version o = has_code "v" results
  /\ opt_help o = false
  /\ (opt_namedExtract o = true -> opt_extract o = true).
Proof.
  apply (parse_options_flags sample_cli
           [(chr "X", ""); (chr "l", ""); (chr "f", "json"); (-1, "")]
           {| opt_all := false; opt_extract := true; opt_namedExtract := true;
              opt_info := false; opt_statistics := false; opt_list := true;
              opt_version := false; opt_help := false |}).
  vm_compute. reflexivity.
Defined.

Lemma command_line_without_extraction_witness :
  let r := main_operations
             {| opt_all := false; opt_extract := false;
                opt_namedExtract := false; opt_info := false;
                opt_statistics := true; opt_list := true;
                opt_version := false; opt_help := false |}
             Sample.tree1 (Sample.start Sample.tree1 []) in
  st_fs (state_of r) = []
  /\ Forall (fun e => is_syscall e = false) (events_of r).
Proof.
  apply (command_line_without_extraction Sample.MAX_MSG
           Sample.MAX_PATH Sample.RT_VERSION Sample.table Sample.widechar2ascii
           Sample.os_stat Sample.os_mkdir Sample.os_fopen Sample.os_fwrite
           sample_cli [(chr "l", ""); (chr "s", ""); (-1, "")]
           {| opt_all := false; opt_extract := false;
              opt_namedExtract := false; opt_info := false;
              opt_statistics := true; opt_list := true;
              opt_version := false; opt_help := false |}
           Sample.tree1 (Sample.start Sample.tree1 [])).
  all: vm_compute; reflexivity.
Defined.

Lemma peres_build_node_filename_returns_witness :
  exists l path,
    build_node_filename Sample.named1 "" Sample.MAX_PATH
      (Sample.start Sample.tree5 [])
    = (l, Normal path (Sample.start Sample.tree5 [])).
Proof.
  apply (peres_build_node_filename_returns Sample.MAX_PATH Sample.table
           Sample.widechar2ascii Sample.named1 "" Sample.MAX_PATH
           (Sample.start Sample.tree5 [])).
  - unfold Sample.MAX_PATH. lia.
  - unfold Sample.MAX_PATH. lia.
  - unfold Sample.MAX_PATH. cbn. lia.
  - vm_compute. reflexivity.
Defined.

Lemma peres_show_list_returns_witness :
  exists l,
    show_list Sample.tree1 (Sample.start Sample.tree1 [])
    = (l, Normal tt (Sample.start Sample.tree1 []))
    /\ count_events is_stdout l = 2%nat.
Proof.
  apply (peres_show_list_returns Sample.MAX_PATH Sample.table
           Sample.widechar2ascii Sample.tree1 (Sample.start Sample.tree1 [])).
  - unfold Sample.MAX_PATH. lia.
  - vm_compute. reflexivity.
Defined.

Lemma extraction_returns_witness :
  exists l st',
    save_all_resources Sample.tree5 true (Sample.start Sample.tree5 [])
    = (l, Normal tt st').
Proof.
  apply (extraction_returns Sample.MAX_PATH Sample.table
           Sample.widechar2ascii Sample.os_stat Sample.os_mkdir Sample.os_fopen
           Sample.os_fwrite Sample.tree5 true (Sample.start Sample.tree5 [])).
  - unfold Sample.MAX_PATH. lia.
  - vm_compute. reflexivity.
Defined.

Lemma operations_return_witness :
  exists l st',
    main_operations
      {| opt_all := true; opt_extract := false; opt_namedExtract := false;
         opt_info := false; opt_statistics := false; opt_list := false;
         opt_version := false; opt_help := false |}
      Sample.tree1 (Sample.start Sample.tree1 [])
    = (l, Normal tt st').
Proof.
  apply (operations_return Sample.MAX_MSG
           Sample.MAX_PATH Sample.RT_VERSION Sample.table Sample.widechar2ascii
           Sample.os_stat Sample.os_mkdir Sample.os_fopen Sample.os_fwrite
           {| opt_all := true; opt_extract := false; opt_namedExtract := false;
              opt_info := false; opt_statistics := false; opt_list := false;
              opt_version := false; opt_help := false |}
           Sample.n_root
           (Sample.resource Sample.RT_ICON 1 [(1033, 512, 4)]
              (Sample.resource Sample.RT_VERSION 1 [(1033, 256, 92)] NULL))
           NULL (Sample.start Sample.tree1 [])).
  - unfold Sample.MAX_PATH. lia.
  - vm_compute. reflexivity.
  - vm_compute. reflexivity.
  - vm_compute. discriminate.
Defined.

Lemma named_extraction_uses_the_listed_name_witness :
  exists info name l,
    resource_type_info Sample.table Sample.icon1 = Some info
    /\ peres_show_list_node (R := unit) Sample.MAX_PATH Sample.table
         Sample.widechar2ascii Sample.icon1
         (Sample.start Sample.tree1 [("resources", Dir)])
       = ((l ++ [Stdout (name ++ " (" ++ fmt_d (to_int32 4)
                           ++ " bytes)" ++ String newline "")])%list,
          Normal tt (Sample.start Sample.tree1 [("resources", Dir)]))
    /\ "resources/icons/RT_ICON 0001 0409.ico"
       = snprintf Sample.MAX_PATH
           (resource_dirName info ++ "/" ++ name ++ resource_extension info).
Proof.
  apply (named_extraction_uses_the_listed_name Sample.MAX_PATH Sample.table
           Sample.widechar2ascii Sample.os_stat Sample.os_mkdir Sample.os_fopen
           Sample.os_fwrite Sample.icon1 NULL NULL
           (Sample.start Sample.tree1 [])
           (Sample.start Sample.tree1 [("resources", Dir)])
           "resources/icons/RT_ICON 0001 0409.ico" (Sample.data 512 4)).
  - reflexivity.
  - reflexivity.
  - vm_compute. repeat (first [left; reflexivity | right]).
Defined.
